(** * The Aspeed LPC mailbox driver (drivers/misc/aspeed-lpc-mbox.c)

    A shallow embedding of the character-device operations of the driver
    (open, release, read, write, poll and the interrupt handler) over an
    explicit machine state, followed by the properties the design document
    states about them.

    The driver talks to three collaborators that are not part of the file:
    the regmap bus with the device behind it, the memory of the calling
    process, and the scheduler.  They are modelled here as fields of one
    [world] record, together with a trace of the externally visible
    actions (bus transactions, log lines, lock operations, wake-ups,
    context switches).  Every operation of the driver is a computation in
    a small state monad over [world]. *)

From Stdlib Require Import ZArith Lia.
From stdpp Require Import base option list gmap.

Local Open Scope Z_scope.

(** ** Machine integers

    The SoCs the driver binds to (ast2400, ast2500) are 32-bit ARM cores:
    [int], [ssize_t] and [size_t] are 32 bits wide, [loff_t] is 64 bits
    wide, [u8] is one byte. *)

Definition wrap_u32 (z : Z) : Z := z mod 2 ^ 32.
Definition wrap_s32 (z : Z) : Z := (z + 2 ^ 31) mod 2 ^ 32 - 2 ^ 31.
Definition wrap_s64 (z : Z) : Z := (z + 2 ^ 63) mod 2 ^ 64 - 2 ^ 63.
Definition u8 (z : Z) : Z := Z.land z 0xff.

Definition SIZE_MAX : Z := 2 ^ 32 - 1.
Definition LLONG_MAX : Z := 2 ^ 63 - 1.

(** ** Constants *)

(** Modelled from the spec: the kernel macro [BIT(n)], one bit set at
    position [n] (section 6 gives bit0 = SEND, bit1 = MASK, bit7 = RECV). *)
Definition BIT (n : Z) : Z := Z.shiftl 1 n.

Definition ASPEED_MBOX_NUM_REGS : Z := 16.

Definition ASPEED_MBOX_DATA_0 : Z := 0x00.
Definition ASPEED_MBOX_STATUS_0 : Z := 0x40.
Definition ASPEED_MBOX_STATUS_1 : Z := 0x44.
Definition ASPEED_MBOX_BMC_CTRL : Z := 0x48.
Definition ASPEED_MBOX_CTRL_RECV : Z := BIT 7.
Definition ASPEED_MBOX_CTRL_MASK : Z := BIT 1.
Definition ASPEED_MBOX_CTRL_SEND : Z := BIT 0.
Definition ASPEED_MBOX_HOST_CTRL : Z := 0x4c.
Definition ASPEED_MBOX_INTERRUPT_0 : Z := 0x50.
Definition ASPEED_MBOX_INTERRUPT_1 : Z := 0x54.

(** Modelled from the spec: the error numbers behind the result kinds of
    section 7 ([Fault], [InvalidArgument], [WouldBlock], [Busy],
    [Interrupted]), with the values of the kernel's errno headers; the
    open-flag, poll and interrupt-return constants likewise. *)
Definition EFAULT : Z := 14.
Definition EINVAL : Z := 22.
Definition EAGAIN : Z := 11.
Definition EBUSY : Z := 16.
Definition ERESTARTSYS : Z := 512.
Definition O_NONBLOCK : Z := 2048.
Definition POLLIN : Z := 1.
Definition IRQ_NONE : Z := 0.
Definition IRQ_HANDLED : Z := 1.

(** ** The machine state *)

(** What a process sleeping on the wait queue can be woken by. *)
Inductive wake : Type :=
| HostDoorbell (msg : list Z)  (* the host fills the window and raises RECV *)
| SpuriousWake                 (* woken although nothing changed *)
| SignalDelivered.             (* a signal becomes pending for the process *)

(** The dev_err() lines of the two register accessors. *)
Inductive logline : Type :=
| ReadFailed (rc reg : Z)
| WriteFailed (rc data reg : Z).

Inductive event : Type :=
| BusRead (addr : Z)            (* regmap_read(map, addr, ..) *)
| BusWrite (addr data : Z)      (* regmap_write(map, addr, data) *)
| DevErr (l : logline)          (* dev_err() *)
| MutexLock                     (* mutex_lock(&mbox->mutex) *)
| MutexUnlock                   (* mutex_unlock(&mbox->mutex) *)
| WakeUp                        (* wake_up(&mbox->queue) *)
| PollWait                      (* poll_wait(file, &mbox->queue, wait) *)
| Schedule.                     (* the process gave up the processor *)

Record world : Type := World {
  mbox_base : Z;              (* mbox->base *)
  regs : gmap Z Z;            (* the registers behind mbox->regmap *)
  bus_rc : list Z;            (* return codes of the coming bus transactions;
                                 0 is success, and so is an exhausted list *)
  aspeed_mbox_open_count : Z; (* the file-scope atomic_t *)
  mutex_held : bool;          (* mbox->mutex *)
  addr_limit : Z;             (* end of the caller's user address range *)
  umem : gmap Z Z;            (* mapped bytes of the calling process *)
  sigpending : bool;          (* signal_pending(current) *)
  sched : list wake;          (* what happens at each coming sleep *)
  trace : list event          (* actions performed so far, oldest first *)
}.

Definition set_regs (r : gmap Z Z) (w : world) : world :=
  World (mbox_base w) r (bus_rc w) (aspeed_mbox_open_count w) (mutex_held w)
        (addr_limit w) (umem w) (sigpending w) (sched w) (trace w).
Definition set_bus_rc (l : list Z) (w : world) : world :=
  World (mbox_base w) (regs w) l (aspeed_mbox_open_count w) (mutex_held w)
        (addr_limit w) (umem w) (sigpending w) (sched w) (trace w).
Definition set_open_count (c : Z) (w : world) : world :=
  World (mbox_base w) (regs w) (bus_rc w) c (mutex_held w)
        (addr_limit w) (umem w) (sigpending w) (sched w) (trace w).
Definition set_mutex_held (b : bool) (w : world) : world :=
  World (mbox_base w) (regs w) (bus_rc w) (aspeed_mbox_open_count w) b
        (addr_limit w) (umem w) (sigpending w) (sched w) (trace w).
Definition set_umem (m : gmap Z Z) (w : world) : world :=
  World (mbox_base w) (regs w) (bus_rc w) (aspeed_mbox_open_count w)
        (mutex_held w) (addr_limit w) m (sigpending w) (sched w) (trace w).
Definition set_sigpending (b : bool) (w : world) : world :=
  World (mbox_base w) (regs w) (bus_rc w) (aspeed_mbox_open_count w)
        (mutex_held w) (addr_limit w) (umem w) b (sched w) (trace w).
Definition set_sched (l : list wake) (w : world) : world :=
  World (mbox_base w) (regs w) (bus_rc w) (aspeed_mbox_open_count w)
        (mutex_held w) (addr_limit w) (umem w) (sigpending w) l (trace w).
Definition emit (e : event) (w : world) : world :=
  World (mbox_base w) (regs w) (bus_rc w) (aspeed_mbox_open_count w)
        (mutex_held w) (addr_limit w) (umem w) (sigpending w) (sched w)
        (trace w ++ [e]).

(** ** The monad: state passing, with a process that may be left asleep *)

Inductive outcome (A : Type) : Type :=
| Returned (a : A)
| Asleep.
Arguments Returned {A} a.
Arguments Asleep {A}.

Definition M (A : Type) : Type := world -> outcome A * world.

Definition ret {A} (a : A) : M A := fun w => (Returned a, w).

Definition bind {A B} (m : M A) (k : A -> M B) : M B :=
  fun w =>
    match m w with
    | (Returned a, w1) => k a w1
    | (Asleep, w1) => (Asleep, w1)
    end.

Notation "'let*' x ':=' c1 'in' c2" := (bind c1 (fun x => c2))
  (at level 10, x name, c1 at level 100, c2 at level 200).
Notation "c1 ';;;' c2" := (bind c1 (fun _ => c2))
  (at level 100, c2 at level 200, right associativity).

Definition modify (f : world -> world) : M unit := fun w => (Returned tt, f w).
Definition gets {A} (f : world -> A) : M A := fun w => (Returned (f w), w).
Definition asleep {A} : M A := fun w => (Asleep, w).

(** ** The register bank *)

(** Modelled from the spec: the device behind the regmap, read side.  A
    register nobody has written holds 0. *)
Definition hw_load (r : gmap Z Z) (addr : Z) : Z := default 0 (r !! addr).

(** Modelled from the spec: the device behind the regmap, write side
    (sections 4.3 and 6, and the W1C comments of the driver).  The BMC
    control register keeps SEND and MASK as written and clears RECV when
    a one is written to it; the two status registers are
    write-one-to-clear; every other register stores what is written. *)
Definition hw_store (base : Z) (r : gmap Z Z) (addr data : Z) : gmap Z Z :=
  let old := hw_load r addr in
  if decide (addr = wrap_u32 (base + ASPEED_MBOX_BMC_CTRL)) then
    <[addr := Z.lor (Z.ldiff (Z.land old ASPEED_MBOX_CTRL_RECV) data)
                    (Z.ldiff data ASPEED_MBOX_CTRL_RECV)]> r
  else if decide (addr = wrap_u32 (base + ASPEED_MBOX_STATUS_0)
                  \/ addr = wrap_u32 (base + ASPEED_MBOX_STATUS_1)) then
    <[addr := Z.ldiff old data]> r
  else <[addr := data]> r.

(** The control register as the hardware holds it, and the interrupt line:
    asserted while RECV is set and MASK is clear. *)
Definition ctrl_addr (w : world) : Z :=
  wrap_u32 (mbox_base w + ASPEED_MBOX_BMC_CTRL).
Definition data_addr (w : world) (i : Z) : Z :=
  wrap_u32 (mbox_base w + (ASPEED_MBOX_DATA_0 + i * 4)).
Definition hw_ctrl (w : world) : Z := hw_load (regs w) (ctrl_addr w).
Definition hw_recv (w : world) : bool := Z.testbit (hw_ctrl w) 7.
Definition hw_mask (w : world) : bool := Z.testbit (hw_ctrl w) 1.
Definition irq_line (w : world) : bool := hw_recv w && negb (hw_mask w).

(** Modelled from the spec: [regmap_read], the bus contract of section 6
    (synchronous access with explicit failure signalling).  The result is
    the return code and the new content of the caller's [val]: a failed
    read leaves [val] as it was. *)
Definition regmap_read (reg : Z) (val : Z) : M (Z * Z) :=
  fun w =>
    let rc := hd 0 (bus_rc w) in
    let w1 := emit (BusRead reg) (set_bus_rc (tl (bus_rc w)) w) in
    if rc =? 0 then (Returned (0, hw_load (regs w) reg), w1)
    else (Returned (rc, val), w1).

(** Modelled from the spec: [regmap_write], under the same contract.  A
    failed write changes nothing in the device. *)
Definition regmap_write (reg : Z) (data : Z) : M Z :=
  fun w =>
    let rc := hd 0 (bus_rc w) in
    let w1 := emit (BusWrite reg data) (set_bus_rc (tl (bus_rc w)) w) in
    if rc =? 0 then
      (Returned 0, set_regs (hw_store (mbox_base w) (regs w) reg data) w1)
    else (Returned rc, w1).

(** Modelled from the spec: [dev_err], the log of section 4.1 ("the
    access is logged"). *)
Definition dev_err (l : logline) : M unit := modify (emit (DevErr l)).

(** ** The memory of the calling process *)

(** Modelled from the spec: the kernel macro [access_ok], the range check
    of a user buffer against the caller's address limit. *)
Definition access_ok (addr size : Z) : M bool :=
  gets (fun w => addr + size <=? addr_limit w).

(** Modelled from the spec: the kernel macro [__put_user], one byte
    stored at a user address; it fails with -EFAULT when the destination
    cannot accept the byte (section 7, [Fault]). *)
Definition __put_user (x : Z) (p : Z) : M Z :=
  fun w =>
    match umem w !! p with
    | Some _ => (Returned 0, set_umem (<[p := x]> (umem w)) w)
    | None => (Returned (- EFAULT), w)
    end.

(** Modelled from the spec: the kernel macro [__get_user], one byte
    fetched from a user address; the result is the return code and the
    byte, 0 when the fetch fails. *)
Definition __get_user (p : Z) : M (Z * Z) :=
  fun w =>
    match umem w !! p with
    | Some c => (Returned (0, c), w)
    | None => (Returned (- EFAULT, 0), w)
    end.

(** ** Locking *)

(** Modelled from the spec: [mutex_lock] on the exclusive [lock] of
    section 3.  A process that asks for a mutex somebody else holds goes
    to sleep. *)
Definition mutex_lock : M unit :=
  fun w =>
    if mutex_held w then (Asleep, w)
    else (Returned tt, emit MutexLock (set_mutex_held true w)).

(** Modelled from the spec: [mutex_unlock]. *)
Definition mutex_unlock : M unit :=
  modify (fun w => emit MutexUnlock (set_mutex_held false w)).

(** Modelled from the spec: [atomic_inc_return] on the 32-bit counter
    that stands behind [session_open] (section 3). *)
Definition atomic_inc_return : M Z :=
  fun w =>
    let c := wrap_s32 (aspeed_mbox_open_count w + 1) in
    (Returned c, set_open_count c w).

(** Modelled from the spec: [atomic_dec] on the same counter. *)
Definition atomic_dec : M unit :=
  modify (fun w => set_open_count (wrap_s32 (aspeed_mbox_open_count w - 1)) w).

(** ** The driver *)

(** [aspeed_mbox_inb]: lines 45-61. *)
Definition aspeed_mbox_inb (reg : Z) : M Z :=
  let val := 0xff in (* If regmap throws an error return 0xff *)
  let* base := gets mbox_base in
  let* r := regmap_read (wrap_u32 (base + reg)) val in
  (if fst r =? 0 then ret tt else dev_err (ReadFailed (fst r) reg)) ;;;
  ret (Z.land (snd r) 0xff).

(** [aspeed_mbox_outb]: lines 63-70.  The parameter [data] is a [u8]. *)
Definition aspeed_mbox_outb (data : Z) (reg : Z) : M unit :=
  let data := u8 data in
  let* base := gets mbox_base in
  let* rc := regmap_write (wrap_u32 (base + reg)) data in
  if rc =? 0 then ret tt else dev_err (WriteFailed rc data reg).

(** [aspeed_mbox_open]: lines 77-93. *)
Definition aspeed_mbox_open : M Z :=
  let* c := atomic_inc_return in
  if c =? 1 then
    (* ASPEED_MBOX_CTRL_RECV bit is W1C, this also unmasks in 1 step *)
    aspeed_mbox_outb ASPEED_MBOX_CTRL_RECV ASPEED_MBOX_BMC_CTRL ;;;
    ret 0
  else
    atomic_dec ;;;
    ret (- EBUSY).

(** [aspeed_mbox_release]: lines 189-193. *)
Definition aspeed_mbox_release : M Z :=
  atomic_dec ;;;
  ret 0.

(** [aspeed_mbox_irq]: lines 205-222. *)
Definition aspeed_mbox_irq : M Z :=
  let* c := aspeed_mbox_inb ASPEED_MBOX_BMC_CTRL in
  if Z.land c ASPEED_MBOX_CTRL_RECV =? 0 then ret IRQ_NONE
  else
    (* Mask it off, we'll clear it when we the data gets read *)
    aspeed_mbox_outb ASPEED_MBOX_CTRL_MASK ASPEED_MBOX_BMC_CTRL ;;;
    modify (emit WakeUp) ;;;
    ret IRQ_HANDLED.

(** [aspeed_mbox_poll]: lines 176-187. *)
Definition aspeed_mbox_poll : M Z :=
  let mask := 0 in
  modify (emit PollWait) ;;;
  let* c := aspeed_mbox_inb ASPEED_MBOX_BMC_CTRL in
  if Z.land c ASPEED_MBOX_CTRL_RECV =? 0 then ret mask
  else ret (Z.lor mask POLLIN).

(** ** Sleeping on the wait queue *)

(** Modelled from the spec: the host side of the window (section 4.3,
    "RECV set by the other side means inbound data in the window is
    valid"): bytes stored from data register [i] on. *)
Fixpoint host_fill (r : gmap Z Z) (base : Z) (i : Z) (msg : list Z)
  : gmap Z Z :=
  match msg with
  | [] => r
  | b :: msg' =>
      host_fill (<[wrap_u32 (base + (ASPEED_MBOX_DATA_0 + i * 4)) := u8 b]> r)
                base (i + 1) msg'
  end.

(** Modelled from the spec: a message from the host, up to sixteen bytes
    stored from data register 0 on, then RECV raised in the BMC control
    register. *)
Definition host_post (msg : list Z) (w : world) : world :=
  let r := host_fill (regs w) (mbox_base w) 0 (take 16 msg) in
  let a := ctrl_addr w in
  set_regs (<[a := Z.lor (hw_load r a) ASPEED_MBOX_CTRL_RECV]> r) w.

(** Modelled from the spec: one thing happening while the process sleeps
    (section 5).  A doorbell raises the interrupt unless it is masked, and
    the handler then runs to its end in interrupt context. *)
Definition env_step (e : wake) (w : world) : world :=
  match e with
  | HostDoorbell msg =>
      let w1 := host_post msg w in
      if irq_line w1 then snd (aspeed_mbox_irq w1) else w1
  | SpuriousWake => w
  | SignalDelivered => set_sigpending true w
  end.

(** Modelled from the spec: [schedule()].  The process sleeps through the
    next thing that happens; with nothing left to happen it stays
    asleep. *)
Definition schedule : M unit :=
  fun w =>
    match sched w with
    | [] => (Asleep, w)
    | e :: es => (Returned tt, env_step e (emit Schedule (set_sched es w)))
    end.

(** Modelled from the spec: the kernel macro [wait_event_interruptible]
    (section 4.1: the caller suspends until the condition is observed or
    the wait is cancelled, and the condition is checked again on every
    wake).  The result is 0 once the condition holds and -ERESTARTSYS when
    a signal is pending.  [n] bounds the number of sleeps; the macro is
    given the length of the schedule, which no run exceeds. *)
Fixpoint __wait_event_interruptible (condition : M Z) (n : nat) : M Z :=
  let* c := condition in
  if c =? 0 then
    let* sig := gets sigpending in
    if (sig : bool) then ret (- ERESTARTSYS)
    else
      match n with
      | O => asleep
      | S n' => schedule ;;; __wait_event_interruptible condition n'
      end
  else ret 0.

(** Modelled from the spec: the entry of the same macro, which tests the
    condition once before it prepares to sleep. *)
Definition wait_event_interruptible (condition : M Z) : M Z :=
  let* c := condition in
  if c =? 0 then
    let* n := gets (fun w => length (sched w)) in
    __wait_event_interruptible condition n
  else ret 0.

(** How the copy loops of read and write end: by falling out of the [for]
    with the user pointer [p], or by [goto out_unlock] with [ret] set. *)
Inductive loop_exit : Type :=
| LoopDone (p : Z)
| OutUnlock (r : Z).

(** The register offset [ASPEED_MBOX_DATA_0 + (i * 4)], in [int]. *)
Definition data_reg (i : Z) : Z :=
  wrap_s32 (ASPEED_MBOX_DATA_0 + wrap_s32 (i * 4)).

(** The [for] loop of [aspeed_mbox_read], lines 121-130.  [i] grows by
    one per round and the loop stops at sixteen, so [Z.to_nat (16 - i)]
    rounds are all there can be: that is the [fuel] the caller passes.
    In the body [count > 0] and [i < 16], so neither [count--] nor [i++]
    wraps; [p] is a user address, moved by pointer arithmetic. *)
Fixpoint read_loop (fuel : nat) (i count p : Z) : M loop_exit :=
  match fuel with
  | O => ret (LoopDone p)
  | S fuel' =>
      if (count >? 0) && (i <? ASPEED_MBOX_NUM_REGS) then
        let* reg := aspeed_mbox_inb (data_reg i) in
        let* r := __put_user reg p in
        if r =? 0 then read_loop fuel' (i + 1) (count - 1) (p + 1)
        else ret (OutUnlock r)
      else ret (LoopDone p)
  end.

(** Lines 109-117 of [aspeed_mbox_read]: the result is [Some] of the error
    the function returns at once, or [None] when it goes on to the copy. *)
Definition read_wait (f_flags : Z) : M (option Z) :=
  if Z.land f_flags O_NONBLOCK =? 0 then
    let* r := wait_event_interruptible
                (let* c := aspeed_mbox_inb ASPEED_MBOX_BMC_CTRL in
                 ret (Z.land c ASPEED_MBOX_CTRL_RECV)) in
    if r =? 0 then ret None else ret (Some (- ERESTARTSYS))
  else
    let* c := aspeed_mbox_inb ASPEED_MBOX_BMC_CTRL in
    if Z.land c ASPEED_MBOX_CTRL_RECV =? 0 then ret (Some (- EAGAIN))
    else ret None.

(** Lines 119-138 of [aspeed_mbox_read]: the copy under the mutex. *)
Definition read_locked (buf count ppos : Z) : M Z :=
  let p := buf in
  mutex_lock ;;;
  let i := wrap_s32 ppos in
  let* l := read_loop (Z.to_nat (ASPEED_MBOX_NUM_REGS - i)) i count p in
  let* r :=
    match l with
    | LoopDone p =>
        (* ASPEED_MBOX_CTRL_RECV bit is write to clear, this also unmasks
           in 1 step *)
        aspeed_mbox_outb ASPEED_MBOX_CTRL_RECV ASPEED_MBOX_BMC_CTRL ;;;
        ret (wrap_s32 (p - buf))
    | OutUnlock r => ret r
    end in
  mutex_unlock ;;;
  ret r.

(** [aspeed_mbox_read]: lines 95-139.  [f_flags] is [file->f_flags],
    [ppos] is [*ppos]. *)
Definition aspeed_mbox_read (f_flags buf count ppos : Z) : M Z :=
  let* ok := access_ok buf count in
  if negb ok then ret (- EFAULT)
  else if wrap_s64 (count + ppos) >? ASPEED_MBOX_NUM_REGS then ret (- EINVAL)
  else
    let* g := read_wait f_flags in
    match g with
    | Some e => ret e
    | None => read_locked buf count ppos
    end.

(** The [for] loop of [aspeed_mbox_write], lines 158-166. *)
Fixpoint write_loop (fuel : nat) (i count p : Z) : M loop_exit :=
  match fuel with
  | O => ret (LoopDone p)
  | S fuel' =>
      if (count >? 0) && (i <? ASPEED_MBOX_NUM_REGS) then
        let* r := __get_user p in
        if fst r =? 0 then
          aspeed_mbox_outb (snd r) (data_reg i) ;;;
          write_loop fuel' (i + 1) (count - 1) (p + 1)
        else ret (OutUnlock (fst r))
      else ret (LoopDone p)
  end.

(** [aspeed_mbox_write]: lines 141-174. *)
Definition aspeed_mbox_write (buf count ppos : Z) : M Z :=
  let p := buf in
  let* ok := access_ok buf count in
  if negb ok then ret (- EFAULT)
  else if wrap_s64 (count + ppos) >? ASPEED_MBOX_NUM_REGS then ret (- EINVAL)
  else
    mutex_lock ;;;
    let i := wrap_s32 ppos in
    let* l := write_loop (Z.to_nat (ASPEED_MBOX_NUM_REGS - i)) i count p in
    let* r :=
      match l with
      | LoopDone p =>
          aspeed_mbox_outb ASPEED_MBOX_CTRL_SEND ASPEED_MBOX_BMC_CTRL ;;;
          ret (wrap_s32 (p - buf))
      | OutUnlock r => ret r
      end in
    mutex_unlock ;;;
    ret r.

(** ** What the register accessors do *)

Definition emits (evs : list event) (w : world) : world :=
  World (mbox_base w) (regs w) (bus_rc w) (aspeed_mbox_open_count w)
        (mutex_held w) (addr_limit w) (umem w) (sigpending w) (sched w)
        (trace w ++ evs).

(** The return code of the next bus transaction, and the world once that
    transaction is spent. *)
Definition bus_next (w : world) : Z := hd 0 (bus_rc w).
Definition bus_pop (w : world) : world := set_bus_rc (tl (bus_rc w)) w.

(** The byte [aspeed_mbox_inb] hands back for a transaction that returned
    [rc] on a register holding [v]. *)
Definition rd_byte (rc v : Z) : Z := if rc =? 0 then Z.land v 0xff else 0xff.

Definition rd_events (base reg rc : Z) : list event :=
  BusRead (wrap_u32 (base + reg))
  :: (if rc =? 0 then [] else [DevErr (ReadFailed rc reg)]).

Definition wr_events (base data reg rc : Z) : list event :=
  BusWrite (wrap_u32 (base + reg)) (u8 data)
  :: (if rc =? 0 then [] else [DevErr (WriteFailed rc (u8 data) reg)]).

Definition inb_value (reg : Z) (w : world) : Z :=
  rd_byte (bus_next w) (hw_load (regs w) (wrap_u32 (mbox_base w + reg))).

Definition after_inb (reg : Z) (w : world) : world :=
  emits (rd_events (mbox_base w) reg (bus_next w)) (bus_pop w).

Definition after_outb (data reg : Z) (w : world) : world :=
  emits (wr_events (mbox_base w) data reg (bus_next w))
    (bus_pop
       (if bus_next w =? 0 then
          set_regs (hw_store (mbox_base w) (regs w)
                      (wrap_u32 (mbox_base w + reg)) (u8 data)) w
        else w)).

(** ** Reading a trace *)

Definition is_log (e : event) : bool :=
  match e with DevErr _ => true | _ => false end.

(** The actions of a trace without its log lines. *)
Definition actions (evs : list event) : list event :=
  filter (fun e => is_log e = false) evs.

(** The register writes of a trace, as (address, value) pairs. *)
Fixpoint bus_writes (evs : list event) : list (Z * Z) :=
  match evs with
  | [] => []
  | BusWrite a d :: evs' => (a, d) :: bus_writes evs'
  | _ :: evs' => bus_writes evs'
  end.

Fixpoint bus_reads (evs : list event) : list Z :=
  match evs with
  | [] => []
  | BusRead a :: evs' => a :: bus_reads evs'
  | _ :: evs' => bus_reads evs'
  end.

(** ** What the copy loops do

    The world after [n] rounds of each copy loop, round by round as the
    loop runs them. *)

Fixpoint read_copy_world (n : nat) (i p : Z) (w : world) : world :=
  match n with
  | O => w
  | S n' =>
      read_copy_world n' (i + 1) (p + 1)
        (set_umem (<[p := inb_value (data_reg i) w]> (umem w))
                  (after_inb (data_reg i) w))
  end.

Fixpoint write_copy_world (n : nat) (i p : Z) (w : world) : world :=
  match n with
  | O => w
  | S n' =>
      write_copy_world n' (i + 1) (p + 1)
        (after_outb (default 0 (umem w !! p)) (data_reg i) w)
  end.

(** The buffer [buf, buf + count) of the calling process: inside the user
    address range, and every byte of it mapped. *)
Definition user_range (w : world) (buf count : Z) : Prop :=
  buf + count <= addr_limit w.
Definition user_mapped (w : world) (buf count : Z) : Prop :=
  forall k, 0 <= k < count -> is_Some (umem w !! (buf + k)).

(** The bytes [data] sit in the caller's memory from [buf] on. *)
Definition user_holds (w : world) (buf : Z) (data : list Z) : Prop :=
  forall (k : nat) b, data !! k = Some b -> umem w !! (buf + Z.of_nat k) = Some b.

(** The same, field by field: the trace a copy loop leaves, the bytes it
    stores in the caller's memory, the registers it leaves in the device. *)

Fixpoint read_events (base i : Z) (rcs : list Z) (n : nat) : list event :=
  match n with
  | O => []
  | S n' =>
      rd_events base (data_reg i) (hd 0 rcs)
      ++ read_events base (i + 1) (tl rcs) n'
  end.

Fixpoint read_copy_umem (base : Z) (r : gmap Z Z) (i p : Z) (rcs : list Z)
    (n : nat) (um : gmap Z Z) : gmap Z Z :=
  match n with
  | O => um
  | S n' =>
      read_copy_umem base r (i + 1) (p + 1) (tl rcs) n'
        (<[p := rd_byte (hd 0 rcs) (hw_load r (wrap_u32 (base + data_reg i)))]>
           um)
  end.

Fixpoint write_events (base i : Z) (rcs : list Z) (data : list Z)
  : list event :=
  match data with
  | [] => []
  | c :: data' =>
      wr_events base c (data_reg i) (hd 0 rcs)
      ++ write_events base (i + 1) (tl rcs) data'
  end.

Fixpoint write_copy_regs (base : Z) (r : gmap Z Z) (i : Z) (rcs : list Z)
    (data : list Z) : gmap Z Z :=
  match data with
  | [] => r
  | c :: data' =>
      write_copy_regs base
        (if hd 0 rcs =? 0 then
           hw_store base r (wrap_u32 (base + data_reg i)) (u8 c)
         else r)
        (i + 1) (tl rcs) data'
  end.

(** ** What the operations leave behind *)

Definition locked (w : world) : world := emit MutexLock (set_mutex_held true w).
Definition unlocked (w : world) : world :=
  emit MutexUnlock (set_mutex_held false w).

(** After a read that copied all [count] bytes. *)
Definition read_done (buf count ppos : Z) (w : world) : world :=
  unlocked
    (after_outb ASPEED_MBOX_CTRL_RECV ASPEED_MBOX_BMC_CTRL
       (read_copy_world (Z.to_nat count) ppos buf (locked w))).

(** After a read whose destination refused byte [n]. *)
Definition read_faulted (buf : Z) (n : nat) (ppos : Z) (w : world) : world :=
  unlocked
    (after_inb (data_reg (ppos + Z.of_nat n))
       (read_copy_world n ppos buf (locked w))).

(** After a write that stored all [count] bytes. *)
Definition write_done (buf count ppos : Z) (w : world) : world :=
  unlocked
    (after_outb ASPEED_MBOX_CTRL_SEND ASPEED_MBOX_BMC_CTRL
       (write_copy_world (Z.to_nat count) ppos buf (locked w))).

(** After an interrupt the handler claimed. *)
Definition irq_done (w : world) : world :=
  emit WakeUp
    (after_outb ASPEED_MBOX_CTRL_MASK ASPEED_MBOX_BMC_CTRL
       (after_inb ASPEED_MBOX_BMC_CTRL w)).

(** After an open that found the device free. *)
Definition open_done (w : world) : world :=
  after_outb ASPEED_MBOX_CTRL_RECV ASPEED_MBOX_BMC_CTRL
    (set_open_count 1 w).

(** The wait condition of the blocking read, and what the driver sees of
    RECV when it reads the control register in world [w]. *)
Definition recv_condition : M Z :=
  let* c := aspeed_mbox_inb ASPEED_MBOX_BMC_CTRL in
  ret (Z.land c ASPEED_MBOX_CTRL_RECV).

Definition recv_observed (w : world) : bool :=
  Z.testbit (inb_value ASPEED_MBOX_BMC_CTRL w) 7.

(** What an operation cannot change behind the back of the calling process
    while it waits: the caller's memory, the lock, the session count. *)
Definition same_caller (w w1 : world) : Prop :=
  mbox_base w1 = mbox_base w /\ mutex_held w1 = mutex_held w
  /\ addr_limit w1 = addr_limit w /\ umem w1 = umem w
  /\ aspeed_mbox_open_count w1 = aspeed_mbox_open_count w.

(** ** Sample worlds

    A mailbox at offset 0x180 of the LPC register map whose window holds
    the bytes 0x10 .. 0x1f, and a caller with a few mapped bytes at
    0x1000. *)

Definition sample_window : list Z :=
  [0x10; 0x11; 0x12; 0x13; 0x14; 0x15; 0x16; 0x17;
   0x18; 0x19; 0x1a; 0x1b; 0x1c; 0x1d; 0x1e; 0x1f].

Definition sample_regs (ctrl : Z) : gmap Z Z :=
  <[wrap_u32 (0x180 + ASPEED_MBOX_BMC_CTRL) := ctrl]>
    (host_fill ∅ 0x180 0 sample_window).

Definition sample_mem (buf : Z) (bytes : list Z) : gmap Z Z :=
  list_to_map (imap (fun k b => (buf + Z.of_nat k, b)) bytes).

(** RECV pending and the interrupt masked, as the handler leaves them. *)
Definition w_pending : world :=
  World 0x180 (sample_regs 0x82) [] 0 false 0xbf000000
        (sample_mem 0x1000 [0; 0; 0; 0]) false [] [].

(** RECV just raised by the host, the interrupt not yet masked. *)
Definition w_ringing : world :=
  World 0x180 (sample_regs 0x80) [] 0 false 0xbf000000
        (sample_mem 0x1000 [0; 0; 0; 0]) false [] [].

(** Nothing pending. *)
Definition w_idle : world :=
  World 0x180 (sample_regs 0x00) [] 0 false 0xbf000000
        (sample_mem 0x1000 [0; 0; 0; 0]) false [] [].

(** Nothing pending, and the next bus transaction fails with -EIO. *)
Definition w_idle_bus_down : world := set_bus_rc [-5] w_idle.

(** RECV pending, the second data-register read of a copy fails. *)
Definition w_pending_glitch : world := set_bus_rc [0; 0; -5] w_pending.

(** A session is open. *)
Definition w_in_use : world := set_open_count 1 w_idle.

(** RECV pending and only the first byte of the buffer mapped. *)
Definition w_short_buffer : world :=
  set_umem (sample_mem 0x1000 [0]) w_pending.

(** RECV pending and no byte of the buffer mapped. *)
Definition w_no_buffer : world := set_umem ∅ w_pending.

(** The process holds the bytes 7, 8, 9 at 0x1000. *)
Definition w_sender : world := set_umem (sample_mem 0x1000 [7; 8; 9]) w_idle.

(** A sleeper's schedule: a spurious wake, then the host rings. *)
Definition w_waiting : world :=
  set_sched [SpuriousWake; HostDoorbell [0x41; 0x42; 0x43]] w_idle.

(** ** Proof support *)

(** Open every field update, in a goal about a world given by its
    fields; call by value, so that no world is copied unevaluated. *)
Ltac world_fields :=
  cbv beta iota delta
    [emits emit set_regs set_bus_rc set_open_count set_mutex_held set_umem
     set_sigpending set_sched bus_pop bus_next locked unlocked
     mbox_base regs bus_rc aspeed_mbox_open_count mutex_held addr_limit
     umem sigpending sched trace].

(** ** Sequences of calls *)

(** [n] calls of open in a row, their results in order. *)
Fixpoint open_many (n : nat) : M (list Z) :=
  match n with
  | O => ret []
  | S n' =>
      let* r := aspeed_mbox_open in
      let* rs := open_many n' in
      ret (r :: rs)
  end.

(** [n] sessions one after the other: open, then release. *)
Fixpoint sessions (n : nat) : M (list (Z * Z)) :=
  match n with
  | O => ret []
  | S n' =>
      let* o := aspeed_mbox_open in
      let* c := aspeed_mbox_release in
      let* rs := sessions n' in
      ret ((o, c) :: rs)
  end.

(** The world after [n] sessions: one acknowledge write each, the counter
    back at 0. *)
Fixpoint after_sessions (n : nat) (w : world) : world :=
  match n with
  | O => w
  | S n' => after_sessions n' (set_open_count 0 (open_done w))
  end.

(** After a write whose source byte [n] could not be read: the bytes
    before it are in the window, the mutex is free again. *)
Definition write_faulted (buf : Z) (n : nat) (ppos : Z) (w : world) : world :=
  unlocked (write_copy_world n ppos buf (locked w)).

(** ** Binding the driver to its device

    [aspeed_mbox_probe], [aspeed_mbox_config_irq] and [aspeed_mbox_remove]
    run once per platform device, outside any file operation.  What they
    see of the kernel is the answer to each call they make; what they
    leave behind, besides the registers they write, is the device node
    and the interrupt handler. *)

Definition ENOMEM : Z := 12.
Definition ENODEV : Z := 19.

(** The kernel's answers for one platform device, one field per call of
    probe that can fail. *)
Record platform_device : Type := PlatformDevice {
  kzalloc_ok : bool;      (* devm_kzalloc() returned an object *)
  reg_rc : Z;             (* of_property_read_u32(.., "reg", ..) *)
  reg_val : Z;            (* the value of the property *)
  regmap_is_err : bool;   (* IS_ERR(syscon_node_to_regmap(..)) *)
  misc_register_rc : Z;   (* misc_register() *)
  irq_mapped : Z;         (* irq_of_parse_and_map(), 0 for none *)
  request_irq_rc : Z      (* devm_request_irq() *)
}.

(** The dev_err() lines of probe and config_irq. *)
Inductive probe_msg : Type :=
| NoRegProperty        (* "Couldn't read reg device-tree property" *)
| NoRegmap             (* "Couldn't get regmap" *)
| NoMiscDevice         (* "Unable to register device" *)
| IrqNotConfigured     (* "Failed to configure IRQ" *)
| IrqRefused (irq : Z). (* "Unable to request IRQ %d" *)

Record platform : Type := Platform {
  pf_world : world;          (* the mailbox and its registers *)
  drvdata : bool;            (* dev_set_drvdata() has been called *)
  misc_registered : bool;    (* the device node exists *)
  irq_handler : option Z;    (* the line aspeed_mbox_irq is installed on *)
  pf_log : list probe_msg    (* what probe has logged, oldest first *)
}.

Definition set_mbox_base (b : Z) (w : world) : world :=
  World b (regs w) (bus_rc w) (aspeed_mbox_open_count w) (mutex_held w)
        (addr_limit w) (umem w) (sigpending w) (sched w) (trace w).

Definition set_pf_world (w : world) (s : platform) : platform :=
  Platform w (drvdata s) (misc_registered s) (irq_handler s) (pf_log s).
Definition set_drvdata (b : bool) (s : platform) : platform :=
  Platform (pf_world s) b (misc_registered s) (irq_handler s) (pf_log s).
Definition set_misc_registered (b : bool) (s : platform) : platform :=
  Platform (pf_world s) (drvdata s) b (irq_handler s) (pf_log s).
Definition set_irq_handler (h : option Z) (s : platform) : platform :=
  Platform (pf_world s) (drvdata s) (misc_registered s) h (pf_log s).
Definition log_msg (m : probe_msg) (s : platform) : platform :=
  Platform (pf_world s) (drvdata s) (misc_registered s) (irq_handler s)
           (pf_log s ++ [m]).

(** The same state passing as [M], one level up. *)
Definition P (A : Type) : Type := platform -> outcome A * platform.

Definition retP {A} (a : A) : P A := fun s => (Returned a, s).

Definition bindP {A B} (m : P A) (k : A -> P B) : P B :=
  fun s =>
    match m s with
    | (Returned a, s1) => k a s1
    | (Asleep, s1) => (Asleep, s1)
    end.

Notation "'let+' x ':=' c1 'in' c2" := (bindP c1 (fun x => c2))
  (at level 10, x name, c1 at level 100, c2 at level 200).
Notation "c1 ';+' c2" := (bindP c1 (fun _ => c2))
  (at level 100, c2 at level 200, right associativity).

Definition modifyP (f : platform -> platform) : P unit :=
  fun s => (Returned tt, f s).

(** A call into the register accessors from probe context. *)
Definition lift {A} (m : M A) : P A :=
  fun s =>
    match m (pf_world s) with
    | (o, w1) => (o, set_pf_world w1 s)
    end.

(** [devm_kzalloc]: a zeroed [struct aspeed_mbox], or NULL. *)
Definition devm_kzalloc (pdev : platform_device) : P bool :=
  fun s =>
    if kzalloc_ok pdev then
      (Returned true, set_pf_world (set_mbox_base 0 (pf_world s)) s)
    else (Returned false, s).

Definition dev_set_drvdata : P unit := modifyP (set_drvdata true).

(** [of_property_read_u32]: stores the property in [mbox->base] when it
    returns 0 and leaves it alone otherwise. *)
Definition of_property_read_u32 (pdev : platform_device) : P Z :=
  fun s =>
    if reg_rc pdev =? 0 then
      (Returned 0,
       set_pf_world (set_mbox_base (wrap_u32 (reg_val pdev)) (pf_world s)) s)
    else (Returned (reg_rc pdev), s).

(** [IS_ERR(syscon_node_to_regmap(..))]. *)
Definition syscon_node_to_regmap (pdev : platform_device) : P bool :=
  retP (regmap_is_err pdev).

Definition mutex_init : P unit :=
  modifyP (fun s => set_pf_world (set_mutex_held false (pf_world s)) s).

Definition misc_register (pdev : platform_device) : P Z :=
  fun s =>
    if misc_register_rc pdev =? 0 then
      (Returned 0, set_misc_registered true s)
    else (Returned (misc_register_rc pdev), s).

Definition misc_deregister : P unit := modifyP (set_misc_registered false).

Definition irq_of_parse_and_map (pdev : platform_device) : P Z :=
  retP (irq_mapped pdev).

(** [devm_request_irq]: the handler is installed when the call returns
    0. *)
Definition devm_request_irq (pdev : platform_device) (irq : Z) : P Z :=
  fun s =>
    if request_irq_rc pdev =? 0 then
      (Returned 0, set_irq_handler (Some irq) s)
    else (Returned (request_irq_rc pdev), s).

Definition dev_errP (m : probe_msg) : P unit := modifyP (log_msg m).

(** [aspeed_mbox_config_irq]: lines 224-253. *)
Definition aspeed_mbox_config_irq (pdev : platform_device) : P Z :=
  let+ irq := irq_of_parse_and_map pdev in
  if irq =? 0 then retP (- ENODEV)
  else
    let+ rc := devm_request_irq pdev irq in
    if rc <? 0 then
      dev_errP (IrqRefused irq) ;+
      retP rc
    else
      (* Disable all register based interrupts. *)
      lift (aspeed_mbox_outb 0x00 ASPEED_MBOX_INTERRUPT_0) ;+
      lift (aspeed_mbox_outb 0x00 ASPEED_MBOX_INTERRUPT_1) ;+
      (* These registers are write one to clear. Clear them. *)
      lift (aspeed_mbox_outb 0xff ASPEED_MBOX_STATUS_0) ;+
      lift (aspeed_mbox_outb 0xff ASPEED_MBOX_STATUS_1) ;+
      lift (aspeed_mbox_outb ASPEED_MBOX_CTRL_RECV ASPEED_MBOX_BMC_CTRL) ;+
      retP 0.

(** [aspeed_mbox_probe]: lines 255-303. *)
Definition aspeed_mbox_probe (pdev : platform_device) : P Z :=
  let+ mbox := devm_kzalloc pdev in
  if negb mbox then retP (- ENOMEM)
  else
    dev_set_drvdata ;+
    let+ rc := of_property_read_u32 pdev in
    if negb (rc =? 0) then
      dev_errP NoRegProperty ;+
      retP rc
    else
      let+ err := syscon_node_to_regmap pdev in
      if (err : bool) then
        dev_errP NoRegmap ;+
        retP (- ENODEV)
      else
        mutex_init ;+
        let+ rc := misc_register pdev in
        if negb (rc =? 0) then
          dev_errP NoMiscDevice ;+
          retP rc
        else
          let+ rc := aspeed_mbox_config_irq pdev in
          if negb (rc =? 0) then
            dev_errP IrqNotConfigured ;+
            misc_deregister ;+
            retP rc
          else retP 0.

(** [aspeed_mbox_remove]: lines 305-312. *)
Definition aspeed_mbox_remove : P Z :=
  misc_deregister ;+
  retP 0.

(** The world after the five register writes of [aspeed_mbox_config_irq]. *)
Definition irq_configured (w : world) : world :=
  after_outb ASPEED_MBOX_CTRL_RECV ASPEED_MBOX_BMC_CTRL
    (after_outb 0xff ASPEED_MBOX_STATUS_1
       (after_outb 0xff ASPEED_MBOX_STATUS_0
          (after_outb 0x00 ASPEED_MBOX_INTERRUPT_1
             (after_outb 0x00 ASPEED_MBOX_INTERRUPT_0 w)))).

(** The mailbox object as probe has set it up before it registers the
    device: zeroed, then [base] from the device tree, the mutex free. *)
Definition mbox_allocated (pdev : platform_device) (w : world) : world :=
  set_mutex_held false
    (set_mbox_base (wrap_u32 (reg_val pdev)) (set_mbox_base 0 w)).

(** A device the kernel answers every call for with success. *)
Definition sample_pdev : platform_device :=
  PlatformDevice true 0 0x180 false 0 42 0.

(** Nothing bound yet. *)
Definition unbound (w : world) : platform := Platform w false false None [].

(** Two offsets of the register block are told apart by unfolding them;
    [distinct] is the lemma that two offsets less than 2^32 apart never
    share an address. *)
Ltac apart distinct :=
  unfold ctrl_addr, data_addr, ASPEED_MBOX_DATA_0, ASPEED_MBOX_STATUS_0,
    ASPEED_MBOX_STATUS_1, ASPEED_MBOX_BMC_CTRL, ASPEED_MBOX_HOST_CTRL,
    ASPEED_MBOX_INTERRUPT_0, ASPEED_MBOX_INTERRUPT_1;
  apply distinct; lia.

(** Every call probe makes is answered with success. *)
Definition kernel_obliges (pdev : platform_device) : Prop :=
  kzalloc_ok pdev = true /\ reg_rc pdev = 0 /\ regmap_is_err pdev = false
  /\ misc_register_rc pdev = 0 /\ irq_mapped pdev <> 0
  /\ 0 <= request_irq_rc pdev.
(** * Properties *)

(** ** Machine arithmetic in range *)

Lemma wrap_s32_small z : - 2 ^ 31 <= z < 2 ^ 31 -> wrap_s32 z = z.
Proof. intros H. unfold wrap_s32. rewrite Z.mod_small; lia. Qed.

Lemma wrap_s64_small z : - 2 ^ 63 <= z < 2 ^ 63 -> wrap_s64 z = z.
Proof. intros H. unfold wrap_s64. rewrite Z.mod_small; lia. Qed.

Lemma u8_byte b : 0 <= b < 256 -> u8 b = b.
Proof.
  intros H. unfold u8. change 255 with (Z.ones 8).
  rewrite Z.land_ones by lia. apply Z.mod_small. lia.
Qed.

Lemma data_reg_window i : 0 <= i < 16 -> data_reg i = i * 4.
Proof.
  intros H. unfold data_reg, ASPEED_MBOX_DATA_0.
  rewrite (wrap_s32_small (i * 4)) by lia. apply wrap_s32_small. lia.
Qed.

(** Two register offsets less than 2^32 apart never share an address. *)
Lemma wrap_u32_apart base a b :
  a <> b -> - 2 ^ 32 < a - b < 2 ^ 32 ->
  wrap_u32 (base + a) <> wrap_u32 (base + b).
Proof.
  unfold wrap_u32. intros Hne Hd Heq.
  rewrite !Z.mod_eq in Heq by lia.
  remember ((base + a) / 2 ^ 32) as q1. remember ((base + b) / 2 ^ 32) as q2.
  lia.
Qed.

Lemma inb_run reg w :
  aspeed_mbox_inb reg w = (Returned (inb_value reg w), after_inb reg w).
Proof.
  destruct w as [b r rcs oc mh al um sp sc tr].
  unfold aspeed_mbox_inb, inb_value, after_inb, bus_next, bus_pop, rd_byte,
    rd_events, bind, gets, regmap_read, dev_err, modify, ret, emits, emit,
    set_bus_rc; simpl.
  destruct (hd 0 rcs =? 0) eqn:E; simpl; rewrite ?E; simpl;
    rewrite <- ?app_assoc; reflexivity.
Qed.

Lemma outb_run data reg w :
  aspeed_mbox_outb data reg w = (Returned tt, after_outb data reg w).
Proof.
  destruct w as [b r rcs oc mh al um sp sc tr].
  unfold aspeed_mbox_outb, after_outb, bus_next, bus_pop, wr_events, bind,
    gets, regmap_write, dev_err, modify, ret, emits, emit, set_bus_rc,
    set_regs; simpl.
  destruct (hd 0 rcs =? 0) eqn:E; simpl; rewrite ?E; simpl;
    rewrite <- ?app_assoc; reflexivity.
Qed.

(** The sentinel has every bit of the byte set, RECV among them. *)
Lemma rd_byte_failed rc v : rc <> 0 -> rd_byte rc v = 0xff.
Proof. intros H. unfold rd_byte. destruct (Z.eqb_spec rc 0); congruence. Qed.

Lemma rd_byte_ok v : rd_byte 0 v = Z.land v 0xff.
Proof. reflexivity. Qed.

Lemma actions_app l1 l2 : actions (l1 ++ l2) = actions l1 ++ actions l2.
Proof. unfold actions. apply filter_app. Qed.

Lemma bus_writes_app l1 l2 :
  bus_writes (l1 ++ l2) = bus_writes l1 ++ bus_writes l2.
Proof.
  induction l1 as [|e l1 IH]; [reflexivity|].
  destruct e; simpl; rewrite ?IH; reflexivity.
Qed.

Lemma actions_rd_events base reg rc :
  actions (rd_events base reg rc) = [BusRead (wrap_u32 (base + reg))].
Proof. unfold rd_events. destruct (rc =? 0); reflexivity. Qed.

Lemma actions_wr_events base data reg rc :
  actions (wr_events base data reg rc)
  = [BusWrite (wrap_u32 (base + reg)) (u8 data)].
Proof. unfold wr_events. destruct (rc =? 0); reflexivity. Qed.

(** ** Running the monad *)

Lemma bind_run {A B} (m : M A) (k : A -> M B) w a w1 :
  m w = (Returned a, w1) -> bind m k w = k a w1.
Proof. intros H. unfold bind. rewrite H. reflexivity. Qed.

Lemma put_user_run x p w :
  is_Some (umem w !! p) ->
  __put_user x p w = (Returned 0, set_umem (<[p := x]> (umem w)) w).
Proof. intros [c Hc]. unfold __put_user. rewrite Hc. reflexivity. Qed.

Lemma put_user_fault x p w :
  umem w !! p = None -> __put_user x p w = (Returned (- EFAULT), w).
Proof. intros Hc. unfold __put_user. rewrite Hc. reflexivity. Qed.

Lemma get_user_run p w :
  is_Some (umem w !! p) ->
  __get_user p w = (Returned (0, default 0 (umem w !! p)), w).
Proof. intros [c Hc]. unfold __get_user. rewrite Hc. reflexivity. Qed.

Lemma get_user_fault p w :
  umem w !! p = None -> __get_user p w = (Returned (- EFAULT, 0), w).
Proof. intros Hc. unfold __get_user. rewrite Hc. reflexivity. Qed.

(** ** Fields the accessors leave alone *)

Lemma after_inb_umem reg w : umem (after_inb reg w) = umem w.
Proof. reflexivity. Qed.
Lemma after_inb_bus_rc reg w : bus_rc (after_inb reg w) = tl (bus_rc w).
Proof. reflexivity. Qed.
Lemma after_inb_trace reg w :
  trace (after_inb reg w)
  = trace w ++ rd_events (mbox_base w) reg (bus_next w).
Proof. reflexivity. Qed.

Lemma after_outb_umem data reg w : umem (after_outb data reg w) = umem w.
Proof. unfold after_outb. destruct (bus_next w =? 0); reflexivity. Qed.

(** ** The copy loops, run to their end *)

Lemma read_loop_run n : forall fuel i p w,
  0 <= i -> i + Z.of_nat n <= 16 -> (n <= fuel)%nat ->
  user_mapped w p (Z.of_nat n) ->
  read_loop fuel i (Z.of_nat n) p w
  = (Returned (LoopDone (p + Z.of_nat n)), read_copy_world n i p w).
Proof.
  induction n as [|n IH]; intros fuel i p w Hi Hin Hf Hm.
  - rewrite Z.add_0_r. destruct fuel; reflexivity.
  - destruct fuel as [|fuel]; [lia|]. cbn [read_loop read_copy_world].
    replace (Z.of_nat (S n) >? 0) with true by (symmetry; apply Z.gtb_lt; lia).
    replace (i <? ASPEED_MBOX_NUM_REGS) with true
      by (symmetry; apply Z.ltb_lt; unfold ASPEED_MBOX_NUM_REGS; lia).
    cbn [andb]. erewrite bind_run by apply inb_run.
    erewrite bind_run.
    2:{ apply put_user_run. rewrite after_inb_umem.
        specialize (Hm 0 ltac:(lia)). rewrite Z.add_0_r in Hm. exact Hm. }
    cbn [Z.eqb].
    replace (Z.of_nat (S n) - 1) with (Z.of_nat n) by lia.
    rewrite IH; try lia.
    + do 2 f_equal. f_equal. lia.
    + intros k Hk. cbn [umem set_umem].
      apply lookup_insert_is_Some. right. split; [lia|].
      replace (p + 1 + k) with (p + (k + 1)) by lia. apply Hm. lia.
Qed.

Lemma write_loop_run n : forall fuel i p w,
  0 <= i -> i + Z.of_nat n <= 16 -> (n <= fuel)%nat ->
  user_mapped w p (Z.of_nat n) ->
  write_loop fuel i (Z.of_nat n) p w
  = (Returned (LoopDone (p + Z.of_nat n)), write_copy_world n i p w).
Proof.
  induction n as [|n IH]; intros fuel i p w Hi Hin Hf Hm.
  - rewrite Z.add_0_r. destruct fuel; reflexivity.
  - destruct fuel as [|fuel]; [lia|]. cbn [write_loop write_copy_world].
    replace (Z.of_nat (S n) >? 0) with true by (symmetry; apply Z.gtb_lt; lia).
    replace (i <? ASPEED_MBOX_NUM_REGS) with true
      by (symmetry; apply Z.ltb_lt; unfold ASPEED_MBOX_NUM_REGS; lia).
    cbn [andb]. erewrite bind_run.
    2:{ apply get_user_run.
        specialize (Hm 0 ltac:(lia)). rewrite Z.add_0_r in Hm. exact Hm. }
    cbn [fst snd Z.eqb]. erewrite bind_run by apply outb_run.
    replace (Z.of_nat (S n) - 1) with (Z.of_nat n) by lia.
    rewrite IH; try lia.
    + do 2 f_equal. f_equal. lia.
    + intros k Hk. rewrite after_outb_umem.
      replace (p + 1 + k) with (p + (k + 1)) by lia. apply Hm. lia.
Qed.

(** The fuel of the loops is never what stops them: with
    [Z.to_nat (16 - i)] rounds or more in hand, a loop ends on its own
    condition, and more fuel changes nothing. *)
Lemma read_loop_fuel fuel : forall i count p w,
  (Z.to_nat (ASPEED_MBOX_NUM_REGS - i) <= fuel)%nat ->
  read_loop fuel i count p w
  = read_loop (Z.to_nat (ASPEED_MBOX_NUM_REGS - i)) i count p w.
Proof.
  unfold ASPEED_MBOX_NUM_REGS.
  induction fuel as [|fuel IH]; intros i count p w Hf.
  - by replace (Z.to_nat (16 - i)) with 0%nat by lia.
  - destruct (Z.ltb_spec i 16) as [Hi|Hi].
    + replace (Z.to_nat (16 - i)) with (S (Z.to_nat (16 - (i + 1)))) by lia.
      cbn [read_loop].
      destruct ((count >? 0) && (i <? ASPEED_MBOX_NUM_REGS)); [|done].
      unfold bind. destruct (aspeed_mbox_inb (data_reg i) w) as [[reg|] w1];
        [|done].
      destruct (__put_user reg p w1) as [[r|] w2]; [|done].
      destruct (r =? 0); [|done]. apply IH. lia.
    + replace (Z.to_nat (16 - i)) with 0%nat by lia. cbn [read_loop].
      unfold ASPEED_MBOX_NUM_REGS.
      replace (i <? 16) with false by (symmetry; by apply Z.ltb_ge).
      by rewrite andb_false_r.
Qed.

Lemma write_loop_fuel fuel : forall i count p w,
  (Z.to_nat (ASPEED_MBOX_NUM_REGS - i) <= fuel)%nat ->
  write_loop fuel i count p w
  = write_loop (Z.to_nat (ASPEED_MBOX_NUM_REGS - i)) i count p w.
Proof.
  unfold ASPEED_MBOX_NUM_REGS.
  induction fuel as [|fuel IH]; intros i count p w Hf.
  - by replace (Z.to_nat (16 - i)) with 0%nat by lia.
  - destruct (Z.ltb_spec i 16) as [Hi|Hi].
    + replace (Z.to_nat (16 - i)) with (S (Z.to_nat (16 - (i + 1)))) by lia.
      cbn [write_loop].
      destruct ((count >? 0) && (i <? ASPEED_MBOX_NUM_REGS)); [|done].
      unfold bind. destruct (__get_user p w) as [[r|] w1]; [|done].
      destruct (fst r =? 0); [|done].
      destruct (aspeed_mbox_outb (snd r) (data_reg i) w1) as [[[]|] w2];
        [|done].
      apply IH. lia.
    + replace (Z.to_nat (16 - i)) with 0%nat by lia. cbn [write_loop].
      unfold ASPEED_MBOX_NUM_REGS.
      replace (i <? 16) with false by (symmetry; by apply Z.ltb_ge).
      by rewrite andb_false_r.
Qed.

Lemma drop_tl {A} n (l : list A) : drop n (tl l) = drop (S n) l.
Proof. destruct l; [by destruct n|reflexivity]. Qed.

Lemma tl_drop {A} n (l : list A) : tl (drop n l) = drop (S n) l.
Proof.
  revert l. induction n as [|n IH]; intros [|x l]; try done. apply IH.
Qed.

Lemma nth_tl n (l : list Z) : nth n (tl l) 0 = nth (S n) l 0.
Proof. destruct l; [by destruct n|reflexivity]. Qed.

Lemma hd_nth (l : list Z) : hd 0 l = nth 0 l 0.
Proof. by destruct l. Qed.

Lemma read_copy_world_eq n : forall i p w,
  read_copy_world n i p w
  = set_umem
      (read_copy_umem (mbox_base w) (regs w) i p (bus_rc w) n (umem w))
      (emits (read_events (mbox_base w) i (bus_rc w) n)
             (set_bus_rc (drop n (bus_rc w)) w)).
Proof.
  induction n as [|n IH]; intros i p w.
  - destruct w. world_fields. by rewrite app_nil_r.
  - cbn [read_copy_world]. rewrite IH.
    destruct w as [b r rcs oc mh al um sp sc tr].
    unfold after_inb, inb_value. world_fields.
    rewrite drop_tl, <- app_assoc. reflexivity.
Qed.

Lemma user_holds_cons w p c data :
  user_holds w p (c :: data) ->
  umem w !! p = Some c /\ user_holds w (p + 1) data.
Proof.
  intros H. split.
  - specialize (H 0%nat c eq_refl). by rewrite Z.add_0_r in H.
  - intros k b Hk. specialize (H (S k) b Hk).
    replace (p + 1 + Z.of_nat k) with (p + Z.of_nat (S k)) by lia. exact H.
Qed.

Lemma user_holds_mapped w p data :
  user_holds w p data -> user_mapped w p (Z.of_nat (length data)).
Proof.
  intros H k Hk.
  destruct (lookup_lt_is_Some_2 data (Z.to_nat k) ltac:(lia)) as [b Hb].
  exists b. specialize (H _ _ Hb). by rewrite Z2Nat.id in H by lia.
Qed.

Lemma write_copy_world_eq data : forall i p w,
  user_holds w p data ->
  write_copy_world (length data) i p w
  = emits (write_events (mbox_base w) i (bus_rc w) data)
      (set_regs (write_copy_regs (mbox_base w) (regs w) i (bus_rc w) data)
                (set_bus_rc (drop (length data) (bus_rc w)) w)).
Proof.
  induction data as [|c data IH]; intros i p w H.
  - destruct w. world_fields. by rewrite app_nil_r.
  - apply user_holds_cons in H as [Hc H].
    cbn [write_copy_world length]. rewrite Hc. cbn [default].
    rewrite IH.
    2:{ intros k b Hk. rewrite after_outb_umem. by apply H. }
    destruct w as [b r rcs oc mh al um sp sc tr].
    unfold after_outb, wr_events. world_fields.
    cbn [write_copy_regs write_events]. unfold wr_events, id.
    destruct (hd 0 rcs =? 0); world_fields; rewrite drop_tl, <- app_assoc;
      reflexivity.
Qed.

(** ** The traces of the copy loops *)

Lemma actions_read_events base n : forall i rcs,
  actions (read_events base i rcs n)
  = (fun j => BusRead (wrap_u32 (base + data_reg j))) <$> seqZ i (Z.of_nat n).
Proof.
  induction n as [|n IH]; intros i rcs; [reflexivity|].
  cbn [read_events]. rewrite actions_app, actions_rd_events, IH.
  rewrite (seqZ_cons i (Z.of_nat (S n))) by lia.
  replace (Z.pred (Z.of_nat (S n))) with (Z.of_nat n) by lia.
  reflexivity.
Qed.

Lemma actions_write_events base data : forall i rcs,
  actions (write_events base i rcs data)
  = imap (fun k c => BusWrite (wrap_u32 (base + data_reg (i + Z.of_nat k)))
                              (u8 c)) data.
Proof.
  induction data as [|c data IH]; intros i rcs; [reflexivity|].
  cbn [write_events imap]. rewrite actions_app, actions_wr_events, IH.
  cbn [app]. rewrite Z.add_0_r. f_equal. apply imap_ext.
  intros k x _. cbn.
  replace (i + 1 + Z.of_nat k) with (i + Z.of_nat (S k)) by lia. reflexivity.
Qed.

(** Every failed read of the loop leaves its log line. *)
Lemma read_events_logged base n : forall i rcs (k : nat),
  (k < n)%nat -> nth k rcs 0 <> 0 ->
  DevErr (ReadFailed (nth k rcs 0) (data_reg (i + Z.of_nat k)))
  ∈ read_events base i rcs n.
Proof.
  induction n as [|n IH]; intros i rcs k Hk Hrc; [lia|].
  cbn [read_events]. apply elem_of_app. destruct k as [|k].
  - left. unfold rd_events. rewrite hd_nth, Z.add_0_r.
    destruct (Z.eqb_spec (nth 0 rcs 0) 0); [congruence|].
    apply elem_of_cons. right. apply elem_of_cons. by left.
  - right. rewrite <- nth_tl in *.
    replace (i + Z.of_nat (S k)) with (i + 1 + Z.of_nat k) by lia.
    apply IH; [lia|exact Hrc].
Qed.

Lemma write_events_logged base data : forall i rcs (k : nat) c,
  data !! k = Some c -> nth k rcs 0 <> 0 ->
  DevErr (WriteFailed (nth k rcs 0) (u8 c) (data_reg (i + Z.of_nat k)))
  ∈ write_events base i rcs data.
Proof.
  induction data as [|c0 data IH]; intros i rcs k c Hk Hrc; [done|].
  cbn [write_events]. apply elem_of_app. destruct k as [|k].
  - left. injection Hk as ->. unfold wr_events. rewrite hd_nth, Z.add_0_r.
    destruct (Z.eqb_spec (nth 0 rcs 0) 0); [congruence|].
    apply elem_of_cons. right. apply elem_of_cons. by left.
  - right. rewrite <- nth_tl in *.
    replace (i + Z.of_nat (S k)) with (i + 1 + Z.of_nat k) by lia.
    apply IH; [exact Hk|exact Hrc].
Qed.

(** ** The register bank *)

Lemma hw_store_other base r a d a' :
  a <> a' -> hw_load (hw_store base r a d) a' = hw_load r a'.
Proof.
  intros Hne. unfold hw_store, hw_load.
  repeat case_decide; by rewrite lookup_insert_ne.
Qed.

Lemma hw_store_plain base r a d :
  a <> wrap_u32 (base + ASPEED_MBOX_BMC_CTRL) ->
  a <> wrap_u32 (base + ASPEED_MBOX_STATUS_0) ->
  a <> wrap_u32 (base + ASPEED_MBOX_STATUS_1) ->
  hw_load (hw_store base r a d) a = d.
Proof.
  intros H1 H2 H3. unfold hw_store, hw_load.
  repeat case_decide; try tauto; by rewrite lookup_insert_eq.
Qed.

Lemma hw_store_ctrl base r d :
  let a := wrap_u32 (base + ASPEED_MBOX_BMC_CTRL) in
  hw_load (hw_store base r a d) a
  = Z.lor (Z.ldiff (Z.land (hw_load r a) ASPEED_MBOX_CTRL_RECV) d)
          (Z.ldiff d ASPEED_MBOX_CTRL_RECV).
Proof.
  intros a. unfold hw_store. rewrite decide_True by reflexivity.
  unfold hw_load at 1. by rewrite lookup_insert_eq.
Qed.

(** A register of the window is none of the control or status registers,
    and no two registers of the window share an address. *)
Lemma data_reg_not_special base i off :
  0 <= i < 16 -> 64 <= off < 2 ^ 31 ->
  wrap_u32 (base + data_reg i) <> wrap_u32 (base + off).
Proof.
  intros Hi Ho. rewrite data_reg_window by lia. apply wrap_u32_apart; lia.
Qed.

Lemma data_reg_apart base i j :
  0 <= i < 16 -> 0 <= j < 16 -> i <> j ->
  wrap_u32 (base + data_reg i) <> wrap_u32 (base + data_reg j).
Proof.
  intros Hi Hj Hne. rewrite !data_reg_window by lia.
  apply wrap_u32_apart; lia.
Qed.

(** What a write to the control register does to its bits. *)
Lemma ctrl_after_ack old :
  let v := Z.lor (Z.ldiff (Z.land old ASPEED_MBOX_CTRL_RECV)
                          (u8 ASPEED_MBOX_CTRL_RECV))
                 (Z.ldiff (u8 ASPEED_MBOX_CTRL_RECV) ASPEED_MBOX_CTRL_RECV) in
  Z.testbit v 7 = false /\ Z.testbit v 1 = false.
Proof.
  cbn zeta. rewrite !Z.lor_spec, !Z.ldiff_spec, !Z.land_spec.
  change (Z.testbit (u8 ASPEED_MBOX_CTRL_RECV) 7) with true.
  change (Z.testbit ASPEED_MBOX_CTRL_RECV 7) with true.
  change (Z.testbit (u8 ASPEED_MBOX_CTRL_RECV) 1) with false.
  change (Z.testbit ASPEED_MBOX_CTRL_RECV 1) with false.
  by destruct (Z.testbit old 7), (Z.testbit old 1).
Qed.

Lemma ctrl_after_mask old :
  let v := Z.lor (Z.ldiff (Z.land old ASPEED_MBOX_CTRL_RECV)
                          (u8 ASPEED_MBOX_CTRL_MASK))
                 (Z.ldiff (u8 ASPEED_MBOX_CTRL_MASK) ASPEED_MBOX_CTRL_RECV) in
  Z.testbit v 7 = Z.testbit old 7 /\ Z.testbit v 1 = true.
Proof.
  cbn zeta. rewrite !Z.lor_spec, !Z.ldiff_spec, !Z.land_spec.
  change (Z.testbit (u8 ASPEED_MBOX_CTRL_MASK) 7) with false.
  change (Z.testbit ASPEED_MBOX_CTRL_RECV 7) with true.
  change (Z.testbit (u8 ASPEED_MBOX_CTRL_MASK) 1) with true.
  change (Z.testbit ASPEED_MBOX_CTRL_RECV 1) with false.
  by destruct (Z.testbit old 7), (Z.testbit old 1).
Qed.

Lemma ctrl_after_send old :
  let v := Z.lor (Z.ldiff (Z.land old ASPEED_MBOX_CTRL_RECV)
                          (u8 ASPEED_MBOX_CTRL_SEND))
                 (Z.ldiff (u8 ASPEED_MBOX_CTRL_SEND) ASPEED_MBOX_CTRL_RECV) in
  Z.testbit v 7 = Z.testbit old 7 /\ Z.testbit v 0 = true.
Proof.
  cbn zeta. rewrite !Z.lor_spec, !Z.ldiff_spec, !Z.land_spec.
  change (Z.testbit (u8 ASPEED_MBOX_CTRL_SEND) 7) with false.
  change (Z.testbit ASPEED_MBOX_CTRL_RECV 7) with true.
  change (Z.testbit (u8 ASPEED_MBOX_CTRL_SEND) 0) with true.
  change (Z.testbit ASPEED_MBOX_CTRL_RECV 0) with false.
  by destruct (Z.testbit old 7), (Z.testbit old 0).
Qed.

(** The RECV test of the driver, [c & ASPEED_MBOX_CTRL_RECV], is bit 7. *)
Lemma recv_test c :
  (Z.land c ASPEED_MBOX_CTRL_RECV =? 0) = negb (Z.testbit c 7).
Proof.
  change ASPEED_MBOX_CTRL_RECV with (2 ^ 7).
  destruct (Z.testbit c 7) eqn:E; cbn.
  - apply Z.eqb_neq. intros H.
    assert (Z.testbit (Z.land c (2 ^ 7)) 7 = false) as H' by (by rewrite H).
    rewrite Z.land_spec, E, Z.pow2_bits_true in H' by lia. discriminate.
  - apply Z.eqb_eq. apply Z.bits_inj'. intros n Hn.
    rewrite Z.land_spec, Z.bits_0.
    destruct (Z.eq_dec n 7) as [-> | Hne].
    + by rewrite E.
    + rewrite Z.pow2_bits_false by lia. apply andb_false_r.
Qed.

(** ** The bytes the read loop stores *)

Lemma read_copy_umem_other base r n : forall i p rcs um a,
  ~ (p <= a < p + Z.of_nat n) ->
  read_copy_umem base r i p rcs n um !! a = um !! a.
Proof.
  induction n as [|n IH]; intros i p rcs um a Ha; [reflexivity|].
  cbn [read_copy_umem]. rewrite IH by lia. apply lookup_insert_ne. lia.
Qed.

Lemma read_copy_umem_lookup base r n : forall i p rcs um (k : nat),
  (k < n)%nat ->
  read_copy_umem base r i p rcs n um !! (p + Z.of_nat k)
  = Some (rd_byte (nth k rcs 0)
            (hw_load r (wrap_u32 (base + data_reg (i + Z.of_nat k))))).
Proof.
  induction n as [|n IH]; intros i p rcs um k Hk; [lia|].
  cbn [read_copy_umem]. destruct k as [|k].
  - rewrite read_copy_umem_other by lia.
    rewrite !Z.add_0_r, hd_nth. apply lookup_insert_eq.
  - replace (p + Z.of_nat (S k)) with (p + 1 + Z.of_nat k) by lia.
    replace (i + Z.of_nat (S k)) with (i + 1 + Z.of_nat k) by lia.
    rewrite IH by lia. by rewrite nth_tl.
Qed.

(** ** The registers the write loop stores *)

Lemma write_copy_regs_other base data : forall r i rcs a,
  (forall k : nat, (k < length data)%nat ->
     a <> wrap_u32 (base + data_reg (i + Z.of_nat k))) ->
  hw_load (write_copy_regs base r i rcs data) a = hw_load r a.
Proof.
  induction data as [|c data IH]; intros r i rcs a Ha; [reflexivity|].
  cbn [write_copy_regs]. rewrite IH.
  - destruct (hd 0 rcs =? 0); [|reflexivity].
    apply hw_store_other. specialize (Ha 0%nat ltac:(cbn; lia)).
    rewrite Z.add_0_r in Ha. congruence.
  - intros k Hk. specialize (Ha (S k) ltac:(cbn; lia)).
    by replace (i + 1 + Z.of_nat k) with (i + Z.of_nat (S k)) by lia.
Qed.

Lemma write_copy_regs_lookup base data : forall r i rcs (k : nat) c,
  0 <= i -> i + Z.of_nat (length data) <= 16 ->
  data !! k = Some c -> nth k rcs 0 = 0 ->
  hw_load (write_copy_regs base r i rcs data)
          (wrap_u32 (base + data_reg (i + Z.of_nat k)))
  = u8 c.
Proof.
  induction data as [|c0 data IH]; intros r i rcs k c Hi Hlen Hk Hrc; [done|].
  cbn [length] in Hlen. cbn [write_copy_regs]. destruct k as [|k].
  - injection Hk as ->. rewrite Z.add_0_r.
    rewrite write_copy_regs_other.
    + rewrite <- hd_nth in Hrc. rewrite Hrc. cbn.
      apply hw_store_plain; apply data_reg_not_special;
        unfold ASPEED_MBOX_BMC_CTRL, ASPEED_MBOX_STATUS_0,
          ASPEED_MBOX_STATUS_1; lia.
    + intros k Hk. apply data_reg_apart; lia.
  - replace (i + Z.of_nat (S k)) with (i + 1 + Z.of_nat k) by lia.
    apply IH; try lia; [exact Hk|by rewrite nth_tl].
Qed.

(** ** The interrupt handler, run *)

Lemma irq_run w :
  aspeed_mbox_irq w
  = if recv_observed w then (Returned IRQ_HANDLED, irq_done w)
    else (Returned IRQ_NONE, after_inb ASPEED_MBOX_BMC_CTRL w).
Proof.
  unfold aspeed_mbox_irq. erewrite bind_run by apply inb_run.
  rewrite recv_test. fold (recv_observed w).
  destruct (recv_observed w); cbn [negb]; [|reflexivity].
  erewrite bind_run by apply outb_run. reflexivity.
Qed.

Lemma recv_condition_run w :
  recv_condition w
  = (Returned (Z.land (inb_value ASPEED_MBOX_BMC_CTRL w) ASPEED_MBOX_CTRL_RECV),
     after_inb ASPEED_MBOX_BMC_CTRL w).
Proof. unfold recv_condition. by erewrite bind_run by apply inb_run. Qed.

(** ** What stays as it was *)

Lemma same_caller_refl w : same_caller w w.
Proof. by repeat split. Qed.

Lemma same_caller_trans w1 w2 w3 :
  same_caller w1 w2 -> same_caller w2 w3 -> same_caller w1 w3.
Proof.
  unfold same_caller. intros (?&?&?&?&?) (?&?&?&?&?).
  repeat split; congruence.
Qed.

Lemma same_caller_after_inb reg w : same_caller w (after_inb reg w).
Proof. by repeat split. Qed.

Lemma same_caller_after_outb data reg w : same_caller w (after_outb data reg w).
Proof. unfold after_outb. by destruct (bus_next w =? 0); repeat split. Qed.

Lemma same_caller_irq_done w : same_caller w (irq_done w).
Proof.
  unfold irq_done. eapply same_caller_trans; [apply same_caller_after_inb|].
  eapply same_caller_trans; [apply same_caller_after_outb|]. by repeat split.
Qed.

Lemma same_caller_env_step e w : same_caller w (env_step e w).
Proof.
  destruct e as [msg| |]; cbn [env_step]; [|apply same_caller_refl|by repeat split].
  assert (same_caller w (host_post msg w)) as H by (by repeat split).
  destruct (irq_line (host_post msg w)); [|exact H].
  eapply same_caller_trans; [exact H|]. rewrite irq_run.
  destruct (recv_observed _); cbn [snd];
    [apply same_caller_irq_done|apply same_caller_after_inb].
Qed.

(** ** Waiting for RECV *)

(** A wait ends in one of three ways, leaves the caller's own state alone,
    and ends with 0 only on a read of the control register that showed
    RECV set. *)
Lemma wait_loop_ends n : forall w o w1,
  __wait_event_interruptible recv_condition n w = (o, w1) ->
  same_caller w w1
  /\ (o = Returned 0 \/ o = Returned (- ERESTARTSYS) \/ o = Asleep)
  /\ (o = Returned 0 ->
      exists w0, recv_observed w0 = true
                 /\ w1 = after_inb ASPEED_MBOX_BMC_CTRL w0).
Proof.
  induction n as [|n IH]; intros w o w1;
    cbn [__wait_event_interruptible];
    (erewrite bind_run by apply recv_condition_run);
    rewrite recv_test; fold (recv_observed w);
    destruct (recv_observed w) eqn:Hobs; cbn [negb].
  1,3: intros [= <- <-]; split; [apply same_caller_after_inb|];
       split; [by left|]; intros _; by exists w.
  all: unfold bind at 1, gets at 1;
       destruct (sigpending (after_inb ASPEED_MBOX_BMC_CTRL w)).
  1,3: intros [= <- <-]; split; [apply same_caller_after_inb|];
       split; [by right; left|]; intros [=].
  - intros [= <- <-]. split; [apply same_caller_after_inb|].
    split; [by right; right|]. intros [=].
  - unfold bind at 1, schedule at 1.
    destruct (sched (after_inb ASPEED_MBOX_BMC_CTRL w)) as [|e es].
    + intros [= <- <-]. split; [apply same_caller_after_inb|].
      split; [by right; right|]. intros [=].
    + intros Hrun. apply IH in Hrun as (Hs & Ho & Hw).
      split; [|by split].
      eapply same_caller_trans; [|exact Hs].
      eapply same_caller_trans; [|apply same_caller_env_step]. by repeat split.
Qed.

Lemma wait_event_ends w o w1 :
  wait_event_interruptible recv_condition w = (o, w1) ->
  same_caller w w1
  /\ (o = Returned 0 \/ o = Returned (- ERESTARTSYS) \/ o = Asleep)
  /\ (o = Returned 0 ->
      exists w0, recv_observed w0 = true
                 /\ w1 = after_inb ASPEED_MBOX_BMC_CTRL w0).
Proof.
  unfold wait_event_interruptible.
  erewrite bind_run by apply recv_condition_run.
  rewrite recv_test. fold (recv_observed w).
  destruct (recv_observed w) eqn:Hobs; cbn [negb].
  - intros [= <- <-]. split; [apply same_caller_after_inb|].
    split; [by left|]. intros _. by exists w.
  - unfold bind at 1, gets at 1. intros Hrun.
    apply wait_loop_ends in Hrun as (Hs & Ho & Hw). split; [|by split].
    eapply same_caller_trans; [apply same_caller_after_inb|exact Hs].
Qed.

(** ** The wait at the head of read *)

Lemma read_wait_nonblock f w :
  Z.land f O_NONBLOCK <> 0 ->
  read_wait f w
  = (Returned (if recv_observed w then None else Some (- EAGAIN)),
     after_inb ASPEED_MBOX_BMC_CTRL w).
Proof.
  intros Hf. unfold read_wait.
  destruct (Z.eqb_spec (Z.land f O_NONBLOCK) 0); [congruence|].
  erewrite bind_run by apply inb_run. rewrite recv_test.
  fold (recv_observed w). by destruct (recv_observed w).
Qed.

Lemma read_wait_block_ready f w :
  Z.land f O_NONBLOCK = 0 -> recv_observed w = true ->
  read_wait f w = (Returned None, after_inb ASPEED_MBOX_BMC_CTRL w).
Proof.
  intros Hf Hobs. unfold read_wait. rewrite Hf. cbn [Z.eqb].
  fold recv_condition.
  assert (wait_event_interruptible recv_condition w
          = (Returned 0, after_inb ASPEED_MBOX_BMC_CTRL w)) as Hw.
  { unfold wait_event_interruptible.
    erewrite bind_run by apply recv_condition_run.
    rewrite recv_test. fold (recv_observed w). by rewrite Hobs. }
  by erewrite bind_run by exact Hw.
Qed.

Lemma read_wait_passed f w w1 :
  read_wait f w = (Returned None, w1) ->
  same_caller w w1
  /\ exists w0, recv_observed w0 = true
                /\ w1 = after_inb ASPEED_MBOX_BMC_CTRL w0.
Proof.
  unfold read_wait. destruct (Z.eqb_spec (Z.land f O_NONBLOCK) 0) as [Hf|Hf].
  - fold recv_condition. unfold bind at 1.
    destruct (wait_event_interruptible recv_condition w) as [o w2] eqn:Hw.
    apply wait_event_ends in Hw as (Hs & Ho & Hz).
    destruct o as [r|]; [|intros [=]].
    destruct (Z.eqb_spec r 0) as [-> | Hr]; [|intros [=]].
    intros [= <-]. split; [exact Hs|]. by apply Hz.
  - erewrite bind_run by apply inb_run. rewrite recv_test.
    fold (recv_observed w). destruct (recv_observed w) eqn:Hobs; cbn [negb];
      intros [= <-].
    split; [apply same_caller_after_inb|]. by exists w.
Qed.

(** ** read and write, run *)

Lemma mutex_lock_run w :
  mutex_held w = false -> mutex_lock w = (Returned tt, locked w).
Proof. intros H. unfold mutex_lock. by rewrite H. Qed.

Lemma read_loop_fault n : forall fuel i count p w,
  0 <= i -> i + count <= 16 -> Z.of_nat n < count -> (n < fuel)%nat ->
  user_mapped w p (Z.of_nat n) -> umem w !! (p + Z.of_nat n) = None ->
  read_loop fuel i count p w
  = (Returned (OutUnlock (- EFAULT)),
     after_inb (data_reg (i + Z.of_nat n)) (read_copy_world n i p w)).
Proof.
  induction n as [|n IH]; intros fuel i count p w Hi Hic Hn Hf Hm Hu;
    (destruct fuel as [|fuel]; [lia|]); cbn [read_loop read_copy_world];
    (replace (count >? 0) with true by (symmetry; apply Z.gtb_lt; lia));
    (replace (i <? ASPEED_MBOX_NUM_REGS) with true
      by (symmetry; apply Z.ltb_lt; unfold ASPEED_MBOX_NUM_REGS; lia));
    cbn [andb]; (erewrite bind_run by apply inb_run).
  - rewrite Z.add_0_r in *. erewrite bind_run.
    2:{ apply put_user_fault. by rewrite after_inb_umem. }
    reflexivity.
  - erewrite bind_run.
    2:{ apply put_user_run. rewrite after_inb_umem.
        specialize (Hm 0 ltac:(lia)). by rewrite Z.add_0_r in Hm. }
    cbn [Z.eqb]. rewrite (IH fuel); try lia.
    + by replace (i + 1 + Z.of_nat n) with (i + Z.of_nat (S n)) by lia.
    + intros k Hk. cbn [umem set_umem].
      apply lookup_insert_is_Some. right. split; [lia|].
      replace (p + 1 + k) with (p + (k + 1)) by lia. apply Hm. lia.
    + cbn [umem set_umem]. rewrite lookup_insert_ne by lia.
      by replace (p + 1 + Z.of_nat n) with (p + Z.of_nat (S n)) by lia.
Qed.

Lemma read_locked_run buf count ppos w :
  mutex_held w = false -> 0 <= count -> 0 <= ppos -> count + ppos <= 16 ->
  user_mapped w buf count ->
  read_locked buf count ppos w = (Returned count, read_done buf count ppos w).
Proof.
  intros Hmx Hc Hp Hcp Hm. unfold read_locked.
  erewrite bind_run by (by apply mutex_lock_run).
  rewrite (wrap_s32_small ppos) by lia.
  erewrite bind_run.
  2:{ rewrite <- (Z2Nat.id count) at 1 by lia.
      apply read_loop_run; try lia.
      - unfold ASPEED_MBOX_NUM_REGS. lia.
      - by rewrite Z2Nat.id by lia. }
  erewrite bind_run.
  2:{ erewrite bind_run by apply outb_run. reflexivity. }
  unfold bind, mutex_unlock, modify, ret, read_done, unlocked.
  rewrite Z2Nat.id by lia. do 2 f_equal.
  replace (buf + count - buf) with count by lia. apply wrap_s32_small. lia.
Qed.

Lemma read_locked_fault buf count ppos (n : nat) w :
  mutex_held w = false -> 0 <= ppos -> count + ppos <= 16 ->
  Z.of_nat n < count ->
  user_mapped w buf (Z.of_nat n) -> umem w !! (buf + Z.of_nat n) = None ->
  read_locked buf count ppos w
  = (Returned (- EFAULT), read_faulted buf n ppos w).
Proof.
  intros Hmx Hp Hcp Hn Hm Hu. unfold read_locked.
  erewrite bind_run by (by apply mutex_lock_run).
  rewrite (wrap_s32_small ppos) by lia.
  erewrite bind_run.
  2:{ apply (read_loop_fault n); try lia; try done.
      unfold ASPEED_MBOX_NUM_REGS. lia. }
  reflexivity.
Qed.

Lemma write_locked_run buf count ppos w :
  mutex_held w = false -> 0 <= count -> 0 <= ppos -> count + ppos <= 16 ->
  user_range w buf count -> user_mapped w buf count ->
  aspeed_mbox_write buf count ppos w
  = (Returned count, write_done buf count ppos w).
Proof.
  intros Hmx Hc Hp Hcp Hr Hm. unfold aspeed_mbox_write.
  unfold bind at 1, access_ok, gets.
  replace (buf + count <=? addr_limit w) with true
    by (symmetry; by apply Z.leb_le).
  cbn [negb]. rewrite wrap_s64_small by lia.
  replace (count + ppos >? ASPEED_MBOX_NUM_REGS) with false.
  2:{ symmetry. rewrite Z.gtb_ltb. apply Z.ltb_ge.
      unfold ASPEED_MBOX_NUM_REGS. lia. }
  erewrite bind_run by (by apply mutex_lock_run).
  rewrite (wrap_s32_small ppos) by lia.
  erewrite bind_run.
  2:{ rewrite <- (Z2Nat.id count) at 1 by lia.
      apply write_loop_run; try lia.
      - unfold ASPEED_MBOX_NUM_REGS. lia.
      - by rewrite Z2Nat.id by lia. }
  erewrite bind_run.
  2:{ erewrite bind_run by apply outb_run. reflexivity. }
  unfold bind, mutex_unlock, modify, ret, write_done, unlocked.
  rewrite Z2Nat.id by lia. do 2 f_equal.
  replace (buf + count - buf) with count by lia. apply wrap_s32_small. lia.
Qed.

(** The two argument checks at the head of read. *)
Lemma read_entry f buf count ppos w :
  user_range w buf count -> 0 <= count -> 0 <= ppos -> count + ppos <= 16 ->
  aspeed_mbox_read f buf count ppos w
  = match read_wait f w with
    | (Returned (Some e), w1) => (Returned e, w1)
    | (Returned None, w1) => read_locked buf count ppos w1
    | (Asleep, w1) => (Asleep, w1)
    end.
Proof.
  intros Hr Hc Hp Hcp. unfold aspeed_mbox_read.
  unfold bind at 1, access_ok, gets.
  replace (buf + count <=? addr_limit w) with true
    by (symmetry; by apply Z.leb_le).
  cbn [negb]. rewrite wrap_s64_small by lia.
  replace (count + ppos >? ASPEED_MBOX_NUM_REGS) with false.
  2:{ symmetry. rewrite Z.gtb_ltb. apply Z.ltb_ge.
      unfold ASPEED_MBOX_NUM_REGS. lia. }
  unfold bind. destruct (read_wait f w) as [[[e|]|] w1]; reflexivity.
Qed.

(** ** The worlds the operations leave, field by field *)

Lemma hd_drop n (l : list Z) : hd 0 (drop n l) = nth n l 0.
Proof.
  revert l. induction n as [|n IH]; intros [|x l]; cbn; done.
Qed.

Lemma read_done_fields buf count ppos w :
  let n := Z.to_nat count in
  let rc := nth n (bus_rc w) 0 in
  trace (read_done buf count ppos w)
  = trace w ++ [MutexLock]
    ++ read_events (mbox_base w) ppos (bus_rc w) n
    ++ wr_events (mbox_base w) ASPEED_MBOX_CTRL_RECV ASPEED_MBOX_BMC_CTRL rc
    ++ [MutexUnlock]
  /\ umem (read_done buf count ppos w)
     = read_copy_umem (mbox_base w) (regs w) ppos buf (bus_rc w) n (umem w)
  /\ regs (read_done buf count ppos w)
     = (if rc =? 0 then
          hw_store (mbox_base w) (regs w) (ctrl_addr w)
                   (u8 ASPEED_MBOX_CTRL_RECV)
        else regs w)
  /\ bus_rc (read_done buf count ppos w) = drop (S n) (bus_rc w)
  /\ mutex_held (read_done buf count ppos w) = false
  /\ mbox_base (read_done buf count ppos w) = mbox_base w
  /\ addr_limit (read_done buf count ppos w) = addr_limit w.
Proof.
  intros n rc. unfold read_done, unlocked, locked. fold n.
  rewrite read_copy_world_eq. subst rc.
  destruct w as [b r rcs oc mh al um sp sc tr].
  unfold after_outb, ctrl_addr. world_fields. rewrite hd_drop.
  destruct (nth n rcs 0 =? 0); world_fields; rewrite tl_drop;
    rewrite <- !app_assoc; done.
Qed.

Lemma read_faulted_fields buf (n : nat) ppos w :
  trace (read_faulted buf n ppos w)
  = trace w ++ [MutexLock]
    ++ read_events (mbox_base w) ppos (bus_rc w) (S n)
    ++ [MutexUnlock]
  /\ umem (read_faulted buf n ppos w)
     = read_copy_umem (mbox_base w) (regs w) ppos buf (bus_rc w) n (umem w)
  /\ regs (read_faulted buf n ppos w) = regs w
  /\ bus_rc (read_faulted buf n ppos w) = drop (S n) (bus_rc w)
  /\ mutex_held (read_faulted buf n ppos w) = false
  /\ mbox_base (read_faulted buf n ppos w) = mbox_base w
  /\ addr_limit (read_faulted buf n ppos w) = addr_limit w.
Proof.
  unfold read_faulted, unlocked, locked.
  rewrite read_copy_world_eq.
  assert (forall base rcs i,
    read_events base i rcs (S n)
    = read_events base i rcs n
      ++ rd_events base (data_reg (i + Z.of_nat n)) (nth n rcs 0)) as Hsnoc.
  { intros base. induction n as [|m IH]; intros rcs i.
    - cbn. by rewrite Z.add_0_r, app_nil_r, hd_nth.
    - change (read_events base i rcs (S (S m)))
        with (rd_events base (data_reg i) (hd 0 rcs)
              ++ read_events base (i + 1) (tl rcs) (S m)).
      rewrite IH. cbn [read_events]. rewrite <- app_assoc, nth_tl.
      by replace (i + 1 + Z.of_nat m) with (i + Z.of_nat (S m)) by lia. }
  rewrite Hsnoc.
  destruct w as [b r rcs oc mh al um sp sc tr].
  unfold after_inb. world_fields. rewrite hd_drop, tl_drop.
  rewrite <- !app_assoc. done.
Qed.

Lemma write_done_fields buf ppos (data : list Z) w :
  let count := Z.of_nat (length data) in
  let rc := nth (length data) (bus_rc w) 0 in
  user_holds w buf data ->
  trace (write_done buf count ppos w)
  = trace w ++ [MutexLock]
    ++ write_events (mbox_base w) ppos (bus_rc w) data
    ++ wr_events (mbox_base w) ASPEED_MBOX_CTRL_SEND ASPEED_MBOX_BMC_CTRL rc
    ++ [MutexUnlock]
  /\ umem (write_done buf count ppos w) = umem w
  /\ regs (write_done buf count ppos w)
     = (let r := write_copy_regs (mbox_base w) (regs w) ppos (bus_rc w) data in
        if rc =? 0 then
          hw_store (mbox_base w) r (ctrl_addr w) (u8 ASPEED_MBOX_CTRL_SEND)
        else r)
  /\ mutex_held (write_done buf count ppos w) = false
  /\ mbox_base (write_done buf count ppos w) = mbox_base w.
Proof.
  intros count rc Hd. unfold write_done, unlocked, locked. subst count.
  rewrite Nat2Z.id, write_copy_world_eq by exact Hd. subst rc.
  destruct w as [b r rcs oc mh al um sp sc tr].
  unfold after_outb, ctrl_addr. world_fields. rewrite hd_drop.
  destruct (nth (length data) rcs 0 =? 0); world_fields;
    rewrite <- !app_assoc; done.
Qed.

Lemma irq_done_fields w :
  let rc := nth 1 (bus_rc w) 0 in
  trace (irq_done w)
  = trace w
    ++ rd_events (mbox_base w) ASPEED_MBOX_BMC_CTRL (bus_next w)
    ++ wr_events (mbox_base w) ASPEED_MBOX_CTRL_MASK ASPEED_MBOX_BMC_CTRL rc
    ++ [WakeUp]
  /\ regs (irq_done w)
     = (if rc =? 0 then
          hw_store (mbox_base w) (regs w) (ctrl_addr w)
                   (u8 ASPEED_MBOX_CTRL_MASK)
        else regs w)
  /\ mbox_base (irq_done w) = mbox_base w.
Proof.
  intros rc. subst rc. unfold irq_done, after_outb, after_inb, ctrl_addr.
  destruct w as [b r rcs oc mh al um sp sc tr]. world_fields.
  rewrite <- nth_tl, <- hd_nth.
  destruct (hd 0 (tl rcs) =? 0); world_fields; rewrite <- !app_assoc; done.
Qed.

Lemma open_done_fields w :
  trace (open_done w)
  = trace w
    ++ wr_events (mbox_base w) ASPEED_MBOX_CTRL_RECV ASPEED_MBOX_BMC_CTRL
         (bus_next w)
  /\ regs (open_done w)
     = (if bus_next w =? 0 then
          hw_store (mbox_base w) (regs w) (ctrl_addr w)
                   (u8 ASPEED_MBOX_CTRL_RECV)
        else regs w)
  /\ aspeed_mbox_open_count (open_done w) = 1
  /\ umem (open_done w) = umem w
  /\ mutex_held (open_done w) = mutex_held w
  /\ mbox_base (open_done w) = mbox_base w.
Proof.
  unfold open_done, after_outb, ctrl_addr.
  destruct w as [b r rcs oc mh al um sp sc tr]. world_fields.
  destruct (hd 0 rcs =? 0); world_fields; done.
Qed.

Lemma data_addr_ne_ctrl w j : 0 <= j < 16 -> ctrl_addr w <> data_addr w j.
Proof.
  intros Hj. unfold ctrl_addr, data_addr, ASPEED_MBOX_DATA_0,
    ASPEED_MBOX_BMC_CTRL. apply wrap_u32_apart; lia.
Qed.

Lemma data_addr_reg w j :
  0 <= j < 16 -> wrap_u32 (mbox_base w + data_reg j) = data_addr w j.
Proof. intros Hj. unfold data_addr. by rewrite data_reg_window. Qed.

(** ** The control register after each write the driver makes *)

Lemma hw_same_regs w w' :
  mbox_base w' = mbox_base w -> regs w' = regs w ->
  hw_recv w' = hw_recv w /\ hw_mask w' = hw_mask w
  /\ irq_line w' = irq_line w.
Proof.
  intros Hb Hr. unfold irq_line, hw_recv, hw_mask, hw_ctrl, ctrl_addr.
  by rewrite Hb, Hr.
Qed.

Lemma hw_after_ack w w' :
  mbox_base w' = mbox_base w ->
  regs w' = hw_store (mbox_base w) (regs w) (ctrl_addr w)
              (u8 ASPEED_MBOX_CTRL_RECV) ->
  hw_recv w' = false /\ hw_mask w' = false.
Proof.
  intros Hb Hr. unfold hw_recv, hw_mask, hw_ctrl, ctrl_addr.
  rewrite Hb, Hr. unfold ctrl_addr. rewrite hw_store_ctrl.
  apply ctrl_after_ack.
Qed.

Lemma hw_after_mask w w' :
  mbox_base w' = mbox_base w ->
  regs w' = hw_store (mbox_base w) (regs w) (ctrl_addr w)
              (u8 ASPEED_MBOX_CTRL_MASK) ->
  hw_recv w' = hw_recv w /\ hw_mask w' = true.
Proof.
  intros Hb Hr. unfold hw_recv, hw_mask, hw_ctrl, ctrl_addr.
  rewrite Hb, Hr. unfold ctrl_addr. rewrite hw_store_ctrl.
  apply ctrl_after_mask.
Qed.

Lemma recv_observed_hw w : bus_next w = 0 -> recv_observed w = hw_recv w.
Proof.
  intros H. unfold recv_observed, inb_value, hw_recv, hw_ctrl, ctrl_addr.
  rewrite H, rd_byte_ok, Z.land_spec.
  change (Z.testbit 255 7) with true. apply andb_true_r.
Qed.

Lemma recv_observed_failed w : bus_next w <> 0 -> recv_observed w = true.
Proof.
  intros H. unfold recv_observed, inb_value. by rewrite rd_byte_failed.
Qed.

(** ** The interrupt handler *)

(** C2.  Every run of the interrupt handler reads the BMC control register
    once.  When the value read has RECV clear the handler returns
    IRQ_NONE, with no register write and no wake-up.  When it has RECV set
    the handler makes exactly one register write, the MASK bit value to
    the control register, which leaves the RECV bit of the register as it
    is, then wakes the wait queue and returns IRQ_HANDLED.  Either way it
    neither takes the mutex nor sleeps. *)
Theorem irq_masks_and_wakes w :
  let r := fst (aspeed_mbox_irq w) in
  let w' := snd (aspeed_mbox_irq w) in
  exists evs,
    trace w' = trace w ++ evs
    /\ bus_reads evs = [ctrl_addr w]
    /\ (if recv_observed w then
          r = Returned IRQ_HANDLED
          /\ actions evs = [BusRead (ctrl_addr w);
                            BusWrite (ctrl_addr w) ASPEED_MBOX_CTRL_MASK;
                            WakeUp]
          /\ bus_writes evs = [(ctrl_addr w, ASPEED_MBOX_CTRL_MASK)]
          /\ (nth 1 (bus_rc w) 0 = 0 -> hw_mask w' = true)
        else
          r = Returned IRQ_NONE
          /\ actions evs = [BusRead (ctrl_addr w)]
          /\ bus_writes evs = []
          /\ regs w' = regs w)
    /\ hw_recv w' = hw_recv w
    /\ ~ In MutexLock evs /\ ~ In Schedule evs
    /\ mutex_held w' = mutex_held w
    /\ (bus_next w = 0 -> recv_observed w = hw_recv w).
Proof.
  cbn zeta. rewrite irq_run.
  destruct (recv_observed w) eqn:Hobs; cbn [fst snd].
  - destruct (irq_done_fields w) as (Htr & Hregs & Hb).
    eexists. split; [exact Htr|]. unfold ctrl_addr.
    repeat split.
    + unfold rd_events, wr_events.
      by destruct (bus_next w =? 0), (nth 1 (bus_rc w) 0 =? 0).
    + unfold rd_events, wr_events.
      by destruct (bus_next w =? 0), (nth 1 (bus_rc w) 0 =? 0).
    + unfold rd_events, wr_events.
      by destruct (bus_next w =? 0), (nth 1 (bus_rc w) 0 =? 0).
    + intros Hrc. rewrite Hrc in Hregs. by apply (hw_after_mask w).
    + destruct (nth 1 (bus_rc w) 0 =? 0).
      * by apply (hw_after_mask w).
      * by apply hw_same_regs.
    + unfold rd_events, wr_events.
      destruct (bus_next w =? 0), (nth 1 (bus_rc w) 0 =? 0); cbn;
        intuition discriminate.
    + unfold rd_events, wr_events.
      destruct (bus_next w =? 0), (nth 1 (bus_rc w) 0 =? 0); cbn;
        intuition discriminate.
    + apply same_caller_irq_done.
    + intros H. by rewrite <- Hobs, recv_observed_hw.
  - eexists. split; [apply after_inb_trace|]. unfold ctrl_addr.
    repeat split;
      try (unfold rd_events; destruct (bus_next w =? 0); cbn;
           intuition discriminate).
    intros H. by rewrite <- Hobs, recv_observed_hw.
Qed.

(** The host has rung and the interrupt is not masked: the handler claims
    the interrupt, masks it and leaves RECV set.  With nothing pending it
    declines. *)
Lemma irq_masks_and_wakes_witness :
  (recv_observed w_ringing = true /\ nth 1 (bus_rc w_ringing) 0 = 0
   /\ recv_observed w_idle = false)
  /\ fst (aspeed_mbox_irq w_ringing) = Returned IRQ_HANDLED
  /\ hw_mask (snd (aspeed_mbox_irq w_ringing)) = true
  /\ hw_recv (snd (aspeed_mbox_irq w_ringing)) = true
  /\ fst (aspeed_mbox_irq w_idle) = Returned IRQ_NONE
  /\ regs (snd (aspeed_mbox_irq w_idle)) = regs w_idle.
Proof.
  destruct (irq_masks_and_wakes w_ringing)
    as (evs & _ & _ & Hcase & Hrecv & _).
  destruct (irq_masks_and_wakes w_idle) as (evs' & _ & _ & Hcase' & _).
  change (recv_observed w_ringing) with true in Hcase.
  change (recv_observed w_idle) with false in Hcase'.
  destruct Hcase as (Hr & _ & _ & Hmask).
  destruct Hcase' as (Hr' & _ & _ & Hregs').
  split; [by vm_compute|].
  split; [exact Hr|]. split; [exact (Hmask eq_refl)|].
  split; [by rewrite Hrecv|]. split; [exact Hr'|exact Hregs'].
Defined.

(** ** open and release *)

Lemma open_count_round_trip c :
  - 2 ^ 31 <= c < 2 ^ 31 -> c <> 0 ->
  wrap_s32 (c + 1) <> 1 /\ wrap_s32 (wrap_s32 (c + 1) - 1) = c.
Proof.
  intros Hc Hne. destruct (Z.eq_dec c (2 ^ 31 - 1)) as [->|Hmax].
  - by vm_compute.
  - rewrite (wrap_s32_small (c + 1)) by lia.
    split; [lia|]. rewrite wrap_s32_small by lia. lia.
Qed.

Lemma open_busy w :
  - 2 ^ 31 <= aspeed_mbox_open_count w < 2 ^ 31 ->
  aspeed_mbox_open_count w <> 0 ->
  aspeed_mbox_open w = (Returned (- EBUSY), w).
Proof.
  intros Hc Hne. destruct (open_count_round_trip _ Hc Hne) as [H1 H2].
  unfold aspeed_mbox_open, bind, atomic_inc_return, atomic_dec, modify, ret.
  destruct (Z.eqb_spec (wrap_s32 (aspeed_mbox_open_count w + 1)) 1);
    [congruence|].
  destruct w as [b r rcs oc mh al um sp sc tr]. world_fields.
  cbn in H2. by rewrite H2.
Qed.

Lemma open_run w :
  aspeed_mbox_open_count w = 0 ->
  aspeed_mbox_open w = (Returned 0, open_done w).
Proof.
  intros Hc. unfold aspeed_mbox_open.
  unfold bind at 1, atomic_inc_return. rewrite Hc.
  change (wrap_s32 (0 + 1)) with 1. cbn [Z.eqb Pos.eqb].
  by erewrite bind_run by apply outb_run.
Qed.

(** C3.  open fails with -EBUSY when a session is open, and then touches
    nothing: the world is the one it started from.  Otherwise it marks
    the session open and makes the single acknowledge write, the RECV bit
    value to the BMC control register, which (the bus willing) leaves
    RECV clear and the interrupt unmasked; no other register and no byte
    of the caller changes.  release ends the session without any register
    access, and the next open succeeds. *)
Theorem open_is_exclusive w :
  - 2 ^ 31 <= aspeed_mbox_open_count w < 2 ^ 31 ->
  (aspeed_mbox_open_count w <> 0 ->
     aspeed_mbox_open w = (Returned (- EBUSY), w))
  /\ (aspeed_mbox_open_count w = 0 ->
        let w' := open_done w in
        aspeed_mbox_open w = (Returned 0, w')
        /\ aspeed_mbox_open_count w' = 1
        /\ (exists evs,
              trace w' = trace w ++ evs
              /\ actions evs
                 = [BusWrite (ctrl_addr w) ASPEED_MBOX_CTRL_RECV])
        /\ (forall a, a <> ctrl_addr w ->
              hw_load (regs w') a = hw_load (regs w) a)
        /\ umem w' = umem w
        /\ (bus_next w = 0 -> hw_recv w' = false /\ hw_mask w' = false))
  /\ (aspeed_mbox_open_count w = 1 ->
        let w' := set_open_count 0 w in
        aspeed_mbox_release w = (Returned 0, w')
        /\ regs w' = regs w /\ trace w' = trace w
        /\ fst (aspeed_mbox_open w') = Returned 0).
Proof.
  intros Hc. split; [|split].
  - intros Hne. by apply open_busy.
  - intros H0. cbn zeta.
    destruct (open_done_fields w) as (Htr & Hregs & Hoc & Hum & _ & Hb).
    split; [by apply open_run|]. split; [exact Hoc|].
    split; [|split; [|split; [exact Hum|]]].
    + eexists. split; [exact Htr|]. apply actions_wr_events.
    + intros a Ha. rewrite Hregs.
      destruct (bus_next w =? 0); [|reflexivity].
      by apply hw_store_other.
    + intros Hrc. rewrite Hrc in Hregs. by apply (hw_after_ack w).
  - intros H1. cbn zeta. split; [|split; [done|split; [done|]]].
    + unfold aspeed_mbox_release, bind, atomic_dec, modify, ret.
      by rewrite H1.
    + by rewrite open_run.
Qed.

(** The second of two opens is refused; after a release the device opens
    again. *)
Lemma open_is_exclusive_witness :
  (- 2 ^ 31 <= aspeed_mbox_open_count w_in_use < 2 ^ 31
   /\ aspeed_mbox_open_count w_in_use <> 0
   /\ aspeed_mbox_open_count w_idle = 0)
  /\ aspeed_mbox_open w_in_use = (Returned (- EBUSY), w_in_use)
  /\ fst (aspeed_mbox_open w_idle) = Returned 0
  /\ aspeed_mbox_open_count (snd (aspeed_mbox_open w_idle)) = 1
  /\ fst (aspeed_mbox_open (snd (aspeed_mbox_release w_in_use)))
     = Returned 0.
Proof.
  destruct (open_is_exclusive w_in_use ltac:(by vm_compute)) as (Hb & _ & Hr).
  destruct (open_is_exclusive w_idle ltac:(by vm_compute)) as (_ & Ho & _).
  specialize (Hb ltac:(by vm_compute)).
  destruct (Ho eq_refl) as (Hrun & Hoc & _).
  destruct (Hr eq_refl) as (Hrel & _ & _ & Hopen).
  split; [by vm_compute|].
  split; [exact Hb|]. rewrite Hrun, Hrel. cbn [fst snd].
  split; [reflexivity|]. split; [exact Hoc|exact Hopen].
Defined.

(** ** write *)

Lemma byte_at (data : list Z) (k : nat) b :
  Forall (fun b => 0 <= b < 256) data -> data !! k = Some b -> 0 <= b < 256.
Proof. intros H Hk. rewrite Forall_lookup in H. exact (H k b Hk). Qed.

Lemma actions_locked_copy (body tail_ : list event) :
  actions ([MutexLock] ++ body ++ tail_ ++ [MutexUnlock])
  = [MutexLock] ++ actions body ++ actions tail_ ++ [MutexUnlock].
Proof. by rewrite !actions_app. Qed.

(** C4.  With [count + *ppos <= 16] and the [count] source bytes readable
    at [buf], write takes the mutex, hands each source byte as it is to
    the data register of its position, [*ppos + k] for byte [k], whatever
    RECV is (and without changing it), then writes the SEND bit value to
    the BMC control register, releases the mutex and returns [count].  The
    calling process never sleeps: the call returns, and its actions are the
    ones listed. *)
Theorem write_stores_window w buf ppos (data : list Z) :
  let count := Z.of_nat (length data) in
  mutex_held w = false ->
  0 <= ppos -> count + ppos <= 16 ->
  user_range w buf count -> user_holds w buf data ->
  Forall (fun b => 0 <= b < 256) data ->
  let w' := write_done buf count ppos w in
  aspeed_mbox_write buf count ppos w = (Returned count, w')
  /\ (exists evs,
        trace w' = trace w ++ evs
        /\ actions evs
           = [MutexLock]
             ++ imap (fun k b =>
                        BusWrite (data_addr w (ppos + Z.of_nat k)) b) data
             ++ [BusWrite (ctrl_addr w) ASPEED_MBOX_CTRL_SEND; MutexUnlock])
  /\ (forall (k : nat) b,
        data !! k = Some b -> nth k (bus_rc w) 0 = 0 ->
        hw_load (regs w') (data_addr w (ppos + Z.of_nat k)) = b)
  /\ (forall j, 0 <= j < 16 -> ~ (ppos <= j < ppos + count) ->
        hw_load (regs w') (data_addr w j) = hw_load (regs w) (data_addr w j))
  /\ hw_recv w' = hw_recv w
  /\ mutex_held w' = false
  /\ umem w' = umem w.
Proof.
  intros count Hmx Hp Hcp Hr Hd Hbytes w'.
  destruct (write_done_fields buf ppos data w Hd)
    as (Htr & Hum & Hregs & Hmh & Hb).
  fold count in Htr, Hum, Hregs, Hmh, Hb. fold w' in Htr, Hum, Hregs, Hmh, Hb.
  cbn zeta in Hregs.
  assert (forall a,
    (forall k : nat, (k < length data)%nat ->
       a <> data_addr w (ppos + Z.of_nat k)) ->
    hw_load (write_copy_regs (mbox_base w) (regs w) ppos (bus_rc w) data) a
    = hw_load (regs w) a) as Hother.
  { intros a Ha. apply write_copy_regs_other. intros k Hk.
    rewrite data_addr_reg by lia. by apply Ha. }
  split; [|split; [|split; [|split; [|split; [|split]]]]].
  - apply write_locked_run; try done; try lia.
    by apply user_holds_mapped.
  - eexists. split; [exact Htr|].
    rewrite actions_locked_copy, actions_write_events, actions_wr_events.
    f_equal. f_equal.
    apply imap_ext. intros k b Hk.
    assert (k < length data)%nat by (by eapply lookup_lt_Some).
    rewrite data_addr_reg by lia.
    rewrite u8_byte; [done|]. by eapply byte_at.
  - intros k b Hk Hrc.
    assert (k < length data)%nat by (by eapply lookup_lt_Some).
    assert (hw_load
              (write_copy_regs (mbox_base w) (regs w) ppos (bus_rc w) data)
              (data_addr w (ppos + Z.of_nat k)) = b) as Hk'.
    { rewrite <- data_addr_reg by lia.
      rewrite (write_copy_regs_lookup _ _ _ _ _ k b); try done; try lia.
      apply u8_byte. by eapply byte_at. }
    rewrite Hregs.
    destruct (nth (length data) (bus_rc w) 0 =? 0); [|exact Hk'].
    rewrite hw_store_other; [exact Hk'|]. apply data_addr_ne_ctrl. lia.
  - intros j Hj Hout.
    assert (hw_load
              (write_copy_regs (mbox_base w) (regs w) ppos (bus_rc w) data)
              (data_addr w j) = hw_load (regs w) (data_addr w j)) as Hj'.
    { apply Hother. intros k Hk. unfold data_addr. apply wrap_u32_apart;
        unfold ASPEED_MBOX_DATA_0; lia. }
    rewrite Hregs.
    destruct (nth (length data) (bus_rc w) 0 =? 0); [|exact Hj'].
    rewrite hw_store_other; [exact Hj'|]. by apply data_addr_ne_ctrl.
  - assert (hw_load
              (write_copy_regs (mbox_base w) (regs w) ppos (bus_rc w) data)
              (ctrl_addr w) = hw_load (regs w) (ctrl_addr w)) as Hc.
    { apply Hother. intros k Hk. apply data_addr_ne_ctrl. lia. }
    unfold hw_recv, hw_ctrl. unfold ctrl_addr at 1. rewrite Hb.
    fold (ctrl_addr w). rewrite Hregs.
    destruct (nth (length data) (bus_rc w) 0 =? 0); [|by rewrite Hc].
    unfold ctrl_addr. rewrite hw_store_ctrl. fold (ctrl_addr w). rewrite Hc.
    apply ctrl_after_send.
  - exact Hmh.
  - exact Hum.
Qed.

(** Three bytes written at position 2: the second lands in data
    register 3. *)
Lemma write_stores_window_witness :
  (mutex_held w_sender = false /\ 0 <= 2 /\ 3 + 2 <= 16
   /\ user_range w_sender 0x1000 3)
  /\ fst (aspeed_mbox_write 0x1000 3 2 w_sender) = Returned 3
  /\ hw_load (regs (snd (aspeed_mbox_write 0x1000 3 2 w_sender)))
             (data_addr w_sender 3) = 8.
Proof.
  assert (user_range w_sender 0x1000 3) as Hr by (by vm_compute).
  assert (user_holds w_sender 0x1000 [7; 8; 9]) as Hd.
  { intros [|[|[|k]]] b; cbn; intros [= <-]; by vm_compute. }
  assert (Forall (fun b => 0 <= b < 256) [7; 8; 9]) as Hb
    by (repeat constructor; lia).
  destruct (write_stores_window w_sender 0x1000 2 [7; 8; 9]
              eq_refl ltac:(lia) ltac:(cbn; lia) Hr Hd Hb)
    as (Hrun & _ & Hregs & _).
  split; [repeat split; try done; lia|].
  change (Z.of_nat (length [7; 8; 9])) with 3 in *.
  rewrite Hrun. cbn [fst snd]. split; [reflexivity|].
  exact (Hregs 1%nat 8 eq_refl eq_refl).
Defined.

(** ** read *)

Lemma read_after_wait f buf count ppos w w1 :
  user_range w buf count -> 0 <= count -> 0 <= ppos -> count + ppos <= 16 ->
  read_wait f w = (Returned None, w1) ->
  aspeed_mbox_read f buf count ppos w = read_locked buf count ppos w1.
Proof. intros Hr Hc Hp Hcp Hg. rewrite read_entry by done. by rewrite Hg. Qed.

Lemma actions_read_window w (i : Z) (n : nat) rcs :
  0 <= i -> i + Z.of_nat n <= 16 ->
  actions (read_events (mbox_base w) i rcs n)
  = (fun j => BusRead (data_addr w j)) <$> seqZ i (Z.of_nat n).
Proof.
  intros Hi Hn. rewrite actions_read_events. apply list_fmap_ext.
  intros k j Hj. apply lookup_seqZ in Hj as [-> Hk].
  by rewrite data_addr_reg by lia.
Qed.

Lemma nth_nil (k : nat) : nth k (@nil Z) 0 = 0.
Proof. by destruct k. Qed.

Lemma read_bad_range f buf count ppos w :
  ~ user_range w buf count ->
  aspeed_mbox_read f buf count ppos w = (Returned (- EFAULT), w).
Proof.
  intros Hr. unfold aspeed_mbox_read, bind, access_ok, gets, ret.
  by replace (buf + count <=? addr_limit w) with false
    by (symmetry; apply Z.leb_gt; unfold user_range in Hr; lia).
Qed.

(** C1, as amended.  Take a read with [0 <= *ppos] and
    [count + *ppos <= 16].  If the buffer range fails the access check,
    read returns -EFAULT at once and touches nothing.  Otherwise: if
    O_NONBLOCK is set and the control register is read with RECV clear,
    read returns -EAGAIN, having made that one register read and nothing
    else.  If the control register is read with RECV set (as it is when
    the bus read fails) the wait is over at once, blocking or not.
    Whenever the wait is over and the destination bytes are mapped, read
    takes the mutex, copies byte [k] of the result from data register
    [*ppos + k] (its low byte, or the sentinel when the bus read failed),
    makes one register write, the RECV bit value to the control register,
    which with a working bus leaves RECV clear and the interrupt
    unmasked, releases the mutex and returns [count]. *)
Theorem read_returns_pending_bytes w f buf count ppos :
  mutex_held w = false ->
  0 <= count -> 0 <= ppos -> count + ppos <= 16 ->
  (~ user_range w buf count ->
     aspeed_mbox_read f buf count ppos w = (Returned (- EFAULT), w))
  /\ (bus_next w = 0 -> recv_observed w = hw_recv w)
  /\ (bus_next w <> 0 -> recv_observed w = true)
  /\ (user_range w buf count ->
      (Z.land f O_NONBLOCK <> 0 -> recv_observed w = false ->
         let w' := after_inb ASPEED_MBOX_BMC_CTRL w in
         aspeed_mbox_read f buf count ppos w = (Returned (- EAGAIN), w')
         /\ (exists evs, trace w' = trace w ++ evs
                         /\ actions evs = [BusRead (ctrl_addr w)])
         /\ regs w' = regs w /\ umem w' = umem w)
      /\ (recv_observed w = true ->
            read_wait f w
            = (Returned None, after_inb ASPEED_MBOX_BMC_CTRL w))
      /\ (forall w1,
            read_wait f w = (Returned None, w1) ->
            user_mapped w buf count ->
            let w' := read_done buf count ppos w1 in
            aspeed_mbox_read f buf count ppos w = (Returned count, w')
            /\ (forall k : nat, Z.of_nat k < count ->
                  umem w' !! (buf + Z.of_nat k)
                  = Some (rd_byte (nth k (bus_rc w1) 0)
                            (hw_load (regs w1)
                                     (data_addr w (ppos + Z.of_nat k)))))
            /\ (forall a, ~ (buf <= a < buf + count) ->
                  umem w' !! a = umem w !! a)
            /\ (exists evs,
                  trace w' = trace w1 ++ evs
                  /\ actions evs
                     = [MutexLock]
                       ++ ((fun j => BusRead (data_addr w j))
                             <$> seqZ ppos count)
                       ++ [BusWrite (ctrl_addr w) ASPEED_MBOX_CTRL_RECV;
                           MutexUnlock])
            /\ (forall j, 0 <= j < 16 ->
                  hw_load (regs w') (data_addr w j)
                  = hw_load (regs w1) (data_addr w j))
            /\ (nth (Z.to_nat count) (bus_rc w1) 0 = 0 ->
                  hw_recv w' = false /\ hw_mask w' = false)
            /\ mutex_held w' = false)).
Proof.
  intros Hmx Hc Hp Hcp.
  split; [apply read_bad_range|].
  split; [apply recv_observed_hw|]. split; [apply recv_observed_failed|].
  intros Hr. split; [|split].
  - intros Hf Hobs. cbn zeta. rewrite read_entry by done.
    rewrite read_wait_nonblock by done. rewrite Hobs.
    split; [reflexivity|]. split; [|done].
    eexists. split; [apply after_inb_trace|].
    apply actions_rd_events.
  - intros Hobs. destruct (Z.eq_dec (Z.land f O_NONBLOCK) 0) as [Hf|Hf].
    + by apply read_wait_block_ready.
    + rewrite read_wait_nonblock by done. by rewrite Hobs.
  - intros w1 Hg Hm. cbn zeta.
    destruct (read_wait_passed _ _ _ Hg)
      as ((Hb1 & Hmx1 & Hal1 & Hum1 & _) & _).
    destruct (read_done_fields buf count ppos w1)
      as (Htr & Hum & Hregs & _ & Hmh & Hb & _).
    cbn zeta in Htr, Hum, Hregs.
    assert (forall j, data_addr w1 j = data_addr w j) as Hda
      by (intros j; unfold data_addr; by rewrite Hb1).
    assert (ctrl_addr w1 = ctrl_addr w) as Hca
      by (unfold ctrl_addr; by rewrite Hb1).
    split; [|split; [|split; [|split; [|split; [|split]]]]].
    + rewrite (read_after_wait f buf count ppos w w1) by done.
      apply read_locked_run; try done; try congruence.
      intros k Hk. rewrite Hum1. by apply Hm.
    + intros k Hk. rewrite Hum.
      rewrite read_copy_umem_lookup by lia.
      by rewrite data_addr_reg, Hda by lia.
    + intros a Ha. rewrite Hum, read_copy_umem_other, Hum1; [done|].
      rewrite Z2Nat.id by lia. exact Ha.
    + eexists. split; [exact Htr|].
      rewrite actions_locked_copy, actions_wr_events.
      rewrite (actions_read_window w1) by lia.
      rewrite Z2Nat.id by lia. fold (ctrl_addr w1). rewrite Hca.
      f_equal. f_equal. apply list_fmap_ext. intros k j _. by rewrite Hda.
    + intros j Hj. rewrite Hregs.
      destruct (_ =? 0); [|done].
      apply hw_store_other. rewrite <- Hda. by apply data_addr_ne_ctrl.
    + intros Hrc. rewrite Hrc in Hregs. by apply (hw_after_ack w1).
    + exact Hmh.
Qed.

(** A blocking read of three bytes that finds nothing pending, sleeps
    through a spurious wake and then a doorbell of the host, whose
    message it returns; the acknowledge leaves RECV clear and the
    interrupt unmasked. *)
Lemma read_returns_pending_bytes_witness :
  (mutex_held w_waiting = false /\ 0 <= 3 /\ 0 <= 0 /\ 3 + 0 <= 16
   /\ user_range w_waiting 0x1000 3
   /\ user_mapped w_waiting 0x1000 3
   /\ fst (read_wait 0 w_waiting) = Returned None)
  /\ fst (aspeed_mbox_read 0 0x1000 3 0 w_waiting) = Returned 3
  /\ umem (snd (aspeed_mbox_read 0 0x1000 3 0 w_waiting)) !! 0x1001
     = Some 0x42
  /\ hw_recv (snd (aspeed_mbox_read 0 0x1000 3 0 w_waiting)) = false
  /\ hw_mask (snd (aspeed_mbox_read 0 0x1000 3 0 w_waiting)) = false.
Proof.
  assert (user_range w_waiting 0x1000 3) as Hr by (by vm_compute).
  assert (user_mapped w_waiting 0x1000 3) as Hm.
  { intros k Hk.
    assert (k = 0 \/ k = 1 \/ k = 2) as [-> | [-> | ->]] by lia;
      vm_compute; by eexists. }
  assert (read_wait 0 w_waiting
          = (Returned None, snd (read_wait 0 w_waiting))) as Hg
    by (by vm_compute).
  destruct (read_returns_pending_bytes w_waiting 0 0x1000 3 0
              eq_refl ltac:(lia) ltac:(lia) ltac:(lia))
    as (_ & _ & _ & Hin).
  destruct (Hin Hr) as (_ & _ & Hcopy).
  destruct (Hcopy _ Hg Hm) as (Hrun & Hbytes & _ & _ & _ & Hack & _).
  split; [repeat split; try done; try lia; by vm_compute|].
  rewrite Hrun. cbn [fst snd]. split; [reflexivity|].
  split; [|exact (Hack eq_refl)].
  change 4097 with (4096 + Z.of_nat 1).
  rewrite (Hbytes 1%nat ltac:(lia)). by vm_compute.
Defined.

(** C1 as the claim words it fails in two places.  A non-blocking read
    with RECV clear and a buffer beyond the caller's address limit
    returns -EFAULT, not -EAGAIN.  And with RECV set and a destination
    inside the address range that is not mapped, read returns -EFAULT,
    not the count. *)
Lemma read_would_block_counterexample :
  (hw_recv w_idle = false /\ bus_rc w_idle = []
   /\ Z.land O_NONBLOCK O_NONBLOCK <> 0 /\ 1 + 0 <= 16
   /\ aspeed_mbox_read O_NONBLOCK 0xc0000000 1 0 w_idle
      = (Returned (- EFAULT), w_idle)
   /\ - EFAULT <> - EAGAIN)
  /\ (hw_recv w_no_buffer = true /\ bus_rc w_no_buffer = []
      /\ 3 + 0 <= 16 /\ user_range w_no_buffer 0x1000 3
      /\ fst (aspeed_mbox_read O_NONBLOCK 0x1000 3 0 w_no_buffer)
         = Returned (- EFAULT)
      /\ - EFAULT <> 3).
Proof. split; repeat split; by vm_compute. Qed.

(** ** The argument checks *)

Lemma oversize_check count ppos :
  0 <= count <= SIZE_MAX -> 16 < count + ppos <= LLONG_MAX ->
  (wrap_s64 (count + ppos) >? ASPEED_MBOX_NUM_REGS) = true.
Proof.
  unfold SIZE_MAX, LLONG_MAX, ASPEED_MBOX_NUM_REGS. intros Hc Hs.
  rewrite wrap_s64_small by lia. apply Z.gtb_lt. lia.
Qed.

Lemma oversize_write_run w buf count ppos :
  0 <= count <= SIZE_MAX -> 16 < count + ppos <= LLONG_MAX ->
  aspeed_mbox_write buf count ppos w
  = (Returned (if buf + count <=? addr_limit w then - EINVAL else - EFAULT),
     w).
Proof.
  intros Hc Hs. pose proof (oversize_check count ppos Hc Hs) as Hbig.
  unfold aspeed_mbox_write, bind, access_ok, gets, ret.
  rewrite Hbig. by destruct (buf + count <=? addr_limit w).
Qed.

Lemma oversize_read_run w f buf count ppos :
  0 <= count <= SIZE_MAX -> 16 < count + ppos <= LLONG_MAX ->
  aspeed_mbox_read f buf count ppos w
  = (Returned (if buf + count <=? addr_limit w then - EINVAL else - EFAULT),
     w).
Proof.
  intros Hc Hs. pose proof (oversize_check count ppos Hc Hs) as Hbig.
  unfold aspeed_mbox_read, bind, access_ok, gets, ret.
  rewrite Hbig. by destruct (buf + count <=? addr_limit w).
Qed.

(** C5, as amended.  A read or write with [count + *ppos > 16] returns
    before any hardware access, -EINVAL when the buffer range passes the
    access check and -EFAULT when it does not (that check comes first),
    and leaves the world exactly as it was: RECV, the control register,
    the window, the trace. *)
Theorem oversize_rejected_untouched w f buf count ppos :
  0 <= count <= SIZE_MAX -> 16 < count + ppos <= LLONG_MAX ->
  let r := if buf + count <=? addr_limit w then - EINVAL else - EFAULT in
  aspeed_mbox_read f buf count ppos w = (Returned r, w)
  /\ aspeed_mbox_write buf count ppos w = (Returned r, w).
Proof.
  intros Hc Hs. cbn zeta. split.
  - by apply oversize_read_run.
  - by apply oversize_write_run.
Qed.

(** Eight bytes at position 9 reach past the window: both calls return
    -EINVAL and the world is the one they started from. *)
Lemma oversize_rejected_untouched_witness :
  (0 <= 8 <= SIZE_MAX /\ 16 < 8 + 9 <= LLONG_MAX)
  /\ aspeed_mbox_read 0 0x1000 8 9 w_pending = (Returned (- EINVAL), w_pending)
  /\ aspeed_mbox_write 0x1000 8 9 w_pending = (Returned (- EINVAL), w_pending).
Proof.
  split; [by vm_compute|].
  exact (oversize_rejected_untouched w_pending 0 0x1000 8 9
           ltac:(by vm_compute) ltac:(by vm_compute)).
Defined.

(** C5 as the claim words it fails where the buffer lies beyond the
    caller's address limit: the call returns -EFAULT, not -EINVAL. *)
Lemma oversize_counterexample :
  16 < 17 + 0
  /\ aspeed_mbox_read O_NONBLOCK 0xc0000000 17 0 w_pending
     = (Returned (- EFAULT), w_pending)
  /\ aspeed_mbox_write 0xc0000000 17 0 w_pending
     = (Returned (- EFAULT), w_pending)
  /\ - EFAULT <> - EINVAL.
Proof. repeat split; by vm_compute. Qed.

(** ** A destination that refuses a byte *)

Lemma read_fault_run w f buf count ppos (n : nat) w1 :
  mutex_held w = false -> 0 <= ppos -> count + ppos <= 16 ->
  user_range w buf count ->
  read_wait f w = (Returned None, w1) ->
  Z.of_nat n < count ->
  user_mapped w buf (Z.of_nat n) -> umem w !! (buf + Z.of_nat n) = None ->
  aspeed_mbox_read f buf count ppos w
  = (Returned (- EFAULT), read_faulted buf n ppos w1).
Proof.
  intros Hmx Hp Hcp Hr Hg Hn Hm Hu.
  destruct (read_wait_passed _ _ _ Hg) as ((Hb1 & Hmx1 & Hal1 & Hum1 & _) & _).
  rewrite (read_after_wait f buf count ppos w w1) by (done || lia).
  apply read_locked_fault; try done; try congruence.
  intros k Hk. rewrite Hum1. by apply Hm.
Qed.

(** C7, as amended.  When the destination refuses byte [n] of the copy,
    the transfer stops there: the [n] bytes before it are in the buffer,
    register [*ppos + n] is the last one read, the mutex is released, and
    read returns the bare error code -EFAULT; the count of bytes copied
    is not part of the result. *)
Theorem read_fault_is_bare_error w f buf count ppos (n : nat) w1 :
  mutex_held w = false -> 0 <= ppos -> count + ppos <= 16 ->
  user_range w buf count ->
  read_wait f w = (Returned None, w1) ->
  Z.of_nat n < count ->
  user_mapped w buf (Z.of_nat n) -> umem w !! (buf + Z.of_nat n) = None ->
  let w' := read_faulted buf n ppos w1 in
  aspeed_mbox_read f buf count ppos w = (Returned (- EFAULT), w')
  /\ (forall k : nat, (k < n)%nat ->
        umem w' !! (buf + Z.of_nat k)
        = Some (rd_byte (nth k (bus_rc w1) 0)
                  (hw_load (regs w1) (data_addr w (ppos + Z.of_nat k)))))
  /\ (forall a, ~ (buf <= a < buf + Z.of_nat n) ->
        umem w' !! a = umem w !! a)
  /\ (exists evs,
        trace w' = trace w1 ++ evs
        /\ actions evs
           = [MutexLock]
             ++ ((fun j => BusRead (data_addr w j))
                   <$> seqZ ppos (Z.of_nat n + 1))
             ++ [MutexUnlock])
  /\ mutex_held w' = false.
Proof.
  intros Hmx Hp Hcp Hr Hg Hn Hm Hu. cbn zeta.
  destruct (read_wait_passed _ _ _ Hg) as ((Hb1 & Hmx1 & Hal1 & Hum1 & _) & _).
  destruct (read_faulted_fields buf n ppos w1)
    as (Htr & Hum & Hregs & _ & Hmh & Hb & _).
  assert (forall j, data_addr w1 j = data_addr w j) as Hda
    by (intros j; unfold data_addr; by rewrite Hb1).
  split; [by apply read_fault_run|].
  split; [|split; [|split; [|exact Hmh]]].
  - intros k Hk. rewrite Hum, read_copy_umem_lookup by lia.
    by rewrite data_addr_reg, Hda by lia.
  - intros a Ha. by rewrite Hum, read_copy_umem_other, Hum1.
  - eexists. split; [exact Htr|].
    rewrite !actions_app, (actions_read_window w1) by lia.
    replace (Z.of_nat (S n)) with (Z.of_nat n + 1) by lia.
    cbn [actions filter]. f_equal. f_equal.
    apply list_fmap_ext. intros k j _. by rewrite Hda.
Qed.

(** A three-byte read into a buffer with one mapped byte: the first byte
    arrives, the second faults, the result is -EFAULT. *)
Lemma read_fault_is_bare_error_witness :
  (mutex_held w_short_buffer = false /\ 0 <= 0 /\ 3 + 0 <= 16
   /\ user_range w_short_buffer 0x1000 3
   /\ fst (read_wait O_NONBLOCK w_short_buffer) = Returned None
   /\ Z.of_nat 1 < 3
   /\ user_mapped w_short_buffer 0x1000 (Z.of_nat 1)
   /\ umem w_short_buffer !! (0x1000 + Z.of_nat 1) = None)
  /\ fst (aspeed_mbox_read O_NONBLOCK 0x1000 3 0 w_short_buffer)
     = Returned (- EFAULT)
  /\ umem (snd (aspeed_mbox_read O_NONBLOCK 0x1000 3 0 w_short_buffer))
       !! 0x1000 = Some 0x10.
Proof.
  assert (user_range w_short_buffer 0x1000 3) as Hr by (by vm_compute).
  assert (user_mapped w_short_buffer 0x1000 (Z.of_nat 1)) as Hm.
  { intros k Hk. assert (k = 0) as -> by lia. vm_compute. by eexists. }
  assert (read_wait O_NONBLOCK w_short_buffer
          = (Returned None, snd (read_wait O_NONBLOCK w_short_buffer)))
    as Hg by (by vm_compute).
  destruct (read_fault_is_bare_error w_short_buffer O_NONBLOCK 0x1000 3 0
              1%nat _ eq_refl ltac:(lia) ltac:(lia) Hr Hg ltac:(lia) Hm
              ltac:(by vm_compute))
    as (Hrun & Hbytes & _).
  split; [repeat split; try done; try lia; by vm_compute|].
  rewrite Hrun. cbn [fst snd]. split; [reflexivity|].
  pose proof (Hbytes 0%nat ltac:(lia)) as H0.
  change (4096 + Z.of_nat 0) with 4096 in H0. rewrite H0. by vm_compute.
Defined.

(** C7 as the claim words it fails: a read that copied one byte before
    the fault and a read that copied none both return -EFAULT and nothing
    else, so the result carries no partial count. *)
Lemma read_fault_count_counterexample :
  fst (aspeed_mbox_read O_NONBLOCK 0x1000 3 0 w_short_buffer)
  = Returned (- EFAULT)
  /\ umem (snd (aspeed_mbox_read O_NONBLOCK 0x1000 3 0 w_short_buffer))
       !! 0x1000 = Some 0x10
  /\ fst (aspeed_mbox_read O_NONBLOCK 0x1000 3 0 w_no_buffer)
     = Returned (- EFAULT)
  /\ umem (snd (aspeed_mbox_read O_NONBLOCK 0x1000 3 0 w_no_buffer)) = ∅
  /\ - EFAULT <> 1.
Proof. repeat split; by vm_compute. Qed.

(** ** The results of write *)

Lemma write_loop_fault n : forall fuel i count p w,
  0 <= i -> i + count <= 16 -> Z.of_nat n < count -> (n < fuel)%nat ->
  user_mapped w p (Z.of_nat n) -> umem w !! (p + Z.of_nat n) = None ->
  write_loop fuel i count p w
  = (Returned (OutUnlock (- EFAULT)), write_copy_world n i p w).
Proof.
  induction n as [|n IH]; intros fuel i count p w Hi Hic Hn Hf Hm Hu;
    (destruct fuel as [|fuel]; [lia|]); cbn [write_loop write_copy_world];
    (replace (count >? 0) with true by (symmetry; apply Z.gtb_lt; lia));
    (replace (i <? ASPEED_MBOX_NUM_REGS) with true
      by (symmetry; apply Z.ltb_lt; unfold ASPEED_MBOX_NUM_REGS; lia));
    cbn [andb].
  - rewrite Z.add_0_r in Hu. by erewrite bind_run by (by apply get_user_fault).
  - erewrite bind_run.
    2:{ apply get_user_run. specialize (Hm 0 ltac:(lia)).
        by rewrite Z.add_0_r in Hm. }
    cbn [fst snd Z.eqb]. erewrite bind_run by apply outb_run.
    apply (IH fuel); try lia.
    + intros k Hk. rewrite after_outb_umem.
      replace (p + 1 + k) with (p + (k + 1)) by lia. apply Hm. lia.
    + rewrite after_outb_umem.
      by replace (p + 1 + Z.of_nat n) with (p + Z.of_nat (S n)) by lia.
Qed.

Lemma first_unmapped w buf (n : nat) :
  user_mapped w buf (Z.of_nat n)
  \/ exists m : nat, (m < n)%nat /\ user_mapped w buf (Z.of_nat m)
                     /\ umem w !! (buf + Z.of_nat m) = None.
Proof.
  induction n as [|n [IH|(m & Hm & Hmap & Hnone)]].
  - left. intros k Hk. lia.
  - destruct (umem w !! (buf + Z.of_nat n)) as [c|] eqn:Hc.
    + left. intros k Hk. destruct (Z.eq_dec k (Z.of_nat n)) as [-> | Hne].
      * by exists c.
      * apply IH. lia.
    + right. exists n. split; [lia|]. by split.
  - right. exists m. split; [lia|]. by split.
Qed.

(** C8, as amended.  write returns the number of bytes written, -EINVAL
    or -EFAULT, and nothing else: -EFAULT when the buffer range fails the
    access check or a source byte cannot be read, -EINVAL when the range
    is fine and [count + *ppos > 16], and [count] otherwise. *)
Theorem write_result_kinds w buf count ppos :
  mutex_held w = false ->
  0 <= count <= SIZE_MAX -> 0 <= ppos -> count + ppos <= LLONG_MAX ->
  exists r w',
    aspeed_mbox_write buf count ppos w = (Returned r, w')
    /\ ((r = count /\ user_range w buf count /\ count + ppos <= 16
         /\ user_mapped w buf count)
        \/ (r = - EINVAL /\ user_range w buf count /\ 16 < count + ppos)
        \/ (r = - EFAULT
            /\ (~ user_range w buf count \/ ~ user_mapped w buf count))).
Proof.
  intros Hmx Hc Hp Hs.
  destruct (Z.le_gt_cases (buf + count) (addr_limit w)) as [Hr|Hr].
  2:{ exists (- EFAULT), w. split.
      - unfold aspeed_mbox_write, bind, access_ok, gets, ret.
        by replace (buf + count <=? addr_limit w) with false
          by (symmetry; apply Z.leb_gt; lia).
      - right; right. split; [done|]. left. unfold user_range. lia. }
  destruct (Z.le_gt_cases (count + ppos) 16) as [Hcp|Hcp].
  2:{ exists (- EINVAL), w. split.
      - rewrite oversize_write_run by (done || lia).
        by replace (buf + count <=? addr_limit w) with true
          by (symmetry; apply Z.leb_le; lia).
      - right; left. repeat split; [done|lia]. }
  destruct (first_unmapped w buf (Z.to_nat count))
    as [Hm|(m & Hm & Hmap & Hnone)].
  - rewrite Z2Nat.id in Hm by lia.
    exists count, (write_done buf count ppos w). split.
    + apply write_locked_run; try done; lia.
    + left. by repeat split.
  - eexists (- EFAULT), _. split.
    + unfold aspeed_mbox_write.
      unfold bind at 1, access_ok, gets.
      replace (buf + count <=? addr_limit w) with true
        by (symmetry; by apply Z.leb_le).
      cbn [negb]. rewrite wrap_s64_small by (unfold LLONG_MAX in Hs; lia).
      replace (count + ppos >? ASPEED_MBOX_NUM_REGS) with false.
      2:{ symmetry. rewrite Z.gtb_ltb. apply Z.ltb_ge.
          unfold ASPEED_MBOX_NUM_REGS. lia. }
      erewrite bind_run by (by apply mutex_lock_run).
      rewrite (wrap_s32_small ppos) by lia.
      erewrite bind_run.
      2:{ apply (write_loop_fault m); try lia; try done.
          unfold ASPEED_MBOX_NUM_REGS. lia. }
      reflexivity.
    + right; right. split; [done|]. right. intros Hall.
      destruct (Hall (Z.of_nat m) ltac:(lia)) as [c Hsome]. congruence.
Qed.

(** A write from a buffer that is not mapped has one of the three
    results. *)
Lemma write_result_kinds_witness :
  (mutex_held w_no_buffer = false /\ 0 <= 3 <= SIZE_MAX /\ 0 <= 0
   /\ 3 + 0 <= LLONG_MAX)
  /\ exists r w',
       aspeed_mbox_write 0x1000 3 0 w_no_buffer = (Returned r, w')
       /\ (r = 3 \/ r = - EINVAL \/ r = - EFAULT).
Proof.
  split; [by vm_compute|].
  destruct (write_result_kinds w_no_buffer 0x1000 3 0 eq_refl
              ltac:(by vm_compute) ltac:(lia) ltac:(by vm_compute))
    as (r & w' & Hrun & Hkind).
  exists r, w'. split; [exact Hrun|].
  destruct Hkind as [(-> & _) | [(-> & _) | (-> & _)]]; auto.
Defined.

(** C8 as the claim words it fails: a write from a buffer inside the
    caller's range but not mapped returns -EFAULT, which is neither a count
    of bytes nor -EINVAL. *)
Lemma write_fault_counterexample :
  user_range w_no_buffer 0x1000 3
  /\ fst (aspeed_mbox_write 0x1000 3 0 w_no_buffer) = Returned (- EFAULT)
  /\ - EFAULT < 0 /\ - EFAULT <> - EINVAL.
Proof. repeat split; by vm_compute. Qed.

(** ** A fault leaves the interrupt masked *)

Lemma bus_writes_read_events base n : forall i rcs,
  bus_writes (read_events base i rcs n) = [].
Proof.
  induction n as [|n IH]; intros i rcs; [reflexivity|].
  cbn [read_events]. rewrite bus_writes_app, IH, app_nil_r.
  unfold rd_events. by destruct (hd 0 rcs =? 0).
Qed.

(** A read that gets past its wait with a good buffer and a working
    bus returns its count and leaves RECV clear and the interrupt
    unmasked. *)
Lemma read_success_acks w f buf count ppos w1 :
  mutex_held w = false ->
  0 <= count -> 0 <= ppos -> count + ppos <= 16 ->
  user_range w buf count -> user_mapped w buf count ->
  read_wait f w = (Returned None, w1) ->
  aspeed_mbox_read f buf count ppos w
  = (Returned count, read_done buf count ppos w1)
  /\ (nth (Z.to_nat count) (bus_rc w1) 0 = 0 ->
      hw_recv (read_done buf count ppos w1) = false
      /\ hw_mask (read_done buf count ppos w1) = false).
Proof.
  intros Hmx Hc Hp Hcp Hr Hm Hg.
  destruct (read_wait_passed _ _ _ Hg) as ((Hb1 & Hmx1 & Hal1 & Hum1 & _) & _).
  destruct (read_done_fields buf count ppos w1)
    as (_ & _ & Hregs & _ & _ & Hb & _).
  cbn zeta in Hregs. split.
  - rewrite (read_after_wait f buf count ppos w w1) by done.
    apply read_locked_run; try done; try congruence.
    intros k Hk. rewrite Hum1. by apply Hm.
  - intros Hrc. rewrite Hrc in Hregs. by apply (hw_after_ack w1).
Qed.

Lemma read_wait_ready f w :
  recv_observed w = true ->
  read_wait f w = (Returned None, after_inb ASPEED_MBOX_BMC_CTRL w).
Proof.
  intros Hobs. destruct (Z.eq_dec (Z.land f O_NONBLOCK) 0) as [Hf|Hf].
  - by apply read_wait_block_ready.
  - rewrite read_wait_nonblock by done. by rewrite Hobs.
Qed.

Lemma host_fill_other base msg : forall i r a,
  (forall k : nat, (k < length msg)%nat ->
     a <> wrap_u32 (base + (ASPEED_MBOX_DATA_0 + (i + Z.of_nat k) * 4))) ->
  hw_load (host_fill r base i msg) a = hw_load r a.
Proof.
  induction msg as [|b msg IH]; intros i r a Ha; [reflexivity|].
  cbn [host_fill]. rewrite IH.
  - unfold hw_load. rewrite lookup_insert_ne; [done|].
    specialize (Ha 0%nat ltac:(cbn; lia)). rewrite Z.add_0_r in Ha.
    congruence.
  - intros k Hk. specialize (Ha (S k) ltac:(cbn; lia)).
    by replace (i + 1 + Z.of_nat k) with (i + Z.of_nat (S k)) by lia.
Qed.

(** While the interrupt is masked a doorbell from the host raises RECV
    and nothing more: the line stays low and the handler does not run. *)
Lemma doorbell_while_masked msg w :
  hw_mask w = true -> env_step (HostDoorbell msg) w = host_post msg w.
Proof.
  intros Hmask. cbn [env_step].
  assert (hw_mask (host_post msg w) = true) as Hm.
  { unfold hw_mask, hw_ctrl in *. unfold host_post.
    change (ctrl_addr (set_regs _ w)) with (ctrl_addr w).
    cbn [regs set_regs]. unfold hw_load at 1. rewrite lookup_insert_eq.
    cbn [default from_option id]. rewrite Z.lor_spec, host_fill_other.
    - rewrite Hmask. reflexivity.
    - intros k Hk. rewrite length_take in Hk.
      unfold ctrl_addr, ASPEED_MBOX_BMC_CTRL, ASPEED_MBOX_DATA_0.
      apply wrap_u32_apart; lia. }
  unfold irq_line. rewrite Hm. by rewrite andb_false_r.
Qed.

(** The SEND write of write() is a write to the control register like
    any other: it stores the mask bit as written, clear, and leaves RECV
    alone. *)
Lemma ctrl_after_send_unmasks old :
  let v := Z.lor (Z.ldiff (Z.land old ASPEED_MBOX_CTRL_RECV)
                          (u8 ASPEED_MBOX_CTRL_SEND))
                 (Z.ldiff (u8 ASPEED_MBOX_CTRL_SEND) ASPEED_MBOX_CTRL_RECV) in
  Z.testbit v 7 = Z.testbit old 7 /\ Z.testbit v 1 = false.
Proof.
  cbn zeta. rewrite !Z.lor_spec, !Z.ldiff_spec, !Z.land_spec.
  change (Z.testbit (u8 ASPEED_MBOX_CTRL_SEND) 7) with false.
  change (Z.testbit ASPEED_MBOX_CTRL_RECV 7) with true.
  change (Z.testbit (u8 ASPEED_MBOX_CTRL_SEND) 1) with false.
  change (Z.testbit ASPEED_MBOX_CTRL_RECV 1) with false.
  by destruct (Z.testbit old 7), (Z.testbit old 1).
Qed.

Lemma write_done_rest buf ppos (data : list Z) w :
  let count := Z.of_nat (length data) in
  user_holds w buf data ->
  bus_rc (write_done buf count ppos w) = drop (S (length data)) (bus_rc w)
  /\ addr_limit (write_done buf count ppos w) = addr_limit w.
Proof.
  intros count Hd. unfold write_done, unlocked, locked. subst count.
  rewrite Nat2Z.id, write_copy_world_eq by exact Hd.
  destruct w as [b r rcs oc mh al um sp sc tr].
  unfold after_outb. world_fields. rewrite hd_drop.
  destruct (nth (length data) rcs 0 =? 0); world_fields; by rewrite tl_drop.
Qed.

(** A write that stores all its bytes on a working bus leaves RECV as
    it was and the interrupt unmasked. *)
Lemma write_lifts_mask buf ppos (data : list Z) w :
  let count := Z.of_nat (length data) in
  0 <= ppos -> count + ppos <= 16 ->
  user_holds w buf data -> bus_rc w = [] ->
  hw_recv (write_done buf count ppos w) = hw_recv w
  /\ hw_mask (write_done buf count ppos w) = false
  /\ bus_rc (write_done buf count ppos w) = [].
Proof.
  intros count Hp Hcp Hd Hq.
  destruct (write_done_fields buf ppos data w Hd)
    as (_ & _ & Hregs & _ & Hbase).
  destruct (write_done_rest buf ppos data w Hd) as (Hq1 & _).
  fold count in Hregs, Hbase, Hq1.
  rewrite Hq, nth_nil in Hregs. cbn [Z.eqb] in Hregs. cbn zeta in Hregs.
  rewrite Hq, drop_nil in Hq1.
  destruct (ctrl_after_send_unmasks
              (hw_load (write_copy_regs (mbox_base w) (regs w) ppos [] data)
                 (wrap_u32 (mbox_base w + ASPEED_MBOX_BMC_CTRL))))
    as (H7 & H1).
  cbn zeta in H7, H1.
  assert (hw_load (write_copy_regs (mbox_base w) (regs w) ppos [] data)
            (wrap_u32 (mbox_base w + ASPEED_MBOX_BMC_CTRL))
          = hw_load (regs w) (wrap_u32 (mbox_base w + ASPEED_MBOX_BMC_CTRL)))
    as Hold.
  { apply write_copy_regs_other. intros k Hk.
    apply not_eq_sym, data_reg_not_special;
      unfold ASPEED_MBOX_BMC_CTRL; lia. }
  split; [|split; [|exact Hq1]].
  - unfold hw_recv, hw_ctrl, ctrl_addr. rewrite Hbase, Hregs.
    unfold ctrl_addr. rewrite hw_store_ctrl, H7. by rewrite Hold.
  - unfold hw_mask, hw_ctrl, ctrl_addr. rewrite Hbase, Hregs.
    unfold ctrl_addr. by rewrite hw_store_ctrl.
Qed.

(** C9, as amended.  When the copy loop of read stops on a destination
    fault, read makes no register write at all: the device registers are
    those the copy started with, so RECV and MASK stand as they were, and
    with MASK set, as the interrupt handler leaves it, the interrupt line
    is low and a doorbell from the host does not reach the handler.  A
    later read that succeeds, or an open after a release, makes the
    acknowledge write, which with a working bus clears RECV and unmasks
    the interrupt.  They are not the only calls that end the mask: a
    write() that stores its bytes writes the SEND bit value to the same
    register, which on a working bus lifts the mask while RECV stays
    set, so that the interrupt line comes up and the handler claims the
    interrupt again, although nothing has been acknowledged. *)
Theorem read_fault_skips_ack w f buf count ppos (n : nat) w1 :
  mutex_held w = false -> 0 <= ppos -> count + ppos <= 16 ->
  user_range w buf count ->
  read_wait f w = (Returned None, w1) ->
  Z.of_nat n < count ->
  user_mapped w buf (Z.of_nat n) -> umem w !! (buf + Z.of_nat n) = None ->
  let w' := snd (aspeed_mbox_read f buf count ppos w) in
  fst (aspeed_mbox_read f buf count ppos w) = Returned (- EFAULT)
  /\ (exists evs, trace w' = trace w1 ++ evs /\ bus_writes evs = [])
  /\ regs w' = regs w1
  /\ hw_recv w' = hw_recv w1 /\ hw_mask w' = hw_mask w1
  /\ (hw_mask w1 = true ->
      irq_line w' = false
      /\ forall msg, env_step (HostDoorbell msg) w' = host_post msg w')
  /\ (hw_recv w1 = true -> bus_rc w' = [] ->
      forall f2 buf2 count2 ppos2,
        0 <= count2 -> 0 <= ppos2 -> count2 + ppos2 <= 16 ->
        user_range w' buf2 count2 -> user_mapped w' buf2 count2 ->
        let w2 := snd (aspeed_mbox_read f2 buf2 count2 ppos2 w') in
        fst (aspeed_mbox_read f2 buf2 count2 ppos2 w') = Returned count2
        /\ hw_recv w2 = false /\ hw_mask w2 = false)
  /\ (bus_rc w' = [] ->
      let w2 := snd (aspeed_mbox_open (set_open_count 0 w')) in
      fst (aspeed_mbox_open (set_open_count 0 w')) = Returned 0
      /\ hw_recv w2 = false /\ hw_mask w2 = false)
  /\ (hw_recv w1 = true -> bus_rc w' = [] ->
      forall buf2 ppos2 (data : list Z),
        0 <= ppos2 -> Z.of_nat (length data) + ppos2 <= 16 ->
        user_range w' buf2 (Z.of_nat (length data)) ->
        user_holds w' buf2 data ->
        let w2 := snd (aspeed_mbox_write buf2 (Z.of_nat (length data))
                         ppos2 w') in
        fst (aspeed_mbox_write buf2 (Z.of_nat (length data)) ppos2 w')
        = Returned (Z.of_nat (length data))
        /\ hw_recv w2 = true /\ hw_mask w2 = false /\ irq_line w2 = true
        /\ fst (aspeed_mbox_irq w2) = Returned IRQ_HANDLED).
Proof.
  intros Hmx Hp Hcp Hr Hg Hn Hm Hu. cbn zeta.
  rewrite (read_fault_run w f buf count ppos n w1) by done. cbn [fst snd].
  destruct (read_faulted_fields buf n ppos w1)
    as (Htr & Hum & Hregs & _ & Hmh & Hb & _).
  destruct (hw_same_regs w1 (read_faulted buf n ppos w1) Hb Hregs)
    as (Hrecv & Hmask & Hline).
  split; [reflexivity|]. split; [|split; [exact Hregs|]].
  { eexists. split; [exact Htr|].
    by rewrite !bus_writes_app, bus_writes_read_events. }
  split; [exact Hrecv|]. split; [exact Hmask|].
  split; [|split; [|split]].
  - intros Hmasked. split.
    + rewrite Hline. unfold irq_line. rewrite Hmasked. apply andb_false_r.
    + intros msg. apply doorbell_while_masked. congruence.
  - intros Hpending Hbus f2 buf2 count2 ppos2 Hc2 Hp2 Hcp2 Hr2 Hm2.
    set (w' := read_faulted buf n ppos w1) in *.
    assert (recv_observed w' = true) as Hobs.
    { rewrite recv_observed_hw; [congruence|].
      unfold bus_next. by rewrite Hbus. }
    destruct (read_success_acks w' f2 buf2 count2 ppos2 _
                Hmh Hc2 Hp2 Hcp2 Hr2 Hm2 (read_wait_ready f2 w' Hobs))
      as (Hrun & Hack).
    rewrite Hrun. cbn [fst snd]. split; [reflexivity|].
    apply Hack. rewrite after_inb_bus_rc, Hbus. apply nth_nil.
  - intros Hbus. cbn zeta.
    set (w' := read_faulted buf n ppos w1) in *.
    rewrite open_run by reflexivity. cbn [fst snd]. split; [reflexivity|].
    destruct (open_done_fields (set_open_count 0 w'))
      as (_ & Hregs2 & _ & _ & _ & Hb2).
    assert (bus_next (set_open_count 0 w') = 0) as Hnext
      by (unfold bus_next; cbn [bus_rc set_open_count]; by rewrite Hbus).
    rewrite Hnext in Hregs2.
    destruct (hw_after_ack (set_open_count 0 w') _ Hb2 Hregs2) as [H1 H2].
    by split.
  - intros Hpending Hbus buf2 ppos2 data Hp2 Hcp2 Hr2 Hd2.
    set (w' := read_faulted buf n ppos w1) in *.
    rewrite write_locked_run; try done; try lia.
    2:{ by apply user_holds_mapped. }
    cbn [fst snd].
    destruct (write_lifts_mask buf2 ppos2 data w' Hp2 Hcp2 Hd2 Hbus)
      as (Hrecv2 & Hmask2 & Hbus2).
    cbn zeta in Hrecv2, Hmask2, Hbus2.
    assert (hw_recv (write_done buf2 (Z.of_nat (length data)) ppos2 w')
            = true) as Hset by congruence.
    split; [reflexivity|]. split; [exact Hset|]. split; [exact Hmask2|].
    split; [unfold irq_line; by rewrite Hset, Hmask2|].
    rewrite irq_run, recv_observed_hw by (unfold bus_next; by rewrite Hbus2).
    by rewrite Hset.
Qed.

(** A faulting read with RECV pending and the interrupt masked leaves
    both as they were, and the interrupt line low. *)
Lemma read_fault_skips_ack_witness :
  (mutex_held w_short_buffer = false /\ 0 <= 0 /\ 3 + 0 <= 16
   /\ user_range w_short_buffer 0x1000 3
   /\ fst (read_wait O_NONBLOCK w_short_buffer) = Returned None
   /\ Z.of_nat 1 < 3
   /\ user_mapped w_short_buffer 0x1000 (Z.of_nat 1)
   /\ umem w_short_buffer !! (0x1000 + Z.of_nat 1) = None
   /\ hw_recv w_short_buffer = true /\ hw_mask w_short_buffer = true)
  /\ hw_recv (snd (aspeed_mbox_read O_NONBLOCK 0x1000 3 0 w_short_buffer))
     = true
  /\ hw_mask (snd (aspeed_mbox_read O_NONBLOCK 0x1000 3 0 w_short_buffer))
     = true
  /\ irq_line (snd (aspeed_mbox_read O_NONBLOCK 0x1000 3 0 w_short_buffer))
     = false.
Proof.
  assert (user_range w_short_buffer 0x1000 3) as Hr by (by vm_compute).
  assert (user_mapped w_short_buffer 0x1000 (Z.of_nat 1)) as Hm.
  { intros k Hk. assert (k = 0) as -> by lia. vm_compute. by eexists. }
  assert (read_wait O_NONBLOCK w_short_buffer
          = (Returned None, snd (read_wait O_NONBLOCK w_short_buffer)))
    as Hg by (by vm_compute).
  destruct (read_fault_skips_ack w_short_buffer O_NONBLOCK 0x1000 3 0
              1%nat _ eq_refl ltac:(lia) ltac:(lia) Hr Hg ltac:(lia) Hm
              ltac:(by vm_compute))
    as (_ & _ & _ & Hrecv & Hmask & Hline & _).
  split; [repeat split; try done; try lia; by vm_compute|].
  rewrite Hrecv, Hmask. split; [by vm_compute|]. split; [by vm_compute|].
  apply Hline. by vm_compute.
Defined.

(** C9 as the claim words it fails: after a read that faulted with RECV
    set and the interrupt masked, a write() of one byte, which is neither
    a successful read nor a re-open, returns its count and leaves RECV set
    with the mask lifted; the interrupt line is up and the handler claims
    the interrupt. *)
Lemma read_fault_then_write_counterexample :
  let w1 := snd (aspeed_mbox_read O_NONBLOCK 0x1000 3 0 w_short_buffer) in
  let w2 := snd (aspeed_mbox_write 0x1000 1 0 w1) in
  fst (aspeed_mbox_read O_NONBLOCK 0x1000 3 0 w_short_buffer)
  = Returned (- EFAULT)
  /\ hw_recv w1 = true /\ hw_mask w1 = true /\ irq_line w1 = false
  /\ fst (aspeed_mbox_write 0x1000 1 0 w1) = Returned 1
  /\ hw_recv w2 = true /\ hw_mask w2 = false /\ irq_line w2 = true
  /\ fst (aspeed_mbox_irq w2) = Returned IRQ_HANDLED.
Proof. cbn zeta. repeat split; vm_compute; reflexivity. Qed.

(** ** Bus failures *)

Lemma In_trace_mid {A} (x : A) (pre a b c : list A) :
  In x b -> In x (pre ++ a ++ b ++ c).
Proof. intros H. rewrite !in_app_iff. tauto. Qed.

(** C6.  A bus failure is a soft fault.  A register read that fails
    gives the sentinel 0xff and one log line.  In the copy loop of read,
    whatever the bus does, every one of the [count] data registers is
    read, byte [k] of the buffer is the low byte of its register when the
    bus read worked and 0xff, with the failure logged, when it did not,
    and read returns [count] all the same.  A register write that fails
    is logged and changes nothing else: read still returns [count] when
    its acknowledge write fails, and write returns [count] whichever of
    its register writes fail, each failure leaving its log line. *)
Theorem bus_faults_are_soft w buf count ppos :
  mutex_held w = false ->
  0 <= count -> 0 <= ppos -> count + ppos <= 16 ->
  user_range w buf count -> user_mapped w buf count ->
  (forall reg, bus_next w <> 0 ->
     aspeed_mbox_inb reg w = (Returned 0xff, after_inb reg w)
     /\ In (DevErr (ReadFailed (bus_next w) reg)) (trace (after_inb reg w)))
  /\ (forall f w1,
        read_wait f w = (Returned None, w1) ->
        let w' := snd (aspeed_mbox_read f buf count ppos w) in
        fst (aspeed_mbox_read f buf count ppos w) = Returned count
        /\ (exists evs,
              trace w' = trace w1 ++ evs
              /\ actions evs
                 = [MutexLock]
                   ++ ((fun j => BusRead (data_addr w j)) <$> seqZ ppos count)
                   ++ [BusWrite (ctrl_addr w) ASPEED_MBOX_CTRL_RECV;
                       MutexUnlock])
        /\ (forall k : nat, Z.of_nat k < count ->
              let rc := nth k (bus_rc w1) 0 in
              if rc =? 0 then
                umem w' !! (buf + Z.of_nat k)
                = Some (Z.land (hw_load (regs w1)
                                  (data_addr w (ppos + Z.of_nat k))) 0xff)
              else
                umem w' !! (buf + Z.of_nat k) = Some 0xff
                /\ In (DevErr (ReadFailed rc (data_reg (ppos + Z.of_nat k))))
                      (trace w'))
        /\ (let rc := nth (Z.to_nat count) (bus_rc w1) 0 in
            rc <> 0 ->
            In (DevErr (WriteFailed rc ASPEED_MBOX_CTRL_RECV
                          ASPEED_MBOX_BMC_CTRL)) (trace w')
            /\ regs w' = regs w1))
  /\ (forall data : list Z,
        Z.of_nat (length data) = count -> user_holds w buf data ->
        let w' := snd (aspeed_mbox_write buf count ppos w) in
        fst (aspeed_mbox_write buf count ppos w) = Returned count
        /\ (forall (k : nat) b,
              data !! k = Some b -> nth k (bus_rc w) 0 <> 0 ->
              In (DevErr (WriteFailed (nth k (bus_rc w) 0) (u8 b)
                            (data_reg (ppos + Z.of_nat k)))) (trace w'))
        /\ (nth (length data) (bus_rc w) 0 <> 0 ->
            In (DevErr (WriteFailed (nth (length data) (bus_rc w) 0)
                          ASPEED_MBOX_CTRL_SEND ASPEED_MBOX_BMC_CTRL))
               (trace w'))).
Proof.
  intros Hmx Hc Hp Hcp Hr Hm. split; [|split].
  - intros reg Hrc. rewrite inb_run. unfold inb_value.
    rewrite rd_byte_failed by done. split; [reflexivity|].
    rewrite after_inb_trace. apply in_or_app. right. unfold rd_events.
    destruct (Z.eqb_spec (bus_next w) 0); [congruence|]. cbn. tauto.
  - intros f w1 Hg. cbn zeta.
    destruct (read_wait_passed _ _ _ Hg) as ((Hb1 & Hmx1 & Hal1 & Hum1 & _) & _).
    destruct (read_success_acks w f buf count ppos w1) as [Hrun _];
      try done.
    rewrite Hrun. cbn [fst snd].
    destruct (read_done_fields buf count ppos w1)
      as (Htr & Hum & Hregs & _ & _ & Hb & _).
    cbn zeta in Htr, Hum, Hregs.
    assert (forall j, data_addr w1 j = data_addr w j) as Hda
      by (intros j; unfold data_addr; by rewrite Hb1).
    assert (ctrl_addr w1 = ctrl_addr w) as Hca
      by (unfold ctrl_addr; by rewrite Hb1).
    split; [reflexivity|]. split; [|split].
    + eexists. split; [exact Htr|].
      rewrite actions_locked_copy, actions_wr_events.
      rewrite (actions_read_window w1) by lia.
      rewrite Z2Nat.id by lia. fold (ctrl_addr w1). rewrite Hca.
      f_equal. f_equal. apply list_fmap_ext. intros k j _. by rewrite Hda.
    + intros k Hk. cbn zeta.
      assert (umem (read_done buf count ppos w1) !! (buf + Z.of_nat k)
              = Some (rd_byte (nth k (bus_rc w1) 0)
                        (hw_load (regs w1)
                           (data_addr w (ppos + Z.of_nat k))))) as Hbyte.
      { rewrite Hum, read_copy_umem_lookup by lia.
        by rewrite data_addr_reg, Hda by lia. }
      destruct (Z.eqb_spec (nth k (bus_rc w1) 0) 0) as [Hz|Hnz].
      * by rewrite Hz in Hbyte.
      * rewrite rd_byte_failed in Hbyte by done. split; [exact Hbyte|].
        rewrite Htr. apply In_trace_mid.
        apply list_elem_of_In, read_events_logged; [lia|done].
    + cbn zeta. intros Hnz.
      destruct (Z.eqb_spec (nth (Z.to_nat count) (bus_rc w1) 0) 0);
        [congruence|].
      split; [|exact Hregs].
      rewrite Htr, !in_app_iff. do 3 right. left. unfold wr_events.
      destruct (Z.eqb_spec (nth (Z.to_nat count) (bus_rc w1) 0) 0);
        [congruence|].
      cbn. tauto.
  - intros data Hlen Hd. cbn zeta.
    rewrite write_locked_run by done. cbn [fst snd].
    destruct (write_done_fields buf ppos data w Hd) as (Htr & _).
    cbn zeta in Htr. rewrite Hlen in Htr.
    split; [reflexivity|]. split.
    + intros k b Hk Hnz. rewrite Htr. apply In_trace_mid.
      by apply list_elem_of_In, write_events_logged.
    + intros Hnz. rewrite Htr, !in_app_iff. do 3 right. left.
      unfold wr_events.
      destruct (Z.eqb_spec (nth (length data) (bus_rc w) 0) 0);
        [congruence|].
      cbn. tauto.
Qed.

(** The second data register of a three-byte read fails on the bus: the
    read returns 3 and the second byte of the buffer is the sentinel. *)
Lemma bus_faults_are_soft_witness :
  (mutex_held w_pending_glitch = false /\ 0 <= 3 /\ 0 <= 0 /\ 3 + 0 <= 16
   /\ user_range w_pending_glitch 0x1000 3
   /\ user_mapped w_pending_glitch 0x1000 3
   /\ fst (read_wait O_NONBLOCK w_pending_glitch) = Returned None)
  /\ fst (aspeed_mbox_read O_NONBLOCK 0x1000 3 0 w_pending_glitch)
     = Returned 3
  /\ umem (snd (aspeed_mbox_read O_NONBLOCK 0x1000 3 0 w_pending_glitch))
       !! 0x1001 = Some 0xff
  /\ umem (snd (aspeed_mbox_read O_NONBLOCK 0x1000 3 0 w_pending_glitch))
       !! 0x1002 = Some 0x12.
Proof.
  assert (user_range w_pending_glitch 0x1000 3) as Hr by (by vm_compute).
  assert (user_mapped w_pending_glitch 0x1000 3) as Hm.
  { intros k Hk.
    assert (k = 0 \/ k = 1 \/ k = 2) as [-> | [-> | ->]] by lia;
      vm_compute; by eexists. }
  assert (read_wait O_NONBLOCK w_pending_glitch
          = (Returned None, snd (read_wait O_NONBLOCK w_pending_glitch)))
    as Hg by (by vm_compute).
  destruct (bus_faults_are_soft w_pending_glitch 0x1000 3 0
              eq_refl ltac:(lia) ltac:(lia) ltac:(lia) Hr Hm)
    as (_ & Hread & _).
  destruct (Hread _ _ Hg) as (Hrun & _ & Hbytes & _).
  split; [repeat split; try done; try lia; by vm_compute|].
  split; [exact Hrun|]. split.
  - exact (proj1 (Hbytes 1%nat ltac:(lia))).
  - exact (Hbytes 2%nat ltac:(lia)).
Defined.

(** ** A failed read of the control register *)

Lemma poll_run w :
  aspeed_mbox_poll w
  = (Returned (if recv_observed w then POLLIN else 0),
     after_inb ASPEED_MBOX_BMC_CTRL (emit PollWait w)).
Proof.
  unfold aspeed_mbox_poll. unfold bind at 1, modify.
  erewrite bind_run by apply inb_run. rewrite recv_test.
  change (inb_value ASPEED_MBOX_BMC_CTRL (emit PollWait w))
    with (inb_value ASPEED_MBOX_BMC_CTRL w).
  fold (recv_observed w). by destruct (recv_observed w).
Qed.

(** C10.  When the bus read of the BMC control register fails, the
    accessor hands back 0xff, whose bit 7, RECV, is set.  So poll reports
    POLLIN, the interrupt handler claims the interrupt, and read does not
    wait or refuse, non-blocking or not: a read with a good buffer
    copies its bytes and returns [count], not -EAGAIN.  Each of the three
    answers is the one given when the register is read properly with RECV
    set. *)
Theorem ctrl_read_failure_looks_pending w :
  bus_next w <> 0 ->
  aspeed_mbox_inb ASPEED_MBOX_BMC_CTRL w
  = (Returned 0xff, after_inb ASPEED_MBOX_BMC_CTRL w)
  /\ Z.testbit 0xff 7 = true
  /\ fst (aspeed_mbox_poll w) = Returned POLLIN
  /\ fst (aspeed_mbox_irq w) = Returned IRQ_HANDLED
  /\ (forall f,
        read_wait f w = (Returned None, after_inb ASPEED_MBOX_BMC_CTRL w))
  /\ (forall f buf count ppos,
        mutex_held w = false ->
        0 <= count -> 0 <= ppos -> count + ppos <= 16 ->
        user_range w buf count -> user_mapped w buf count ->
        aspeed_mbox_read f buf count ppos w
        = (Returned count,
           read_done buf count ppos (after_inb ASPEED_MBOX_BMC_CTRL w)))
  /\ (forall w2 f,
        bus_next w2 = 0 -> hw_recv w2 = true ->
        fst (aspeed_mbox_poll w2) = fst (aspeed_mbox_poll w)
        /\ fst (aspeed_mbox_irq w2) = fst (aspeed_mbox_irq w)
        /\ fst (read_wait f w2) = fst (read_wait f w)).
Proof.
  intros Hrc. pose proof (recv_observed_failed w Hrc) as Hobs.
  split; [|split; [reflexivity|split; [|split; [|split; [|split]]]]].
  - rewrite inb_run. unfold inb_value. by rewrite rd_byte_failed.
  - by rewrite poll_run, Hobs.
  - by rewrite irq_run, Hobs.
  - intros f. by apply read_wait_ready.
  - intros f buf count ppos Hmx Hc Hp Hcp Hr Hm.
    by apply (read_success_acks w f buf count ppos _ Hmx Hc Hp Hcp Hr Hm
                (read_wait_ready f w Hobs)).
  - intros w2 f Hok Hpend.
    assert (recv_observed w2 = true) as Hobs2
      by (by rewrite recv_observed_hw).
    rewrite !poll_run, !irq_run, !read_wait_ready, Hobs, Hobs2 by done.
    done.
Qed.

(** Nothing is pending, the bus read of the control register fails: poll
    says readable, the handler claims the interrupt, and a non-blocking
    read returns a byte. *)
Lemma ctrl_read_failure_looks_pending_witness :
  (bus_next w_idle_bus_down <> 0 /\ hw_recv w_idle_bus_down = false)
  /\ fst (aspeed_mbox_poll w_idle_bus_down) = Returned POLLIN
  /\ fst (aspeed_mbox_irq w_idle_bus_down) = Returned IRQ_HANDLED
  /\ fst (aspeed_mbox_read O_NONBLOCK 0x1000 1 0 w_idle_bus_down)
     = Returned 1.
Proof.
  destruct (ctrl_read_failure_looks_pending w_idle_bus_down
              ltac:(by vm_compute))
    as (_ & _ & Hpoll & Hirq & _ & Hread & _).
  split; [split; by vm_compute|]. split; [exact Hpoll|].
  split; [exact Hirq|].
  rewrite (Hread O_NONBLOCK 0x1000 1 0); [reflexivity|done|lia|lia|lia| |].
  - by vm_compute.
  - intros k Hk. assert (k = 0) as -> by lia. vm_compute. by eexists.
Defined.

(** * Further properties of the driver *)

(** ** poll *)

(** [aspeed_mbox_poll] only looks: it answers POLLIN exactly when the
    control register is read with RECV set, makes that one register read
    and no write, and leaves the device, the caller's memory, the mutex
    and the session counter alone.  With a working bus the answer is the
    RECV bit of the register, and asking again gives the same answer. *)
Theorem poll_only_looks w :
  let w' := snd (aspeed_mbox_poll w) in
  fst (aspeed_mbox_poll w)
  = Returned (if recv_observed w then POLLIN else 0)
  /\ (exists evs,
        trace w' = trace w ++ evs
        /\ actions evs = [PollWait; BusRead (ctrl_addr w)]
        /\ bus_writes evs = [])
  /\ regs w' = regs w /\ umem w' = umem w
  /\ mutex_held w' = mutex_held w
  /\ aspeed_mbox_open_count w' = aspeed_mbox_open_count w
  /\ (bus_rc w = [] ->
      fst (aspeed_mbox_poll w) = Returned (if hw_recv w then POLLIN else 0)
      /\ fst (aspeed_mbox_poll w') = fst (aspeed_mbox_poll w)).
Proof.
  cbn zeta. rewrite poll_run. cbn [fst snd].
  split; [reflexivity|]. split; [|do 4 (split; [reflexivity|])].
  - exists ([PollWait]
            ++ rd_events (mbox_base w) ASPEED_MBOX_BMC_CTRL (bus_next w)).
    split; [|split].
    + rewrite after_inb_trace. cbn [trace emit]. by rewrite <- app_assoc.
    + rewrite actions_app, actions_rd_events. reflexivity.
    + unfold rd_events. by destruct (bus_next w =? 0).
  - intros Hbus.
    assert (forall v, bus_rc v = [] -> recv_observed v = hw_recv v) as Hobs.
    { intros v Hv. apply recv_observed_hw. unfold bus_next. by rewrite Hv. }
    split; [by rewrite Hobs|].
    rewrite poll_run. cbn [fst]. rewrite !Hobs; [reflexivity|exact Hbus|].
    rewrite after_inb_bus_rc. cbn [bus_rc emit]. by rewrite Hbus.
Qed.

(** ** Sessions *)

Lemma open_many_busy n : forall w,
  - 2 ^ 31 <= aspeed_mbox_open_count w < 2 ^ 31 ->
  aspeed_mbox_open_count w <> 0 ->
  open_many n w = (Returned (replicate n (- EBUSY)), w).
Proof.
  induction n as [|n IH]; intros w Hc Hne; [reflexivity|].
  cbn [open_many replicate].
  erewrite bind_run by (by apply open_busy).
  by erewrite bind_run by (by apply IH).
Qed.

(** Of any number of opens in a row on a closed device the first one
    succeeds and every later one is refused with -EBUSY; the refused ones
    change nothing, so the acknowledge write of the first open is the
    only register access of the whole sequence. *)
Theorem only_first_open_succeeds n w :
  aspeed_mbox_open_count w = 0 ->
  open_many (S n) w = (Returned (0 :: replicate n (- EBUSY)), open_done w)
  /\ aspeed_mbox_open_count (open_done w) = 1
  /\ exists evs,
       trace (open_done w) = trace w ++ evs
       /\ actions evs = [BusWrite (ctrl_addr w) ASPEED_MBOX_CTRL_RECV].
Proof.
  intros Hc. destruct (open_done_fields w) as (Htr & _ & Hoc & _).
  split; [|split; [exact Hoc|]].
  - cbn [open_many]. erewrite bind_run by (by apply open_run).
    erewrite bind_run; [reflexivity|].
    apply open_many_busy; rewrite Hoc; lia.
  - eexists. split; [exact Htr|]. apply actions_wr_events.
Qed.

(** Three opens in a row on the idle sample device. *)
Lemma only_first_open_succeeds_witness :
  aspeed_mbox_open_count w_idle = 0
  /\ fst (open_many 3 w_idle) = Returned [0; - EBUSY; - EBUSY]
  /\ aspeed_mbox_open_count (snd (open_many 3 w_idle)) = 1.
Proof.
  destruct (only_first_open_succeeds 2 w_idle eq_refl) as (Hrun & Hoc & _).
  split; [reflexivity|]. rewrite Hrun. by split.
Defined.

(** release does not look at the counter.  Called with no session open it
    takes the counter to -1, and from there every open is refused with
    -EBUSY and leaves the counter at -1. *)
Theorem stray_release_locks_out n w :
  aspeed_mbox_open_count w = 0 ->
  let w' := set_open_count (-1) w in
  aspeed_mbox_release w = (Returned 0, w')
  /\ open_many n w' = (Returned (replicate n (- EBUSY)), w').
Proof.
  intros Hc. cbn zeta. split.
  - unfold aspeed_mbox_release, bind, atomic_dec, modify, ret.
    by rewrite Hc.
  - apply open_many_busy; cbn [aspeed_mbox_open_count set_open_count]; lia.
Qed.

(** A release on the idle sample device, then two opens. *)
Lemma stray_release_locks_out_witness :
  aspeed_mbox_open_count w_idle = 0
  /\ fst (open_many 2 (snd (aspeed_mbox_release w_idle)))
     = Returned [- EBUSY; - EBUSY].
Proof.
  destruct (stray_release_locks_out 2 w_idle eq_refl) as (Hrel & Hopen).
  split; [reflexivity|]. rewrite Hrel. cbn [snd]. by rewrite Hopen.
Defined.

Lemma sessions_run n : forall w,
  aspeed_mbox_open_count w = 0 ->
  sessions n w = (Returned (replicate n (0, 0)), after_sessions n w)
  /\ aspeed_mbox_open_count (after_sessions n w) = 0
  /\ length (bus_writes (trace (after_sessions n w)))
     = (length (bus_writes (trace w)) + n)%nat
  /\ umem (after_sessions n w) = umem w
  /\ mutex_held (after_sessions n w) = mutex_held w.
Proof.
  induction n as [|n IH]; intros w Hc.
  - cbn [sessions after_sessions replicate]. repeat split; try done; lia.
  - destruct (open_done_fields w) as (Htr & _ & Hoc & Hum & Hmx & _).
    destruct (IH (set_open_count 0 (open_done w)) eq_refl)
      as (Hrun & Hc' & Hlen & Hum' & Hmx').
    cbn [sessions after_sessions replicate].
    split; [|split; [exact Hc'|split; [|split]]].
    + erewrite bind_run by (by apply open_run).
      erewrite bind_run.
      2:{ unfold aspeed_mbox_release, bind, atomic_dec, modify, ret.
          rewrite Hoc. reflexivity. }
      change (wrap_s32 (1 - 1)) with 0.
      by erewrite bind_run by exact Hrun.
    + rewrite Hlen. cbn [trace set_open_count]. rewrite Htr.
      rewrite bus_writes_app, length_app. unfold wr_events.
      destruct (bus_next w =? 0); cbn; lia.
    + rewrite Hum'. exact Hum.
    + rewrite Hmx'. exact Hmx.
Qed.

(** Sessions can follow one another without end: each open after a
    release succeeds, each session costs one register write, the
    acknowledge, and after the last release the counter is back at 0. *)
Theorem sessions_follow_one_another n w :
  aspeed_mbox_open_count w = 0 ->
  let w' := snd (sessions n w) in
  fst (sessions n w) = Returned (replicate n (0, 0))
  /\ aspeed_mbox_open_count w' = 0
  /\ length (bus_writes (trace w'))
     = (length (bus_writes (trace w)) + n)%nat
  /\ umem w' = umem w /\ mutex_held w' = mutex_held w.
Proof.
  intros Hc. cbn zeta. destruct (sessions_run n w Hc) as (Hrun & H).
  by rewrite Hrun.
Qed.

(** Three sessions on the idle sample device. *)
Lemma sessions_follow_one_another_witness :
  aspeed_mbox_open_count w_idle = 0
  /\ fst (sessions 3 w_idle) = Returned [(0, 0); (0, 0); (0, 0)]
  /\ aspeed_mbox_open_count (snd (sessions 3 w_idle)) = 0.
Proof.
  destruct (sessions_follow_one_another 3 w_idle eq_refl) as (Hrun & Hc & _).
  split; [reflexivity|]. by split.
Defined.

(** ** The results of read *)

Lemma read_wait_ends f w o w1 :
  read_wait f w = (o, w1) ->
  same_caller w w1
  /\ (o = Returned None
      \/ (o = Returned (Some (- EAGAIN)) /\ Z.land f O_NONBLOCK <> 0)
      \/ (o = Returned (Some (- ERESTARTSYS)) /\ Z.land f O_NONBLOCK = 0)
      \/ (o = Asleep /\ Z.land f O_NONBLOCK = 0)).
Proof.
  unfold read_wait. destruct (Z.eqb_spec (Z.land f O_NONBLOCK) 0) as [Hf|Hf].
  - fold recv_condition. unfold bind at 1.
    destruct (wait_event_interruptible recv_condition w) as [o' w2] eqn:Hw.
    apply wait_event_ends in Hw as (Hs & Ho & _).
    destruct Ho as [-> | [-> | ->]]; cbn; intros [= <- <-];
      (split; [exact Hs|]); auto.
  - erewrite bind_run by apply inb_run.
    destruct (_ =? 0); intros [= <- <-];
      (split; [apply same_caller_after_inb|]); auto.
Qed.

Lemma read_locked_ends buf count ppos w :
  mutex_held w = false -> 0 <= count -> 0 <= ppos -> count + ppos <= 16 ->
  exists r w',
    read_locked buf count ppos w = (Returned r, w')
    /\ (r = count \/ r = - EFAULT)
    /\ mutex_held w' = false
    /\ (forall a, ~ (buf <= a < buf + count) -> umem w' !! a = umem w !! a).
Proof.
  intros Hmx Hc Hp Hcp.
  destruct (first_unmapped w buf (Z.to_nat count))
    as [Hm|(m & Hm & Hmap & Hnone)].
  - rewrite Z2Nat.id in Hm by lia.
    exists count, (read_done buf count ppos w).
    destruct (read_done_fields buf count ppos w)
      as (_ & Hum & _ & _ & Hmh & _).
    cbn zeta in Hum.
    split; [by apply read_locked_run|]. split; [by left|].
    split; [exact Hmh|].
    intros a Ha. rewrite Hum. apply read_copy_umem_other.
    by rewrite Z2Nat.id by lia.
  - exists (- EFAULT), (read_faulted buf m ppos w).
    destruct (read_faulted_fields buf m ppos w)
      as (_ & Hum & _ & _ & Hmh & _).
    split; [apply read_locked_fault; try done; lia|]. split; [by right|].
    split; [exact Hmh|].
    intros a Ha. rewrite Hum. apply read_copy_umem_other. lia.
Qed.

(** Whatever it is given, [aspeed_mbox_read] ends in one of six ways: it
    returns [count], -EFAULT, -EINVAL, -EAGAIN (only with O_NONBLOCK),
    -ERESTARTSYS (only without), or the caller is left asleep (only
    without O_NONBLOCK).  On every one of them the mutex is free again
    and no byte of the caller outside [buf, buf + count) has changed. *)
Theorem read_result_kinds w f buf count ppos :
  mutex_held w = false ->
  0 <= count <= SIZE_MAX -> 0 <= ppos -> count + ppos <= LLONG_MAX ->
  let w' := snd (aspeed_mbox_read f buf count ppos w) in
  mutex_held w' = false
  /\ (forall a, ~ (buf <= a < buf + count) -> umem w' !! a = umem w !! a)
  /\ match fst (aspeed_mbox_read f buf count ppos w) with
     | Returned r =>
         r = count \/ r = - EFAULT \/ r = - EINVAL
         \/ (r = - EAGAIN /\ Z.land f O_NONBLOCK <> 0)
         \/ (r = - ERESTARTSYS /\ Z.land f O_NONBLOCK = 0)
     | Asleep => Z.land f O_NONBLOCK = 0
     end.
Proof.
  intros Hmx Hc Hp Hs. cbn zeta.
  destruct (Z.le_gt_cases (buf + count) (addr_limit w)) as [Hr|Hr].
  2:{ rewrite read_bad_range by (unfold user_range; lia). cbn [fst snd].
      split; [done|]. split; [done|]. auto. }
  destruct (Z.le_gt_cases (count + ppos) 16) as [Hcp|Hcp].
  2:{ rewrite oversize_read_run by (done || lia). cbn [fst snd].
      split; [done|]. split; [done|].
      replace (buf + count <=? addr_limit w) with true
        by (symmetry; apply Z.leb_le; lia).
      auto. }
  rewrite read_entry by (done || lia).
  destruct (read_wait f w) as [o w1] eqn:Hw.
  destruct (read_wait_ends _ _ _ _ Hw)
    as ((_ & Hmx1 & _ & Hum1 & _) & Ho).
  destruct Ho as [-> | [(-> & Hf) | [(-> & Hf) | (-> & Hf)]]];
    cbn [fst snd].
  - destruct (read_locked_ends buf count ppos w1)
      as (r & w' & Hrun & Hr' & Hmh & Hfr); try lia; try congruence.
    rewrite Hrun. cbn [fst snd]. split; [exact Hmh|].
    split; [intros a Ha; rewrite Hfr by done; by rewrite Hum1|].
    destruct Hr' as [-> | ->]; auto.
  - split; [congruence|]. split; [intros; by rewrite Hum1|]. auto 6.
  - split; [congruence|]. split; [intros; by rewrite Hum1|]. auto 6.
  - split; [congruence|]. split; [intros; by rewrite Hum1|]. exact Hf.
Qed.

(** A blocking read that finds nothing, sleeps through a spurious wake
    and is then rung by the host returns its count with the mutex free. *)
Lemma read_result_kinds_witness :
  (mutex_held w_waiting = false /\ 0 <= 3 <= SIZE_MAX /\ 0 <= 0
   /\ 3 + 0 <= LLONG_MAX)
  /\ mutex_held (snd (aspeed_mbox_read 0 0x1000 3 0 w_waiting)) = false
  /\ fst (aspeed_mbox_read 0 0x1000 3 0 w_waiting) = Returned 3.
Proof.
  split.
  { split; [reflexivity|]. split; [by vm_compute|]. split; [lia|].
    by vm_compute. }
  split; [|vm_compute; reflexivity].
  exact (proj1 (read_result_kinds w_waiting 0 0x1000 3 0 eq_refl
                  ltac:(by vm_compute) ltac:(lia) ltac:(by vm_compute))).
Defined.

(** Data is handed out only for a host message the driver has seen: a
    read that returns a count (and not an error) has read the control
    register with RECV set as the last thing before taking the mutex,
    the count is the one asked for, and the call ended with the
    acknowledge write. *)
Theorem read_data_needs_recv w f buf count ppos r :
  mutex_held w = false ->
  0 <= count <= SIZE_MAX -> 0 <= ppos -> count + ppos <= LLONG_MAX ->
  fst (aspeed_mbox_read f buf count ppos w) = Returned r -> 0 <= r ->
  r = count /\ count + ppos <= 16 /\ user_mapped w buf count
  /\ exists w0,
       recv_observed w0 = true
       /\ read_wait f w = (Returned None, after_inb ASPEED_MBOX_BMC_CTRL w0)
       /\ snd (aspeed_mbox_read f buf count ppos w)
          = read_done buf count ppos (after_inb ASPEED_MBOX_BMC_CTRL w0).
Proof.
  intros Hmx Hc Hp Hs.
  destruct (Z.le_gt_cases (buf + count) (addr_limit w)) as [Hr|Hr].
  2:{ rewrite read_bad_range by (unfold user_range; lia). cbn [fst].
      intros [= <-]. unfold EFAULT. lia. }
  destruct (Z.le_gt_cases (count + ppos) 16) as [Hcp|Hcp].
  2:{ rewrite oversize_read_run by (done || lia). cbn [fst].
      destruct (buf + count <=? addr_limit w); intros [= <-];
        unfold EFAULT, EINVAL; lia. }
  rewrite read_entry by (done || lia).
  destruct (read_wait f w) as [o w1] eqn:Hw.
  destruct (read_wait_ends _ _ _ _ Hw) as (_ & Ho).
  destruct Ho as [-> | [(-> & Hf) | [(-> & Hf) | (-> & Hf)]]];
    cbn [fst snd]; try (intros [= <-]; unfold EAGAIN, ERESTARTSYS; lia);
    try discriminate.
  destruct (read_wait_passed _ _ _ Hw)
    as ((Hb1 & Hmx1 & Hal1 & Hum1 & _) & w0 & Hobs & ->).
  destruct (first_unmapped w buf (Z.to_nat count))
    as [Hm|(m & Hm & Hmap & Hnone)].
  - rewrite Z2Nat.id in Hm by lia.
    rewrite read_locked_run; try lia; try congruence.
    2:{ intros k Hk. rewrite Hum1. by apply Hm. }
    cbn [fst snd]. intros [= <-] _. do 3 (split; [done|]).
    exists w0. by repeat split.
  - rewrite (read_locked_fault buf count ppos m); try lia; try congruence.
    + cbn [fst]. intros [= <-]. unfold EFAULT. lia.
    + intros k Hk. rewrite Hum1. by apply Hmap.
Qed.

(** The blocking read of the sleeper's sample world returned 3, so it saw
    RECV set and copied all three bytes. *)
Lemma read_data_needs_recv_witness :
  (mutex_held w_waiting = false /\ 0 <= 3 <= SIZE_MAX /\ 0 <= 0
   /\ 3 + 0 <= LLONG_MAX
   /\ fst (aspeed_mbox_read 0 0x1000 3 0 w_waiting) = Returned 3 /\ 0 <= 3)
  /\ user_mapped w_waiting 0x1000 3.
Proof.
  split.
  { split; [reflexivity|]. split; [by vm_compute|]. split; [lia|].
    split; [by vm_compute|]. split; [vm_compute; reflexivity|lia]. }
  apply (read_data_needs_recv w_waiting 0 0x1000 3 0 3 eq_refl
           ltac:(by vm_compute) ltac:(lia) ltac:(by vm_compute)
           ltac:(by vm_compute) ltac:(lia)).
Defined.

(** ** The mutex *)

(** Both copy loops run under the mutex and nowhere else.  A write with
    valid arguments that finds the mutex taken stops there, with no
    register access at all; a read whose wait is over stops there too,
    with no access to the data window or to the caller's buffer, and
    without the acknowledge write. *)
Theorem copies_wait_for_the_mutex w f buf count ppos w1 :
  mutex_held w = true ->
  0 <= count -> 0 <= ppos -> count + ppos <= 16 ->
  user_range w buf count ->
  read_wait f w = (Returned None, w1) ->
  aspeed_mbox_write buf count ppos w = (Asleep, w)
  /\ aspeed_mbox_read f buf count ppos w = (Asleep, w1)
  /\ umem w1 = umem w /\ mutex_held w1 = true.
Proof.
  intros Hmx Hc Hp Hcp Hr Hw. split; [|split].
  - unfold aspeed_mbox_write.
    unfold bind at 1, access_ok, gets.
    replace (buf + count <=? addr_limit w) with true
      by (symmetry; by apply Z.leb_le).
    cbn [negb]. rewrite wrap_s64_small by lia.
    replace (count + ppos >? ASPEED_MBOX_NUM_REGS) with false.
    2:{ symmetry. rewrite Z.gtb_ltb. apply Z.ltb_ge.
        unfold ASPEED_MBOX_NUM_REGS. lia. }
    unfold bind, mutex_lock. by rewrite Hmx.
  - rewrite read_entry by done. rewrite Hw.
    destruct (read_wait_passed _ _ _ Hw) as ((_ & Hmx1 & _) & _).
    unfold read_locked, bind, mutex_lock. by rewrite Hmx1, Hmx.
  - destruct (read_wait_passed _ _ _ Hw) as ((_ & Hmx1 & _ & Hum1 & _) & _).
    split; congruence.
Qed.

(** With the mutex taken and a message pending, a write and a read both
    stop at the mutex. *)
Lemma copies_wait_for_the_mutex_witness :
  let w := set_mutex_held true w_pending in
  (mutex_held w = true /\ 0 <= 3 /\ 0 <= 0 /\ 3 + 0 <= 16
   /\ user_range w 0x1000 3
   /\ read_wait O_NONBLOCK w
      = (Returned None, after_inb ASPEED_MBOX_BMC_CTRL w))
  /\ aspeed_mbox_write 0x1000 3 0 w = (Asleep, w)
  /\ aspeed_mbox_read O_NONBLOCK 0x1000 3 0 w
     = (Asleep, after_inb ASPEED_MBOX_BMC_CTRL w).
Proof.
  cbn zeta.
  destruct (copies_wait_for_the_mutex (set_mutex_held true w_pending)
              O_NONBLOCK 0x1000 3 0
              (after_inb ASPEED_MBOX_BMC_CTRL (set_mutex_held true w_pending))
              eq_refl ltac:(lia) ltac:(lia) ltac:(lia)
              ltac:(by vm_compute) ltac:(by vm_compute))
    as (Hwr & Hrd & _).
  split; [|by split].
  split; [reflexivity|]. do 3 (split; [lia|]).
  split; vm_compute; [discriminate|reflexivity].
Defined.

(** ** A write that faults *)

Lemma write_fault_run buf count ppos (n : nat) w :
  mutex_held w = false -> 0 <= count -> 0 <= ppos -> count + ppos <= 16 ->
  user_range w buf count -> Z.of_nat n < count ->
  user_mapped w buf (Z.of_nat n) -> umem w !! (buf + Z.of_nat n) = None ->
  aspeed_mbox_write buf count ppos w
  = (Returned (- EFAULT), write_faulted buf n ppos w).
Proof.
  intros Hmx Hc Hp Hcp Hr Hn Hm Hu. unfold aspeed_mbox_write.
  unfold bind at 1, access_ok, gets.
  replace (buf + count <=? addr_limit w) with true
    by (symmetry; by apply Z.leb_le).
  cbn [negb]. rewrite wrap_s64_small by lia.
  replace (count + ppos >? ASPEED_MBOX_NUM_REGS) with false.
  2:{ symmetry. rewrite Z.gtb_ltb. apply Z.ltb_ge.
      unfold ASPEED_MBOX_NUM_REGS. lia. }
  erewrite bind_run by (by apply mutex_lock_run).
  rewrite (wrap_s32_small ppos) by lia.
  erewrite bind_run.
  2:{ apply (write_loop_fault n); try lia; try done.
      unfold ASPEED_MBOX_NUM_REGS. lia. }
  reflexivity.
Qed.

Lemma write_faulted_fields buf ppos (data : list Z) w :
  user_holds w buf data ->
  trace (write_faulted buf (length data) ppos w)
  = trace w ++ [MutexLock]
    ++ write_events (mbox_base w) ppos (bus_rc w) data
    ++ [MutexUnlock]
  /\ umem (write_faulted buf (length data) ppos w) = umem w
  /\ regs (write_faulted buf (length data) ppos w)
     = write_copy_regs (mbox_base w) (regs w) ppos (bus_rc w) data
  /\ mutex_held (write_faulted buf (length data) ppos w) = false
  /\ mbox_base (write_faulted buf (length data) ppos w) = mbox_base w.
Proof.
  intros Hd. unfold write_faulted, unlocked, locked.
  rewrite write_copy_world_eq by exact Hd.
  destruct w as [b r rcs oc mh al um sp sc tr]. world_fields.
  rewrite <- !app_assoc. done.
Qed.

(** When byte [n] of the source cannot be read, write returns -EFAULT
    with the mutex free again.  The [n] bytes before it have been written
    to their data registers and stay there, but the SEND write is not
    made: the control register is as it was, so the host is not told of
    the partial message. *)
Theorem write_fault_rings_no_doorbell w buf count ppos (data : list Z) :
  let n := length data in
  mutex_held w = false ->
  0 <= ppos -> count + ppos <= 16 ->
  user_range w buf count -> user_holds w buf data ->
  Z.of_nat n < count -> umem w !! (buf + Z.of_nat n) = None ->
  let w' := write_faulted buf n ppos w in
  aspeed_mbox_write buf count ppos w = (Returned (- EFAULT), w')
  /\ (exists evs,
        trace w' = trace w ++ evs
        /\ actions evs
           = [MutexLock]
             ++ imap (fun k b =>
                        BusWrite (data_addr w (ppos + Z.of_nat k)) (u8 b)) data
             ++ [MutexUnlock])
  /\ (forall (k : nat) b,
        data !! k = Some b -> nth k (bus_rc w) 0 = 0 ->
        hw_load (regs w') (data_addr w (ppos + Z.of_nat k)) = u8 b)
  /\ hw_ctrl w' = hw_ctrl w
  /\ mutex_held w' = false
  /\ umem w' = umem w.
Proof.
  intros n Hmx Hp Hcp Hr Hd Hn Hu w'.
  destruct (write_faulted_fields buf ppos data w Hd)
    as (Htr & Hum & Hregs & Hmh & Hb).
  fold n in Htr, Hum, Hregs, Hmh, Hb. fold w' in Htr, Hum, Hregs, Hmh, Hb.
  split; [|split; [|split; [|split; [|by split]]]].
  - apply write_fault_run; try done; try lia.
    by apply user_holds_mapped.
  - eexists. split; [exact Htr|].
    rewrite !actions_app, actions_write_events. cbn [actions filter].
    f_equal. f_equal. apply imap_ext. intros k b Hk. cbn.
    apply lookup_lt_Some in Hk. by rewrite data_addr_reg by lia.
  - intros k b Hk Hrc. rewrite Hregs.
    pose proof (lookup_lt_Some _ _ _ Hk) as Hlt.
    rewrite <- data_addr_reg by lia.
    apply write_copy_regs_lookup; try done; lia.
  - unfold hw_ctrl. rewrite Hregs. unfold ctrl_addr. rewrite Hb.
    apply write_copy_regs_other. intros k Hk. apply not_eq_sym.
    apply data_reg_not_special; unfold ASPEED_MBOX_BMC_CTRL; lia.
Qed.

(** A write of three bytes from a buffer of which only the first is
    mapped stores that byte and returns -EFAULT. *)
Lemma write_fault_rings_no_doorbell_witness :
  (mutex_held w_short_buffer = false /\ 0 <= 0 /\ 3 + 0 <= 16
   /\ user_range w_short_buffer 0x1000 3
   /\ user_holds w_short_buffer 0x1000 [0]
   /\ Z.of_nat 1 < 3 /\ umem w_short_buffer !! (0x1000 + Z.of_nat 1) = None)
  /\ aspeed_mbox_write 0x1000 3 0 w_short_buffer
     = (Returned (- EFAULT), write_faulted 0x1000 1 0 w_short_buffer)
  /\ hw_ctrl (write_faulted 0x1000 1 0 w_short_buffer)
     = hw_ctrl w_short_buffer.
Proof.
  assert (user_holds w_short_buffer 0x1000 [0]) as Hd.
  { intros [|k] b Hk; [|by destruct k]. injection Hk as <-. by vm_compute. }
  destruct (write_fault_rings_no_doorbell w_short_buffer 0x1000 3 0 [0]
              eq_refl ltac:(lia) ltac:(lia) ltac:(by vm_compute) Hd
              ltac:(cbn; lia) ltac:(by vm_compute))
    as (Hrun & _ & _ & Hctrl & _).
  split; [|by split].
  repeat split; try lia; try done; by vm_compute.
Defined.

(** ** Sleeping and signals *)

(** With a working bus and RECV clear, the wait loop sleeps through [k]
    spurious wakes: each round is one read of the control register and
    one sleep, and nothing but the schedule and the trace moves. *)
Lemma wait_spurious k : forall n w rest,
  sched w = replicate k SpuriousWake ++ rest ->
  bus_rc w = [] -> hw_recv w = false -> sigpending w = false ->
  exists w1,
    __wait_event_interruptible recv_condition (k + n) w
    = __wait_event_interruptible recv_condition n w1
    /\ sched w1 = rest /\ bus_rc w1 = [] /\ sigpending w1 = false
    /\ regs w1 = regs w /\ mbox_base w1 = mbox_base w
    /\ umem w1 = umem w /\ mutex_held w1 = mutex_held w
    /\ addr_limit w1 = addr_limit w
    /\ trace w1
       = trace w ++ concat (replicate k [BusRead (ctrl_addr w); Schedule]).
Proof.
  induction k as [|k IH]; intros n w rest Hs Hb Hr Hsig.
  - exists w. cbn [replicate concat Nat.add]. rewrite app_nil_r.
    by repeat split.
  - 
    change (S k + n)%nat with (S (k + n)).
    cbn [__wait_event_interruptible].
    erewrite bind_run by apply recv_condition_run.
    rewrite recv_test. fold (recv_observed w).
    rewrite recv_observed_hw by (unfold bus_next; by rewrite Hb).
    rewrite Hr. cbn [negb].
    unfold bind at 1, gets.
    change (sigpending (after_inb ASPEED_MBOX_BMC_CTRL w)) with (sigpending w).
    rewrite Hsig. unfold bind at 1, schedule.
    change (sched (after_inb ASPEED_MBOX_BMC_CTRL w)) with (sched w).
    rewrite Hs. cbn [replicate app env_step].
    set (w2 := emit Schedule
                 (set_sched (replicate k SpuriousWake ++ rest)
                    (after_inb ASPEED_MBOX_BMC_CTRL w))).
    assert (trace w2 = trace w ++ [BusRead (ctrl_addr w); Schedule]) as Ht.
    { subst w2. cbn [trace emit set_sched]. rewrite after_inb_trace.
      unfold rd_events, bus_next. rewrite Hb. cbn [hd Z.eqb].
      by rewrite <- app_assoc. }
    destruct (IH n w2 rest) as (w1 & Hrun & Hs1 & Hb1 & Hsig1 & Hregs & Hbase
                                & Hum & Hmx & Hal & Htr).
    + reflexivity.
    + subst w2. cbn [bus_rc emit set_sched]. rewrite after_inb_bus_rc.
      by rewrite Hb.
    + rewrite <- Hr. by apply hw_same_regs.
    + exact Hsig.
    + exists w1. split; [exact Hrun|]. do 8 (split; [done|]).
      rewrite Htr, Ht. cbn [concat]. by rewrite <- app_assoc.
Qed.

Lemma wait_loop_eq (condition : M Z) n :
  __wait_event_interruptible condition n
  = (let* c := condition in
     if c =? 0 then
       let* sig := gets sigpending in
       if (sig : bool) then ret (- ERESTARTSYS)
       else
         match n with
         | O => asleep
         | S n' => schedule ;;; __wait_event_interruptible condition n'
         end
     else ret 0).
Proof. by destruct n. Qed.

(** One test of the wait condition that finds RECV clear. *)
Lemma wait_loop_clear n w :
  bus_rc w = [] -> hw_recv w = false ->
  __wait_event_interruptible recv_condition n w
  = (let w1 := after_inb ASPEED_MBOX_BMC_CTRL w in
     if sigpending w then (Returned (- ERESTARTSYS), w1)
     else
       match n with
       | O => (Asleep, w1)
       | S n' =>
           (schedule ;;; __wait_event_interruptible recv_condition n') w1
       end).
Proof.
  intros Hb Hr. rewrite wait_loop_eq.
  erewrite bind_run by apply recv_condition_run.
  rewrite recv_test. fold (recv_observed w).
  rewrite recv_observed_hw by (unfold bus_next; by rewrite Hb).
  rewrite Hr. cbn [negb].
  unfold bind at 1, gets.
  change (sigpending (after_inb ASPEED_MBOX_BMC_CTRL w)) with (sigpending w).
  by destruct (sigpending w), n.
Qed.

Lemma wait_event_spurious k w rest :
  sched w = replicate k SpuriousWake ++ rest ->
  bus_rc w = [] -> hw_recv w = false -> sigpending w = false ->
  exists w1,
    wait_event_interruptible recv_condition w
    = __wait_event_interruptible recv_condition (length rest) w1
    /\ sched w1 = rest /\ bus_rc w1 = [] /\ sigpending w1 = false
    /\ regs w1 = regs w /\ mbox_base w1 = mbox_base w
    /\ umem w1 = umem w /\ mutex_held w1 = mutex_held w
    /\ addr_limit w1 = addr_limit w
    /\ trace w1
       = trace w ++ BusRead (ctrl_addr w)
                 :: concat (replicate k [BusRead (ctrl_addr w); Schedule]).
Proof.
  intros Hs Hb Hr Hsig. unfold wait_event_interruptible.
  erewrite bind_run by apply recv_condition_run.
  rewrite recv_test. fold (recv_observed w).
  rewrite recv_observed_hw by (unfold bus_next; by rewrite Hb).
  rewrite Hr. cbn [negb].
  unfold bind at 1, gets.
  change (sched (after_inb ASPEED_MBOX_BMC_CTRL w)) with (sched w).
  rewrite Hs, length_app, length_replicate.
  set (w0 := after_inb ASPEED_MBOX_BMC_CTRL w).
  assert (trace w0 = trace w ++ [BusRead (ctrl_addr w)]) as Ht.
  { subst w0. rewrite after_inb_trace. unfold rd_events, bus_next.
    rewrite Hb. reflexivity. }
  destruct (wait_spurious k (length rest) w0 rest)
    as (w1 & Hrun & Hs1 & Hb1 & Hsig1 & Hregs & Hbase & Hum & Hmx & Hal & Htr).
  - exact Hs.
  - subst w0. rewrite after_inb_bus_rc. by rewrite Hb.
  - rewrite <- Hr. by apply hw_same_regs.
  - exact Hsig.
  - exists w1. split; [exact Hrun|]. do 8 (split; [done|]).
    rewrite Htr, Ht. by rewrite <- app_assoc.
Qed.

Lemma read_wait_blocking f w :
  Z.land f O_NONBLOCK = 0 ->
  read_wait f w
  = (let* r := wait_event_interruptible recv_condition in
     if r =? 0 then ret None else ret (Some (- ERESTARTSYS))) w.
Proof. intros Hf. unfold read_wait. by rewrite Hf. Qed.

(** A blocking read that finds RECV clear goes to sleep, and a wake that
    brings nothing sends it back to sleep: after [k] such wakes, with
    nothing left to happen, the caller is still asleep.  All it has done
    is read the control register, once on entry and once before each
    sleep; it has not taken the mutex, read the data window, written a
    register or touched the buffer. *)
Theorem read_sleeps_through_spurious_wakes w f buf count ppos k :
  Z.land f O_NONBLOCK = 0 ->
  user_range w buf count -> 0 <= count -> 0 <= ppos -> count + ppos <= 16 ->
  bus_rc w = [] -> hw_recv w = false -> sigpending w = false ->
  sched w = replicate k SpuriousWake ->
  exists w',
    aspeed_mbox_read f buf count ppos w = (Asleep, w')
    /\ trace w'
       = trace w
         ++ BusRead (ctrl_addr w)
            :: concat (replicate k [BusRead (ctrl_addr w); Schedule])
         ++ [BusRead (ctrl_addr w)]
    /\ regs w' = regs w /\ umem w' = umem w
    /\ mutex_held w' = mutex_held w /\ sched w' = [].
Proof.
  intros Hf Hr Hc Hp Hcp Hb Hrecv Hsig Hs.
  rewrite read_entry by done. rewrite read_wait_blocking by done.
  destruct (wait_event_spurious k w [])
    as (w1 & Hrun & Hs1 & Hb1 & Hsig1 & Hregs & Hbase & Hum & Hmx & Hal & Htr);
    try done.
  { by rewrite app_nil_r. }
  assert (hw_recv w1 = false) as Hr1.
  { rewrite <- Hrecv. by apply hw_same_regs. }
  unfold bind at 1. rewrite Hrun. cbn [length].
  rewrite wait_loop_clear by done. cbn zeta. rewrite Hsig1.
  exists (after_inb ASPEED_MBOX_BMC_CTRL w1). split; [reflexivity|].
  split; [|by repeat split].
  rewrite after_inb_trace, Htr. unfold rd_events, bus_next.
  rewrite Hb1, Hbase. cbn [hd Z.eqb]. fold (ctrl_addr w).
  by rewrite <- app_assoc.
Qed.

(** Two spurious wakes on an idle mailbox leave the reader asleep. *)
Lemma read_sleeps_through_spurious_wakes_witness :
  let w := set_sched [SpuriousWake; SpuriousWake] w_idle in
  (Z.land 0 O_NONBLOCK = 0 /\ user_range w 0x1000 3 /\ 0 <= 3 /\ 0 <= 0
   /\ 3 + 0 <= 16 /\ bus_rc w = [] /\ hw_recv w = false
   /\ sigpending w = false /\ sched w = replicate 2 SpuriousWake)
  /\ exists w', aspeed_mbox_read 0 0x1000 3 0 w = (Asleep, w').
Proof.
  cbn zeta. split.
  { split; [reflexivity|]. split; [by vm_compute|].
    do 3 (split; [lia|]). split; [reflexivity|].
    split; [vm_compute; reflexivity|]. by split. }
  destruct (read_sleeps_through_spurious_wakes
              (set_sched [SpuriousWake; SpuriousWake] w_idle) 0 0x1000 3 0 2
              eq_refl ltac:(by vm_compute) ltac:(lia) ltac:(lia) ltac:(lia)
              eq_refl ltac:(vm_compute; reflexivity) eq_refl eq_refl)
    as (w' & Hrun & _).
  by exists w'.
Defined.

(** A signal delivered to a sleeping reader ends the read with
    -ERESTARTSYS.  The reader tests the condition once more after the
    wake, finds RECV still clear and the signal pending, and returns
    without having taken the mutex, read the data window, written a
    register or touched the buffer; what was still to happen is left in
    the schedule. *)
Theorem signal_ends_blocking_read w f buf count ppos k rest :
  Z.land f O_NONBLOCK = 0 ->
  user_range w buf count -> 0 <= count -> 0 <= ppos -> count + ppos <= 16 ->
  bus_rc w = [] -> hw_recv w = false -> sigpending w = false ->
  sched w = replicate k SpuriousWake ++ SignalDelivered :: rest ->
  exists w',
    aspeed_mbox_read f buf count ppos w = (Returned (- ERESTARTSYS), w')
    /\ trace w'
       = trace w
         ++ BusRead (ctrl_addr w)
            :: concat (replicate k [BusRead (ctrl_addr w); Schedule])
         ++ [BusRead (ctrl_addr w); Schedule; BusRead (ctrl_addr w)]
    /\ regs w' = regs w /\ umem w' = umem w
    /\ mutex_held w' = mutex_held w
    /\ sched w' = rest /\ sigpending w' = true.
Proof.
  intros Hf Hr Hc Hp Hcp Hb Hrecv Hsig Hs.
  rewrite read_entry by done. rewrite read_wait_blocking by done.
  destruct (wait_event_spurious k w (SignalDelivered :: rest))
    as (w1 & Hrun & Hs1 & Hb1 & Hsig1 & Hregs & Hbase & Hum & Hmx & Hal & Htr);
    try done.
  assert (hw_recv w1 = false) as Hr1.
  { rewrite <- Hrecv. by apply hw_same_regs. }
  unfold bind at 1. rewrite Hrun. cbn [length].
  rewrite wait_loop_clear by done. cbn zeta. rewrite Hsig1.
  unfold bind at 1, schedule.
  change (sched (after_inb ASPEED_MBOX_BMC_CTRL w1)) with (sched w1).
  rewrite Hs1. cbn [env_step].
  set (w2 := set_sigpending true
               (emit Schedule
                  (set_sched rest (after_inb ASPEED_MBOX_BMC_CTRL w1)))).
  assert (bus_rc w2 = []) as Hb2.
  { subst w2. cbn [bus_rc set_sigpending emit set_sched].
    rewrite after_inb_bus_rc. by rewrite Hb1. }
  assert (hw_recv w2 = false) as Hr2.
  { rewrite <- Hr1. by apply hw_same_regs. }
  rewrite wait_loop_clear by done. cbn zeta.
  change (sigpending w2) with true. cbn iota.
  exists (after_inb ASPEED_MBOX_BMC_CTRL w2). split; [reflexivity|].
  split; [|by repeat split].
  rewrite after_inb_trace. subst w2.
  cbn [trace set_sigpending emit set_sched]. rewrite after_inb_trace, Htr.
  unfold rd_events, bus_next.
  change (bus_rc (set_sigpending _ _)) with (bus_rc (after_inb ASPEED_MBOX_BMC_CTRL w1)).
  rewrite after_inb_bus_rc, Hb1.
  change (mbox_base (set_sigpending _ _)) with (mbox_base w1).
  rewrite Hbase. cbn [hd tl Z.eqb]. fold (ctrl_addr w).
  rewrite <- !app_assoc. reflexivity.
Qed.

(** A spurious wake, then a signal: the read returns -ERESTARTSYS and the
    doorbell that was to follow is still to come. *)
Lemma signal_ends_blocking_read_witness :
  let w := set_sched [SpuriousWake; SignalDelivered; HostDoorbell [1]]
             w_idle in
  (Z.land 0 O_NONBLOCK = 0 /\ user_range w 0x1000 3 /\ 0 <= 3 /\ 0 <= 0
   /\ 3 + 0 <= 16 /\ bus_rc w = [] /\ hw_recv w = false
   /\ sigpending w = false
   /\ sched w
      = replicate 1 SpuriousWake ++ SignalDelivered :: [HostDoorbell [1]])
  /\ exists w',
       aspeed_mbox_read 0 0x1000 3 0 w = (Returned (- ERESTARTSYS), w')
       /\ sched w' = [HostDoorbell [1]].
Proof.
  cbn zeta. split.
  { split; [reflexivity|]. split; [by vm_compute|].
    do 3 (split; [lia|]). split; [reflexivity|].
    split; [vm_compute; reflexivity|]. by split. }
  destruct (signal_ends_blocking_read
              (set_sched [SpuriousWake; SignalDelivered; HostDoorbell [1]]
                 w_idle) 0 0x1000 3 0 1 [HostDoorbell [1]]
              eq_refl ltac:(by vm_compute) ltac:(lia) ltac:(lia) ltac:(lia)
              eq_refl ltac:(vm_compute; reflexivity) eq_refl eq_refl)
    as (w' & Hrun & _ & _ & _ & _ & Hs & _).
  by exists w'.
Defined.

(** The wait tests its condition before it looks for signals.  With a
    signal already pending on entry, a blocking read that sees RECV set
    goes on to the copy as if there were none; one that sees RECV clear
    returns -ERESTARTSYS after two reads of the control register,
    without sleeping and with the schedule untouched. *)
Theorem pending_signal_yields_to_data w f buf count ppos :
  Z.land f O_NONBLOCK = 0 ->
  user_range w buf count -> 0 <= count -> 0 <= ppos -> count + ppos <= 16 ->
  bus_rc w = [] -> sigpending w = true ->
  if hw_recv w then
    aspeed_mbox_read f buf count ppos w
    = read_locked buf count ppos (after_inb ASPEED_MBOX_BMC_CTRL w)
  else
    exists w',
      aspeed_mbox_read f buf count ppos w = (Returned (- ERESTARTSYS), w')
      /\ trace w' = trace w ++ [BusRead (ctrl_addr w); BusRead (ctrl_addr w)]
      /\ regs w' = regs w /\ umem w' = umem w
      /\ mutex_held w' = mutex_held w /\ sched w' = sched w.
Proof.
  intros Hf Hr Hc Hp Hcp Hb Hsig.
  rewrite read_entry by done.
  destruct (hw_recv w) eqn:Hrecv.
  - rewrite read_wait_block_ready; [reflexivity|exact Hf|].
    rewrite recv_observed_hw; [exact Hrecv|]. unfold bus_next. by rewrite Hb.
  - rewrite read_wait_blocking by done.
    unfold bind at 1, wait_event_interruptible.
    erewrite bind_run by apply recv_condition_run.
    rewrite recv_test. fold (recv_observed w).
    rewrite recv_observed_hw by (unfold bus_next; by rewrite Hb).
    rewrite Hrecv. cbn [negb]. unfold bind at 1, gets.
    set (w0 := after_inb ASPEED_MBOX_BMC_CTRL w).
    assert (bus_rc w0 = []) as Hb0.
    { subst w0. rewrite after_inb_bus_rc. by rewrite Hb. }
    assert (hw_recv w0 = false) as Hr0.
    { rewrite <- Hrecv. by apply hw_same_regs. }
    rewrite wait_loop_clear by done. cbn zeta.
    change (sigpending w0) with (sigpending w). rewrite Hsig.
    exists (after_inb ASPEED_MBOX_BMC_CTRL w0). split; [reflexivity|].
    split; [|by repeat split].
    rewrite after_inb_trace. subst w0. rewrite after_inb_trace.
    unfold rd_events, bus_next. rewrite after_inb_bus_rc, Hb.
    cbn [hd tl Z.eqb]. rewrite <- app_assoc. reflexivity.
Qed.

(** A reader with a signal pending and nothing in the mailbox. *)
Lemma pending_signal_yields_to_data_witness :
  let w := set_sigpending true w_idle in
  (Z.land 0 O_NONBLOCK = 0 /\ user_range w 0x1000 3 /\ 0 <= 3 /\ 0 <= 0
   /\ 3 + 0 <= 16 /\ bus_rc w = [] /\ sigpending w = true)
  /\ fst (aspeed_mbox_read 0 0x1000 3 0 w) = Returned (- ERESTARTSYS).
Proof.
  cbn zeta. split.
  { split; [reflexivity|]. split; [by vm_compute|].
    do 3 (split; [lia|]). by split. }
  pose proof (pending_signal_yields_to_data (set_sigpending true w_idle)
                0 0x1000 3 0 eq_refl ltac:(by vm_compute) ltac:(lia)
                ltac:(lia) ltac:(lia) eq_refl eq_refl) as H.
  change (hw_recv (set_sigpending true w_idle)) with (hw_recv w_idle) in H.
  replace (hw_recv w_idle) with false in H by (vm_compute; reflexivity).
  destruct H as (w' & -> & _). reflexivity.
Defined.

(** ** The window as storage *)

(** What write stores, read hands back.  With a working bus and RECV
    set, a write of [data] at [*ppos] followed by a read of as many bytes
    at the same [*ppos] puts [data] into the reader's buffer: both loops
    use data register [*ppos + k] for byte [k], and neither the SEND
    write nor the RECV test in between disturbs the window. *)
Theorem window_round_trip w f buf buf2 ppos (data : list Z) :
  let count := Z.of_nat (length data) in
  mutex_held w = false ->
  0 <= ppos -> count + ppos <= 16 ->
  user_range w buf count -> user_holds w buf data ->
  Forall (fun b => 0 <= b < 256) data ->
  user_range w buf2 count -> user_mapped w buf2 count ->
  bus_rc w = [] -> hw_recv w = true ->
  let w1 := write_done buf count ppos w in
  let w2 := read_done buf2 count ppos (after_inb ASPEED_MBOX_BMC_CTRL w1) in
  aspeed_mbox_write buf count ppos w = (Returned count, w1)
  /\ aspeed_mbox_read f buf2 count ppos w1 = (Returned count, w2)
  /\ forall (k : nat) b,
       data !! k = Some b -> umem w2 !! (buf2 + Z.of_nat k) = Some b.
Proof.
  intros count Hmx Hp Hcp Hr Hd Hbytes Hr2 Hm2 Hb Hrecv w1 w2.
  destruct (write_done_fields buf ppos data w Hd)
    as (_ & Hum & Hregs & Hmh & Hbase).
  destruct (write_done_rest buf ppos data w Hd) as (Hb1 & Hal).
  fold count in Hum, Hregs, Hmh, Hbase, Hb1, Hal.
  fold w1 in Hum, Hregs, Hmh, Hbase, Hb1, Hal.
  rewrite Hb, nth_nil in Hregs. cbn [Z.eqb] in Hregs. cbn zeta in Hregs.
  rewrite Hb, drop_nil in Hb1.
  assert (forall j, 0 <= j < 16 ->
    hw_load (regs w1) (wrap_u32 (mbox_base w + data_reg j))
    = hw_load (write_copy_regs (mbox_base w) (regs w) ppos [] data)
              (wrap_u32 (mbox_base w + data_reg j))) as Hwin.
  { intros j Hj. rewrite Hregs. apply hw_store_other. unfold ctrl_addr.
    apply not_eq_sym, data_reg_not_special;
      unfold ASPEED_MBOX_BMC_CTRL; lia. }
  assert (hw_recv w1 = true) as Hrecv1.
  { rewrite <- Hrecv. unfold hw_recv, hw_ctrl, ctrl_addr.
    rewrite Hbase, Hregs. unfold ctrl_addr. rewrite hw_store_ctrl.
    destruct (ctrl_after_send
                (hw_load (write_copy_regs (mbox_base w) (regs w) ppos [] data)
                   (wrap_u32 (mbox_base w + ASPEED_MBOX_BMC_CTRL))))
      as (H7 & _).
    cbn zeta in H7. rewrite H7. f_equal.
    apply write_copy_regs_other. intros k Hk.
    apply not_eq_sym, data_reg_not_special;
      unfold ASPEED_MBOX_BMC_CTRL; lia. }
  assert (read_wait f w1
          = (Returned None, after_inb ASPEED_MBOX_BMC_CTRL w1)) as Hwait.
  { apply read_wait_ready. rewrite recv_observed_hw; [exact Hrecv1|].
    unfold bus_next. by rewrite Hb1. }
  split; [|split].
  - apply write_locked_run; try done; try lia.
    by apply user_holds_mapped.
  - apply (read_success_acks w1 f buf2 count ppos); try done; try lia.
    + unfold user_range. rewrite Hal. exact Hr2.
    + intros k Hk. rewrite Hum. by apply Hm2.
  - intros k b Hk.
    pose proof (lookup_lt_Some _ _ _ Hk) as Hlt.
    destruct (read_done_fields buf2 count ppos
                (after_inb ASPEED_MBOX_BMC_CTRL w1)) as (_ & Hum2 & _).
    cbn zeta in Hum2. fold w2 in Hum2. rewrite Hum2.
    subst count. rewrite Nat2Z.id.
    rewrite read_copy_umem_lookup by done.
    rewrite after_inb_bus_rc, Hb1. cbn [tl]. rewrite nth_nil, rd_byte_ok.
    change (regs (after_inb ASPEED_MBOX_BMC_CTRL w1)) with (regs w1).
    change (mbox_base (after_inb ASPEED_MBOX_BMC_CTRL w1))
      with (mbox_base w1).
    rewrite Hbase, Hwin by lia.
    rewrite (write_copy_regs_lookup _ _ _ _ _ k b) by (done || lia || apply nth_nil).
    fold (u8 (u8 b)).
    assert (0 <= b < 256) as Hbyte by (by eapply byte_at).
    by rewrite !(u8_byte b) by exact Hbyte.
Qed.

(** Three bytes written at offset 4 and read back at offset 4. *)
Lemma window_round_trip_witness :
  let w := set_umem (sample_mem 0x1000 [7; 8; 9; 0; 0; 0]) w_pending in
  (mutex_held w = false /\ 0 <= 4 /\ Z.of_nat (length [7; 8; 9]) + 4 <= 16
   /\ user_range w 0x1000 (Z.of_nat (length [7; 8; 9]))
   /\ user_holds w 0x1000 [7; 8; 9]
   /\ Forall (fun b => 0 <= b < 256) [7; 8; 9]
   /\ user_range w 0x1003 (Z.of_nat (length [7; 8; 9]))
   /\ user_mapped w 0x1003 (Z.of_nat (length [7; 8; 9]))
   /\ bus_rc w = [] /\ hw_recv w = true)
  /\ fst (aspeed_mbox_read 0 0x1003 3 4
            (write_done 0x1000 3 4 w)) = Returned 3.
Proof.
  cbn zeta.
  set (w := set_umem (sample_mem 0x1000 [7; 8; 9; 0; 0; 0]) w_pending).
  assert (user_holds w 0x1000 [7; 8; 9]) as Hd.
  { intros k b Hk. destruct k as [|[|[|k]]]; try discriminate;
      injection Hk as <-; vm_compute; reflexivity. }
  assert (Forall (fun b => 0 <= b < 256) [7; 8; 9]) as Hbytes.
  { repeat constructor; lia. }
  assert (user_mapped w 0x1003 (Z.of_nat (length [7; 8; 9]))) as Hm2.
  { intros k Hk. cbn in Hk.
    assert (k = 0 \/ k = 1 \/ k = 2) as [-> | [-> | ->]] by lia;
      vm_compute; by eexists. }
  destruct (window_round_trip w 0 0x1000 0x1003 4 [7; 8; 9]
              eq_refl ltac:(lia) ltac:(cbn; lia) ltac:(by vm_compute) Hd
              Hbytes ltac:(by vm_compute) Hm2 eq_refl
              ltac:(vm_compute; reflexivity))
    as (_ & Hrd & _).
  split.
  { split; [reflexivity|]. split; [lia|]. split; [cbn; lia|].
    split; [by vm_compute|]. split; [exact Hd|]. split; [exact Hbytes|].
    split; [by vm_compute|]. split; [exact Hm2|]. split; [reflexivity|].
    vm_compute; reflexivity. }
  change (Z.of_nat (length [7; 8; 9])) with 3 in Hrd.
  by rewrite Hrd.
Defined.

(** ** The doorbell handshake *)

Lemma irq_done_rest w :
  bus_rc (irq_done w) = tl (tl (bus_rc w))
  /\ addr_limit (irq_done w) = addr_limit w
  /\ umem (irq_done w) = umem w
  /\ mutex_held (irq_done w) = mutex_held w.
Proof.
  unfold irq_done, after_outb, after_inb.
  destruct w as [b r rcs oc mh al um sp sc tr]. world_fields.
  destruct (hd 0 (tl rcs) =? 0); world_fields; done.
Qed.

Lemma quiet_bus_observes w : bus_rc w = [] -> recv_observed w = hw_recv w.
Proof. intros Hb. apply recv_observed_hw. unfold bus_next. by rewrite Hb. Qed.

(** One full turn of the handshake, on a working bus.  The host has
    raised RECV and the interrupt is not masked, so the line is up.  The
    handler claims the interrupt and masks it: the line drops although
    RECV is still set.  A read then delivers the message; its
    acknowledge write clears RECV and lifts the mask.  After that the
    device is idle again: the handler declines, poll reports nothing and
    a non-blocking read is sent away with -EAGAIN. *)
Theorem doorbell_handshake w f f' buf count ppos :
  bus_rc w = [] -> hw_recv w = true -> hw_mask w = false ->
  mutex_held w = false ->
  0 <= count -> 0 <= ppos -> count + ppos <= 16 ->
  user_range w buf count -> user_mapped w buf count ->
  Z.land f' O_NONBLOCK <> 0 ->
  let w1 := irq_done w in
  let w2 := read_done buf count ppos (after_inb ASPEED_MBOX_BMC_CTRL w1) in
  irq_line w = true
  /\ aspeed_mbox_irq w = (Returned IRQ_HANDLED, w1)
  /\ irq_line w1 = false /\ hw_recv w1 = true
  /\ aspeed_mbox_read f buf count ppos w1 = (Returned count, w2)
  /\ hw_recv w2 = false /\ hw_mask w2 = false
  /\ fst (aspeed_mbox_irq w2) = Returned IRQ_NONE
  /\ fst (aspeed_mbox_poll w2) = Returned 0
  /\ fst (aspeed_mbox_read f' buf count ppos w2) = Returned (- EAGAIN).
Proof.
  intros Hb Hrecv Hmask Hmx Hc Hp Hcp Hr Hm Hf' w1 w2.
  destruct (irq_done_fields w) as (_ & Hregs1 & Hbase1).
  destruct (irq_done_rest w) as (Hb1 & Hal1 & Hum1 & Hmx1).
  fold w1 in Hregs1, Hbase1, Hb1, Hal1, Hum1, Hmx1.
  rewrite Hb in Hb1. cbn [tl] in Hb1.
  rewrite Hb, nth_nil in Hregs1. cbn [Z.eqb] in Hregs1. cbn zeta in Hregs1.
  destruct (hw_after_mask w w1 Hbase1 Hregs1) as (Hrecv1 & Hmask1).
  rewrite Hrecv in Hrecv1.
  assert (read_wait f w1
          = (Returned None, after_inb ASPEED_MBOX_BMC_CTRL w1)) as Hwait.
  { apply read_wait_ready. by rewrite quiet_bus_observes. }
  destruct (read_success_acks w1 f buf count ppos
              (after_inb ASPEED_MBOX_BMC_CTRL w1)) as (Hread & Hack);
    try done; try congruence.
  { intros k Hk. rewrite Hum1. by apply Hm. }
  fold w2 in Hread, Hack.
  destruct Hack as (Hrecv2 & Hmask2).
  { rewrite after_inb_bus_rc, Hb1. apply nth_nil. }
  destruct (read_done_fields buf count ppos
              (after_inb ASPEED_MBOX_BMC_CTRL w1))
    as (_ & _ & _ & Hb2 & _ & _ & Hal2).
  cbn zeta in Hb2. fold w2 in Hb2, Hal2.
  rewrite after_inb_bus_rc, Hb1 in Hb2. cbn [tl] in Hb2.
  rewrite drop_nil in Hb2.
  assert (recv_observed w2 = false) as Hobs2.
  { by rewrite quiet_bus_observes. }
  split; [unfold irq_line; by rewrite Hrecv, Hmask|].
  split; [rewrite irq_run, quiet_bus_observes by done; by rewrite Hrecv|].
  split; [unfold irq_line; by rewrite Hrecv1, Hmask1|].
  split; [exact Hrecv1|]. split; [exact Hread|].
  split; [exact Hrecv2|]. split; [exact Hmask2|].
  split; [by rewrite irq_run, Hobs2|].
  split; [by rewrite poll_run, Hobs2|].
  rewrite read_entry; try done.
  - rewrite read_wait_nonblock by done. by rewrite Hobs2.
  - unfold user_range. rewrite Hal2.
    change (addr_limit (after_inb ASPEED_MBOX_BMC_CTRL w1))
      with (addr_limit w1).
    rewrite Hal1. exact Hr.
Qed.

(** The handshake on the sample world in which the host has just rung. *)
Lemma doorbell_handshake_witness :
  (bus_rc w_ringing = [] /\ hw_recv w_ringing = true
   /\ hw_mask w_ringing = false /\ mutex_held w_ringing = false
   /\ 0 <= 3 /\ 0 <= 0 /\ 3 + 0 <= 16
   /\ user_range w_ringing 0x1000 3 /\ user_mapped w_ringing 0x1000 3
   /\ Z.land O_NONBLOCK O_NONBLOCK <> 0)
  /\ irq_line w_ringing = true
  /\ aspeed_mbox_irq w_ringing = (Returned IRQ_HANDLED, irq_done w_ringing).
Proof.
  assert (user_mapped w_ringing 0x1000 3) as Hm.
  { intros k Hk.
    assert (k = 0 \/ k = 1 \/ k = 2) as [-> | [-> | ->]] by lia;
      vm_compute; by eexists. }
  destruct (doorbell_handshake w_ringing 0 O_NONBLOCK 0x1000 3 0
              eq_refl ltac:(vm_compute; reflexivity)
              ltac:(vm_compute; reflexivity) eq_refl
              ltac:(lia) ltac:(lia) ltac:(lia) ltac:(by vm_compute) Hm
              ltac:(by vm_compute))
    as (Hline & Hirq & _).
  split; [|by split].
  split; [reflexivity|]. do 2 (split; [vm_compute; reflexivity|]).
  split; [reflexivity|]. do 3 (split; [lia|]).
  split; [by vm_compute|]. split; [exact Hm|]. by vm_compute.
Defined.

(** ** Bytes *)

Lemma rd_byte_range rc v : 0 <= rd_byte rc v < 256.
Proof.
  unfold rd_byte. destruct (rc =? 0); [|lia].
  change 255 with (Z.ones 8). rewrite Z.land_ones by lia.
  apply Z.mod_pos_bound. lia.
Qed.

(** Whatever a read changes in the caller's memory is a byte.  For
    every call of [aspeed_mbox_read], on every path it can take, a cell
    of the caller's memory is either as it was, or it lies in
    [buf, buf + count), was mapped before, and now holds a value from 0
    to 255: the register accessor hands back a byte whatever the
    register holds and whatever the bus does, and the copy loop stores
    what the accessor returned. *)
Theorem read_stores_bytes w f buf count ppos :
  mutex_held w = false ->
  0 <= count <= SIZE_MAX -> 0 <= ppos -> count + ppos <= LLONG_MAX ->
  let w' := snd (aspeed_mbox_read f buf count ppos w) in
  forall a,
    umem w' !! a = umem w !! a
    \/ (buf <= a < buf + count /\ is_Some (umem w !! a)
        /\ exists v, umem w' !! a = Some v /\ 0 <= v < 256).
Proof.
  intros Hmx Hc Hp Hs. cbn zeta. intros a.
  destruct (Z.le_gt_cases (buf + count) (addr_limit w)) as [Hr|Hr].
  2:{ rewrite read_bad_range by (unfold user_range; lia). by left. }
  destruct (Z.le_gt_cases (count + ppos) 16) as [Hcp|Hcp].
  2:{ rewrite oversize_read_run by (done || lia). by left. }
  rewrite read_entry by (done || lia).
  destruct (read_wait f w) as [o w1] eqn:Hw.
  destruct (read_wait_ends _ _ _ _ Hw) as ((_ & Hmx1 & _ & Hum1 & _) & Ho).
  destruct Ho as [-> | [(-> & _) | [(-> & _) | (-> & _)]]];
    cbn [snd]; try (left; by rewrite Hum1).
  assert (forall (n : nat) rcs r i,
    Z.of_nat n <= count -> user_mapped w buf (Z.of_nat n) ->
    read_copy_umem (mbox_base w1) r i buf rcs n (umem w1) !! a
    = umem w !! a
    \/ (buf <= a < buf + count /\ is_Some (umem w !! a)
        /\ exists v,
             read_copy_umem (mbox_base w1) r i buf rcs n (umem w1) !! a
             = Some v /\ 0 <= v < 256)) as Hcells.
  { intros n rcs r i Hn Hmap.
    destruct (decide (buf <= a < buf + Z.of_nat n)) as [Hin|Hout].
    - right. split; [lia|]. split.
      + replace a with (buf + (a - buf)) by lia. apply Hmap. lia.
      + replace a with (buf + Z.of_nat (Z.to_nat (a - buf))) by lia.
        rewrite read_copy_umem_lookup by lia.
        eexists. split; [reflexivity|]. apply rd_byte_range.
    - left. rewrite read_copy_umem_other by exact Hout. by rewrite Hum1. }
  destruct (first_unmapped w buf (Z.to_nat count))
    as [Hm|(m & Hm & Hmap & Hnone)].
  - rewrite Z2Nat.id in Hm by lia.
    rewrite read_locked_run; try lia; try congruence.
    2:{ intros k Hk. rewrite Hum1. by apply Hm. }
    cbn [snd].
    destruct (read_done_fields buf count ppos w1) as (_ & Hum & _).
    cbn zeta in Hum. rewrite Hum. apply Hcells.
    + lia.
    + by rewrite Z2Nat.id by lia.
  - rewrite (read_locked_fault buf count ppos m); try lia; try congruence.
    2:{ intros k Hk. rewrite Hum1. by apply Hmap. }
    cbn [snd].
    destruct (read_faulted_fields buf m ppos w1) as (_ & Hum & _).
    rewrite Hum. apply Hcells; [lia|exact Hmap].
Qed.

(** A read of three bytes with the second data-register read failing on
    the bus: the cell at 0x1001 is unchanged or holds a byte. *)
Lemma read_stores_bytes_witness :
  (mutex_held w_pending_glitch = false /\ 0 <= 3 <= SIZE_MAX /\ 0 <= 0
   /\ 3 + 0 <= LLONG_MAX)
  /\ (umem (snd (aspeed_mbox_read O_NONBLOCK 0x1000 3 0 w_pending_glitch))
        !! 0x1001
      = umem w_pending_glitch !! 0x1001
      \/ (0x1000 <= 0x1001 < 0x1000 + 3
          /\ is_Some (umem w_pending_glitch !! 0x1001)
          /\ exists v,
               umem (snd (aspeed_mbox_read O_NONBLOCK 0x1000 3 0
                            w_pending_glitch)) !! 0x1001 = Some v
               /\ 0 <= v < 256)).
Proof.
  split.
  { split; [reflexivity|]. split; [by vm_compute|]. split; [lia|].
    by vm_compute. }
  exact (read_stores_bytes w_pending_glitch O_NONBLOCK 0x1000 3 0 eq_refl
           ltac:(by vm_compute) ltac:(lia) ltac:(by vm_compute) 0x1001).
Defined.

(** ** Binding and unbinding *)

Lemma bindP_run {A B} (m : P A) (k : A -> P B) s a s1 :
  m s = (Returned a, s1) -> bindP m k s = k a s1.
Proof. intros H. unfold bindP. rewrite H. reflexivity. Qed.

Lemma lift_outb_run data reg s :
  lift (aspeed_mbox_outb data reg) s
  = (Returned tt, set_pf_world (after_outb data reg (pf_world s)) s).
Proof. unfold lift. by rewrite outb_run. Qed.

Lemma config_irq_run pdev s :
  aspeed_mbox_config_irq pdev s
  = if irq_mapped pdev =? 0 then (Returned (- ENODEV), s)
    else if request_irq_rc pdev <? 0 then
      (Returned (request_irq_rc pdev),
       log_msg (IrqRefused (irq_mapped pdev)) s)
    else
      (Returned 0,
       set_pf_world (irq_configured (pf_world s))
         (if request_irq_rc pdev =? 0
          then set_irq_handler (Some (irq_mapped pdev)) s else s)).
Proof.
  unfold aspeed_mbox_config_irq, irq_of_parse_and_map.
  unfold bindP at 1, retP at 1.
  destruct (irq_mapped pdev =? 0); [reflexivity|].
  unfold bindP at 1, devm_request_irq.
  destruct (request_irq_rc pdev =? 0) eqn:Hrc.
  - apply Z.eqb_eq in Hrc. rewrite Hrc. cbn [Z.ltb Z.compare].
    do 5 (erewrite bindP_run by apply lift_outb_run).
    destruct s. reflexivity.
  - destruct (request_irq_rc pdev <? 0); [reflexivity|].
    do 5 (erewrite bindP_run by apply lift_outb_run).
    destruct s. reflexivity.
Qed.

Lemma probe_run pdev s :
  aspeed_mbox_probe pdev s
  = if kzalloc_ok pdev then
      let s1 := set_drvdata true
                  (set_pf_world (set_mbox_base 0 (pf_world s)) s) in
      if reg_rc pdev =? 0 then
        let s2 := set_pf_world (mbox_allocated pdev (pf_world s))
                    (set_drvdata true s) in
        if regmap_is_err pdev then
          (Returned (- ENODEV),
           log_msg NoRegmap
             (set_pf_world
                (set_mbox_base (wrap_u32 (reg_val pdev))
                   (set_mbox_base 0 (pf_world s)))
                (set_drvdata true s)))
        else if misc_register_rc pdev =? 0 then
          match aspeed_mbox_config_irq pdev (set_misc_registered true s2) with
          | (Returned rc, s5) =>
              if rc =? 0 then (Returned 0, s5)
              else (Returned rc,
                    set_misc_registered false (log_msg IrqNotConfigured s5))
          | (Asleep, s5) => (Asleep, s5)
          end
        else (Returned (misc_register_rc pdev), log_msg NoMiscDevice s2)
      else (Returned (reg_rc pdev), log_msg NoRegProperty s1)
    else (Returned (- ENOMEM), s).
Proof.
  unfold aspeed_mbox_probe, devm_kzalloc. unfold bindP at 1.
  destruct (kzalloc_ok pdev); [|reflexivity]. cbn [negb].
  unfold bindP at 1, dev_set_drvdata, modifyP.
  unfold bindP at 1, of_property_read_u32.
  destruct (reg_rc pdev =? 0) eqn:Hreg.
  2:{ rewrite Hreg. cbn [negb]. destruct s. reflexivity. }
  cbn [Z.eqb negb]. unfold bindP at 1, syscon_node_to_regmap, retP at 1.
  destruct (regmap_is_err pdev); [destruct s; reflexivity|].
  unfold bindP at 1, mutex_init, modifyP.
  unfold bindP at 1, misc_register.
  destruct (misc_register_rc pdev =? 0) eqn:Hmisc.
  2:{ rewrite Hmisc. cbn [negb]. destruct s. reflexivity. }
  cbn [Z.eqb negb]. unfold bindP at 1.
  destruct s as [w dd mr ih lg]. cbn zeta.
  unfold mbox_allocated, set_pf_world, set_drvdata, set_misc_registered.
  cbn [pf_world drvdata misc_registered irq_handler pf_log].
  destruct (aspeed_mbox_config_irq pdev _) as [[rc|] s5]; [|reflexivity].
  destruct (rc =? 0); reflexivity.
Qed.

Lemma after_outb_fields data reg w :
  trace (after_outb data reg w)
  = trace w ++ wr_events (mbox_base w) data reg (bus_next w)
  /\ regs (after_outb data reg w)
     = (if bus_next w =? 0 then
          hw_store (mbox_base w) (regs w) (wrap_u32 (mbox_base w + reg))
                   (u8 data)
        else regs w)
  /\ bus_rc (after_outb data reg w) = tl (bus_rc w)
  /\ mbox_base (after_outb data reg w) = mbox_base w
  /\ aspeed_mbox_open_count (after_outb data reg w) = aspeed_mbox_open_count w
  /\ mutex_held (after_outb data reg w) = mutex_held w
  /\ umem (after_outb data reg w) = umem w.
Proof.
  unfold after_outb. destruct w as [b r rcs oc mh al um sp sc tr].
  world_fields. destruct (hd 0 rcs =? 0); world_fields; done.
Qed.

Lemma bus_writes_wr_events base data reg rc :
  bus_writes (wr_events base data reg rc)
  = [(wrap_u32 (base + reg), u8 data)].
Proof. unfold wr_events. by destruct (rc =? 0). Qed.

(** The five writes of config_irq, whatever the bus does. *)
Lemma irq_configured_fields w :
  let b := mbox_base w in
  (exists evs,
     trace (irq_configured w) = trace w ++ evs
     /\ bus_writes evs
        = [(wrap_u32 (b + ASPEED_MBOX_INTERRUPT_0), 0x00);
           (wrap_u32 (b + ASPEED_MBOX_INTERRUPT_1), 0x00);
           (wrap_u32 (b + ASPEED_MBOX_STATUS_0), 0xff);
           (wrap_u32 (b + ASPEED_MBOX_STATUS_1), 0xff);
           (wrap_u32 (b + ASPEED_MBOX_BMC_CTRL), ASPEED_MBOX_CTRL_RECV)]
     /\ bus_reads evs = [])
  /\ mbox_base (irq_configured w) = b
  /\ aspeed_mbox_open_count (irq_configured w) = aspeed_mbox_open_count w
  /\ mutex_held (irq_configured w) = mutex_held w
  /\ umem (irq_configured w) = umem w.
Proof.
  intros b. subst b. unfold irq_configured.
  set (w1 := after_outb 0x00 ASPEED_MBOX_INTERRUPT_0 w).
  set (w2 := after_outb 0x00 ASPEED_MBOX_INTERRUPT_1 w1).
  set (w3 := after_outb 0xff ASPEED_MBOX_STATUS_0 w2).
  set (w4 := after_outb 0xff ASPEED_MBOX_STATUS_1 w3).
  destruct (after_outb_fields 0x00 ASPEED_MBOX_INTERRUPT_0 w)
    as (Ht1 & _ & _ & Hb1 & Ho1 & Hm1 & Hu1).
  destruct (after_outb_fields 0x00 ASPEED_MBOX_INTERRUPT_1 w1)
    as (Ht2 & _ & _ & Hb2 & Ho2 & Hm2 & Hu2).
  destruct (after_outb_fields 0xff ASPEED_MBOX_STATUS_0 w2)
    as (Ht3 & _ & _ & Hb3 & Ho3 & Hm3 & Hu3).
  destruct (after_outb_fields 0xff ASPEED_MBOX_STATUS_1 w3)
    as (Ht4 & _ & _ & Hb4 & Ho4 & Hm4 & Hu4).
  destruct (after_outb_fields ASPEED_MBOX_CTRL_RECV ASPEED_MBOX_BMC_CTRL w4)
    as (Ht5 & _ & _ & Hb5 & Ho5 & Hm5 & Hu5).
  fold w1 in Ht1, Hb1, Ho1, Hm1, Hu1. fold w2 in Ht2, Hb2, Ho2, Hm2, Hu2.
  fold w3 in Ht3, Hb3, Ho3, Hm3, Hu3. fold w4 in Ht4, Hb4, Ho4, Hm4, Hu4.
  split; [|repeat split; congruence].
  eexists. split.
  - rewrite Ht5, Ht4, Ht3, Ht2, Ht1, Hb4, Hb3, Hb2, Hb1.
    rewrite <- !app_assoc. reflexivity.
  - split.
    + rewrite !bus_writes_app, !bus_writes_wr_events. reflexivity.
    + unfold wr_events.
      by destruct (bus_next w =? 0), (bus_next w1 =? 0), (bus_next w2 =? 0),
        (bus_next w3 =? 0), (bus_next w4 =? 0).
Qed.

Lemma hw_store_status base r a d :
  a = wrap_u32 (base + ASPEED_MBOX_STATUS_0)
  \/ a = wrap_u32 (base + ASPEED_MBOX_STATUS_1) ->
  hw_load (hw_store base r a d) a = Z.ldiff (hw_load r a) d.
Proof.
  intros Ha. unfold hw_store.
  destruct (decide (a = wrap_u32 (base + ASPEED_MBOX_BMC_CTRL))) as [Hc|_].
  { exfalso. revert Hc.
    destruct Ha as [-> | ->]; apply wrap_u32_apart;
      unfold ASPEED_MBOX_STATUS_0, ASPEED_MBOX_STATUS_1,
        ASPEED_MBOX_BMC_CTRL; lia. }
  destruct (decide _) as [_|Hn]; [|tauto].
  unfold hw_load at 1. by rewrite lookup_insert_eq.
Qed.

(** On a working bus the five writes leave the two interrupt-enable
    registers at zero, the status bits that were set cleared, RECV clear
    and the interrupt unmasked, and nothing else changed. *)
Lemma irq_configured_quiet w :
  bus_rc w = [] ->
  let b := mbox_base w in
  let r' := regs (irq_configured w) in
  hw_load r' (wrap_u32 (b + ASPEED_MBOX_INTERRUPT_0)) = 0
  /\ hw_load r' (wrap_u32 (b + ASPEED_MBOX_INTERRUPT_1)) = 0
  /\ hw_load r' (wrap_u32 (b + ASPEED_MBOX_STATUS_0))
     = Z.ldiff (hw_load (regs w) (wrap_u32 (b + ASPEED_MBOX_STATUS_0))) 0xff
  /\ hw_load r' (wrap_u32 (b + ASPEED_MBOX_STATUS_1))
     = Z.ldiff (hw_load (regs w) (wrap_u32 (b + ASPEED_MBOX_STATUS_1))) 0xff
  /\ hw_recv (irq_configured w) = false
  /\ hw_mask (irq_configured w) = false
  /\ (forall j, 0 <= j < 16 ->
        hw_load r' (data_addr w j) = hw_load (regs w) (data_addr w j))
  /\ hw_load r' (wrap_u32 (b + ASPEED_MBOX_HOST_CTRL))
     = hw_load (regs w) (wrap_u32 (b + ASPEED_MBOX_HOST_CTRL))
  /\ bus_rc (irq_configured w) = [].
Proof.
  intros Hq b r'. subst b r'. unfold irq_configured.
  set (w1 := after_outb 0x00 ASPEED_MBOX_INTERRUPT_0 w).
  set (w2 := after_outb 0x00 ASPEED_MBOX_INTERRUPT_1 w1).
  set (w3 := after_outb 0xff ASPEED_MBOX_STATUS_0 w2).
  set (w4 := after_outb 0xff ASPEED_MBOX_STATUS_1 w3).
  set (w5 := after_outb ASPEED_MBOX_CTRL_RECV ASPEED_MBOX_BMC_CTRL w4).
  destruct (after_outb_fields 0x00 ASPEED_MBOX_INTERRUPT_0 w)
    as (_ & Hr1 & Hq1 & Hb1 & _).
  destruct (after_outb_fields 0x00 ASPEED_MBOX_INTERRUPT_1 w1)
    as (_ & Hr2 & Hq2 & Hb2 & _).
  destruct (after_outb_fields 0xff ASPEED_MBOX_STATUS_0 w2)
    as (_ & Hr3 & Hq3 & Hb3 & _).
  destruct (after_outb_fields 0xff ASPEED_MBOX_STATUS_1 w3)
    as (_ & Hr4 & Hq4 & Hb4 & _).
  destruct (after_outb_fields ASPEED_MBOX_CTRL_RECV ASPEED_MBOX_BMC_CTRL w4)
    as (_ & Hr5 & Hq5 & Hb5 & _).
  fold w1 in Hr1, Hq1, Hb1. fold w2 in Hr2, Hq2, Hb2.
  fold w3 in Hr3, Hq3, Hb3. fold w4 in Hr4, Hq4, Hb4.
  fold w5 in Hr5, Hq5, Hb5.
  rewrite Hq in Hq1. cbn [tl] in Hq1.
  rewrite Hq1 in Hq2. cbn [tl] in Hq2.
  rewrite Hq2 in Hq3. cbn [tl] in Hq3.
  rewrite Hq3 in Hq4. cbn [tl] in Hq4.
  rewrite Hq4 in Hq5. cbn [tl] in Hq5.
  unfold bus_next in Hr1, Hr2, Hr3, Hr4, Hr5.
  rewrite Hq in Hr1. rewrite Hq1 in Hr2. rewrite Hq2 in Hr3.
  rewrite Hq3 in Hr4. rewrite Hq4 in Hr5.
  cbn [hd Z.eqb] in Hr1, Hr2, Hr3, Hr4, Hr5.
  rewrite Hb1 in Hr2. rewrite Hb2, Hb1 in Hr3.
  rewrite Hb3, Hb2, Hb1 in Hr4.
  assert (mbox_base w4 = mbox_base w) as Hb4' by congruence.
  destruct (hw_after_ack w4 w5 Hb5) as (Hrecv & Hmask).
  { rewrite Hr5. reflexivity. }
  rewrite Hb4' in Hr5.
  change (u8 0) with 0 in *. change (u8 255) with 255 in *.
  split; [|split; [|split; [|split; [|split; [|split;
    [|split; [|split]]]]]]]; try done.
  - rewrite Hr5, hw_store_other by apart wrap_u32_apart.
    rewrite Hr4, hw_store_other by apart wrap_u32_apart.
    rewrite Hr3, hw_store_other by apart wrap_u32_apart.
    rewrite Hr2, hw_store_other by apart wrap_u32_apart.
    rewrite Hr1. apply hw_store_plain; apart wrap_u32_apart.
  - rewrite Hr5, hw_store_other by apart wrap_u32_apart.
    rewrite Hr4, hw_store_other by apart wrap_u32_apart.
    rewrite Hr3, hw_store_other by apart wrap_u32_apart.
    rewrite Hr2. apply hw_store_plain; apart wrap_u32_apart.
  - rewrite Hr5, hw_store_other by apart wrap_u32_apart.
    rewrite Hr4, hw_store_other by apart wrap_u32_apart.
    rewrite Hr3, hw_store_status by (by left).
    rewrite Hr2, hw_store_other by apart wrap_u32_apart.
    by rewrite Hr1, hw_store_other by apart wrap_u32_apart.
  - rewrite Hr5, hw_store_other by apart wrap_u32_apart.
    rewrite Hr4, hw_store_status by (by right).
    rewrite Hr3, hw_store_other by apart wrap_u32_apart.
    rewrite Hr2, hw_store_other by apart wrap_u32_apart.
    by rewrite Hr1, hw_store_other by apart wrap_u32_apart.
  - intros j Hj.
    rewrite Hr5, hw_store_other by apart wrap_u32_apart.
    rewrite Hr4, hw_store_other by apart wrap_u32_apart.
    rewrite Hr3, hw_store_other by apart wrap_u32_apart.
    rewrite Hr2, hw_store_other by apart wrap_u32_apart.
    by rewrite Hr1, hw_store_other by apart wrap_u32_apart.
  - rewrite Hr5, hw_store_other by apart wrap_u32_apart.
    rewrite Hr4, hw_store_other by apart wrap_u32_apart.
    rewrite Hr3, hw_store_other by apart wrap_u32_apart.
    rewrite Hr2, hw_store_other by apart wrap_u32_apart.
    by rewrite Hr1, hw_store_other by apart wrap_u32_apart.
Qed.

(** The two ways probe ends. *)
Lemma probe_cases pdev s :
  let w := pf_world s in
  (kernel_obliges pdev
   /\ aspeed_mbox_probe pdev s
      = (Returned 0,
         Platform (irq_configured (mbox_allocated pdev w)) true true
           (if request_irq_rc pdev =? 0 then Some (irq_mapped pdev)
            else irq_handler s)
           (pf_log s)))
  \/ (~ kernel_obliges pdev
      /\ exists r w1 d m msgs,
           aspeed_mbox_probe pdev s
           = (Returned r,
              Platform w1 d m (irq_handler s) (pf_log s ++ msgs))
           /\ r <> 0
           /\ (m = false \/ m = misc_registered s)
           /\ regs w1 = regs w /\ trace w1 = trace w
           /\ bus_rc w1 = bus_rc w
           /\ aspeed_mbox_open_count w1 = aspeed_mbox_open_count w
           /\ (kzalloc_ok pdev = true -> msgs <> [])
           /\ (kzalloc_ok pdev = false ->
               r = - ENOMEM /\ w1 = w /\ d = drvdata s
               /\ m = misc_registered s /\ msgs = [])).
Proof.
  intros w. subst w. rewrite probe_run. unfold kernel_obliges.
  destruct s as [w dd mr ih lg].
  destruct (kzalloc_ok pdev) eqn:Hk.
  2:{ right. split; [intros (? & _); discriminate|].
      exists (- ENOMEM), w, dd, mr, []. rewrite app_nil_r.
      repeat split; try done; auto. }
  cbn zeta. destruct (Z.eqb_spec (reg_rc pdev) 0) as [Hreg|Hreg].
  2:{ right. split; [tauto|].
      eexists (reg_rc pdev), _, _, mr, [NoRegProperty].
      split; [reflexivity|]. repeat split; try done; auto. }
  destruct (regmap_is_err pdev) eqn:Herr.
  { right. split; [intros (_ & _ & ? & _); discriminate|].
    eexists (- ENODEV), _, _, mr, [NoRegmap].
    split; [reflexivity|]. repeat split; try done; auto. }
  destruct (Z.eqb_spec (misc_register_rc pdev) 0) as [Hmisc|Hmisc].
  2:{ right. split; [tauto|].
      eexists (misc_register_rc pdev), _, _, mr, [NoMiscDevice].
      split; [reflexivity|]. repeat split; try done; auto. }
  rewrite config_irq_run.
  destruct (Z.eqb_spec (irq_mapped pdev) 0) as [Hirq|Hirq].
  { right. split; [tauto|].
    eexists (- ENODEV), _, _, false, [IrqNotConfigured].
    split; [reflexivity|]. repeat split; try done; auto. }
  destruct (Z.ltb_spec (request_irq_rc pdev) 0) as [Hrc|Hrc].
  { right. split; [lia|].
    eexists (request_irq_rc pdev), _, _, false,
      [IrqRefused (irq_mapped pdev); IrqNotConfigured].
    replace (request_irq_rc pdev =? 0) with false
      by (symmetry; apply Z.eqb_neq; lia).
    split; [unfold log_msg; cbn; by rewrite <- app_assoc|].
    repeat split; try done; auto. lia. }
  left. split; [by repeat split|].
  cbn [Z.eqb]. by destruct (request_irq_rc pdev =? 0).
Qed.

(** [aspeed_mbox_config_irq] with an interrupt to map and a handler the
    kernel accepts: it returns 0 after exactly five register writes and
    no read, in this order: 0 to both interrupt-enable registers, 0xff
    to both status registers, the RECV bit value to the BMC control
    register.  With a working bus that leaves the enable registers at
    zero, every status bit that was set cleared, RECV clear and the
    interrupt unmasked, so the line is down; the data window and the
    host control register are as they were.  The device node and the
    log are not touched. *)
Theorem config_irq_quiets_device pdev s :
  irq_mapped pdev <> 0 -> 0 <= request_irq_rc pdev ->
  let w := pf_world s in
  let b := mbox_base w in
  let s' := snd (aspeed_mbox_config_irq pdev s) in
  let w' := pf_world s' in
  fst (aspeed_mbox_config_irq pdev s) = Returned 0
  /\ (request_irq_rc pdev = 0 -> irq_handler s' = Some (irq_mapped pdev))
  /\ misc_registered s' = misc_registered s /\ pf_log s' = pf_log s
  /\ (exists evs,
        trace w' = trace w ++ evs
        /\ bus_writes evs
           = [(wrap_u32 (b + ASPEED_MBOX_INTERRUPT_0), 0x00);
              (wrap_u32 (b + ASPEED_MBOX_INTERRUPT_1), 0x00);
              (wrap_u32 (b + ASPEED_MBOX_STATUS_0), 0xff);
              (wrap_u32 (b + ASPEED_MBOX_STATUS_1), 0xff);
              (wrap_u32 (b + ASPEED_MBOX_BMC_CTRL), ASPEED_MBOX_CTRL_RECV)]
        /\ bus_reads evs = [])
  /\ (bus_rc w = [] ->
      hw_load (regs w') (wrap_u32 (b + ASPEED_MBOX_INTERRUPT_0)) = 0
      /\ hw_load (regs w') (wrap_u32 (b + ASPEED_MBOX_INTERRUPT_1)) = 0
      /\ hw_load (regs w') (wrap_u32 (b + ASPEED_MBOX_STATUS_0))
         = Z.ldiff (hw_load (regs w) (wrap_u32 (b + ASPEED_MBOX_STATUS_0)))
                   0xff
      /\ hw_load (regs w') (wrap_u32 (b + ASPEED_MBOX_STATUS_1))
         = Z.ldiff (hw_load (regs w) (wrap_u32 (b + ASPEED_MBOX_STATUS_1)))
                   0xff
      /\ hw_recv w' = false /\ hw_mask w' = false /\ irq_line w' = false
      /\ (forall j, 0 <= j < 16 ->
            hw_load (regs w') (data_addr w j)
            = hw_load (regs w) (data_addr w j))
      /\ hw_load (regs w') (wrap_u32 (b + ASPEED_MBOX_HOST_CTRL))
         = hw_load (regs w) (wrap_u32 (b + ASPEED_MBOX_HOST_CTRL))).
Proof.
  intros Hirq Hrc w b s' w'. subst s' w'. rewrite config_irq_run.
  replace (irq_mapped pdev =? 0) with false
    by (symmetry; by apply Z.eqb_neq).
  replace (request_irq_rc pdev <? 0) with false
    by (symmetry; apply Z.ltb_ge; lia).
  cbn [fst snd]. split; [reflexivity|].
  split; [intros ->; reflexivity|].
  split; [by destruct (request_irq_rc pdev =? 0)|].
  split; [by destruct (request_irq_rc pdev =? 0)|].
  change (pf_world (set_pf_world (irq_configured (pf_world s)) _))
    with (irq_configured w).
  destruct (irq_configured_fields w) as (Hev & _).
  split; [exact Hev|]. intros Hq.
  destruct (irq_configured_quiet w Hq)
    as (H0 & H1 & Hs0 & Hs1 & Hrecv & Hmask & Hwin & Hhost & _).
  cbn zeta in H0, H1, Hs0, Hs1, Hwin, Hhost.
  do 4 (split; [done|]). split; [exact Hrecv|]. split; [exact Hmask|].
  split; [unfold irq_line; by rewrite Hrecv|]. by split.
Qed.

(** A device on the sample register block with interrupt 42. *)
Lemma config_irq_quiets_device_witness :
  (irq_mapped sample_pdev <> 0 /\ 0 <= request_irq_rc sample_pdev)
  /\ fst (aspeed_mbox_config_irq sample_pdev (unbound w_ringing))
     = Returned 0.
Proof.
  split; [by vm_compute|].
  exact (proj1 (config_irq_quiets_device sample_pdev (unbound w_ringing)
                  ltac:(by vm_compute) ltac:(by vm_compute))).
Defined.

(** [aspeed_mbox_config_irq] without an interrupt, or with a handler the
    kernel refuses: it returns a code that is not 0 (-ENODEV, or what
    devm_request_irq returned) and has reached for no register; the
    handler is not installed. *)
Theorem config_irq_failure_touches_nothing pdev s :
  irq_mapped pdev = 0 \/ request_irq_rc pdev < 0 ->
  let s' := snd (aspeed_mbox_config_irq pdev s) in
  (exists r, fst (aspeed_mbox_config_irq pdev s) = Returned r /\ r < 0
             /\ (irq_mapped pdev = 0 -> r = - ENODEV)
             /\ (irq_mapped pdev <> 0 -> r = request_irq_rc pdev))
  /\ pf_world s' = pf_world s
  /\ irq_handler s' = irq_handler s
  /\ misc_registered s' = misc_registered s
  /\ (irq_mapped pdev = 0 -> s' = s).
Proof.
  intros Hfail s'. subst s'. rewrite config_irq_run.
  destruct (Z.eqb_spec (irq_mapped pdev) 0) as [Hirq|Hirq].
  - cbn [fst snd]. split; [|by repeat split].
    exists (- ENODEV). split; [reflexivity|]. split; [by vm_compute|].
    split; [done|]. intros Hne. by destruct Hne.
  - destruct Hfail as [Hfail|Hfail]; [done|].
    replace (request_irq_rc pdev <? 0) with true
      by (symmetry; by apply Z.ltb_lt).
    cbn [fst snd]. split; [|by repeat split].
    exists (request_irq_rc pdev). by repeat split.
Qed.

(** A device without an interrupt in its device-tree node. *)
Lemma config_irq_failure_touches_nothing_witness :
  let pdev := PlatformDevice true 0 0x180 false 0 0 0 in
  (irq_mapped pdev = 0 \/ request_irq_rc pdev < 0)
  /\ pf_world (snd (aspeed_mbox_config_irq pdev (unbound w_ringing)))
     = w_ringing.
Proof.
  cbn zeta. split; [by left|].
  exact (proj1 (proj2 (config_irq_failure_touches_nothing
                         (PlatformDevice true 0 0x180 false 0 0 0)
                         (unbound w_ringing) (or_introl eq_refl)))).
Defined.

(** Probe always returns, and it returns 0 exactly when the kernel has
    answered every call with success.  A probe that fails has written
    no register and made no bus transaction, has left the session
    counter alone, has installed no interrupt handler, and leaves no
    device node behind: the one failure that comes after the node is
    registered takes it down again.  Every failure but the failed
    allocation, which returns -ENOMEM with nothing changed at all, is
    logged. *)
Theorem probe_failure_is_clean pdev s :
  misc_registered s = false ->
  let w := pf_world s in
  exists r s',
    aspeed_mbox_probe pdev s = (Returned r, s')
    /\ (r = 0 <-> kernel_obliges pdev)
    /\ (r = 0 -> misc_registered s' = true /\ drvdata s' = true)
    /\ (r <> 0 ->
        misc_registered s' = false
        /\ irq_handler s' = irq_handler s
        /\ regs (pf_world s') = regs w
        /\ trace (pf_world s') = trace w
        /\ bus_rc (pf_world s') = bus_rc w
        /\ aspeed_mbox_open_count (pf_world s') = aspeed_mbox_open_count w
        /\ (kzalloc_ok pdev = true -> pf_log s' <> pf_log s)
        /\ (kzalloc_ok pdev = false -> r = - ENOMEM /\ s' = s)).
Proof.
  intros Hmr w. subst w.
  destruct (probe_cases pdev s) as [(Hall & Hrun) | (Hnot & Hfail)].
  - eexists 0, _. split; [exact Hrun|].
    split; [tauto|]. split; [done|]. intros Hne. by destruct Hne.
  - destruct Hfail as (r & w1 & d & m & msgs & Hrun & Hr & Hm & Hregs & Htr
                       & Hbus & Hoc & Hlog & Hnomem).
    eexists r, _. split; [exact Hrun|].
    split; [tauto|]. split; [intros ->; by destruct Hr|]. intros _.
    cbn [misc_registered irq_handler pf_world pf_log].
    split; [destruct Hm; congruence|]. do 5 (split; [done|]).
    split.
    + intros Hk Heq. apply (Hlog Hk).
      apply (f_equal length) in Heq. rewrite length_app in Heq.
      destruct msgs; [done|]. cbn in Heq. lia.
    + intros Hk. destruct (Hnomem Hk) as (-> & -> & -> & -> & ->).
      split; [done|]. rewrite app_nil_r. by destruct s.
Qed.

(** A probe whose interrupt request the kernel refuses with -EBUSY. *)
Lemma probe_failure_is_clean_witness :
  let pdev := PlatformDevice true 0 0x180 false 0 42 (- EBUSY) in
  misc_registered (unbound w_idle) = false
  /\ exists r s',
       aspeed_mbox_probe pdev (unbound w_idle) = (Returned r, s')
       /\ r <> 0 /\ misc_registered s' = false.
Proof.
  cbn zeta. split; [reflexivity|].
  destruct (probe_failure_is_clean
              (PlatformDevice true 0 0x180 false 0 42 (- EBUSY))
              (unbound w_idle) eq_refl)
    as (r & s' & Hrun & Hiff & _ & Hfail).
  assert (r <> 0) as Hr.
  { intros Hz. apply Hiff in Hz. destruct Hz as (_ & _ & _ & _ & _ & Hrc).
    vm_compute in Hrc. by apply Hrc. }
  exists r, s'. split; [exact Hrun|]. split; [exact Hr|].
  by destruct (Hfail Hr) as (Hm & _).
Defined.

(** A probe the kernel obliges returns 0 with the device node
    registered and the handler installed.  The mailbox object carries
    the base read from the device tree and a free mutex, and the five
    configuration writes went to the register block at that base.  The
    session counter is not reset.  With a working bus the device is
    left idle: RECV clear, the interrupt unmasked, the line down; poll
    reports nothing, the handler would decline, and with no session
    open the first open succeeds. *)
Theorem probe_binds_quiet_device pdev s :
  kernel_obliges pdev ->
  let w := pf_world s in
  let b := wrap_u32 (reg_val pdev) in
  let s' := snd (aspeed_mbox_probe pdev s) in
  let w' := pf_world s' in
  fst (aspeed_mbox_probe pdev s) = Returned 0
  /\ misc_registered s' = true /\ drvdata s' = true
  /\ (request_irq_rc pdev = 0 -> irq_handler s' = Some (irq_mapped pdev))
  /\ pf_log s' = pf_log s
  /\ mbox_base w' = b /\ mutex_held w' = false
  /\ aspeed_mbox_open_count w' = aspeed_mbox_open_count w
  /\ umem w' = umem w
  /\ (exists evs,
        trace w' = trace w ++ evs
        /\ bus_writes evs
           = [(wrap_u32 (b + ASPEED_MBOX_INTERRUPT_0), 0x00);
              (wrap_u32 (b + ASPEED_MBOX_INTERRUPT_1), 0x00);
              (wrap_u32 (b + ASPEED_MBOX_STATUS_0), 0xff);
              (wrap_u32 (b + ASPEED_MBOX_STATUS_1), 0xff);
              (wrap_u32 (b + ASPEED_MBOX_BMC_CTRL), ASPEED_MBOX_CTRL_RECV)]
        /\ bus_reads evs = [])
  /\ (bus_rc w = [] ->
      hw_recv w' = false /\ hw_mask w' = false /\ irq_line w' = false
      /\ fst (aspeed_mbox_poll w') = Returned 0
      /\ fst (aspeed_mbox_irq w') = Returned IRQ_NONE
      /\ (aspeed_mbox_open_count w = 0 ->
          fst (aspeed_mbox_open w') = Returned 0)).
Proof.
  intros Hall w b s' w'. subst s' w'.
  destruct (probe_cases pdev s) as [(_ & Hrun) | (Hnot & _)]; [|tauto].
  rewrite Hrun. cbn [fst snd pf_world misc_registered drvdata irq_handler
                     pf_log].
  fold w. set (w0 := mbox_allocated pdev w).
  destruct (irq_configured_fields w0) as (Hev & Hb & Hoc & Hmx & Hum).
  cbn zeta in Hev, Hb.
  change (mbox_base w0) with b in Hev, Hb.
  split; [reflexivity|]. do 2 (split; [reflexivity|]).
  split; [intros ->; reflexivity|]. split; [reflexivity|].
  split; [exact Hb|]. split; [exact Hmx|]. split; [exact Hoc|].
  split; [exact Hum|]. split; [exact Hev|].
  intros Hq.
  destruct (irq_configured_quiet w0 Hq)
    as (_ & _ & _ & _ & Hrecv & Hmask & _ & _ & Hq').
  assert (recv_observed (irq_configured w0) = false) as Hobs.
  { by rewrite quiet_bus_observes. }
  split; [exact Hrecv|]. split; [exact Hmask|].
  split; [unfold irq_line; by rewrite Hrecv|].
  split; [by rewrite poll_run, Hobs|].
  split; [by rewrite irq_run, Hobs|].
  intros Hz. rewrite open_run; [reflexivity|]. by rewrite Hoc.
Qed.

(** The sample device bound on the sample register block. *)
Lemma probe_binds_quiet_device_witness :
  kernel_obliges sample_pdev
  /\ fst (aspeed_mbox_probe sample_pdev (unbound w_ringing)) = Returned 0
  /\ misc_registered (snd (aspeed_mbox_probe sample_pdev (unbound w_ringing)))
     = true.
Proof.
  assert (kernel_obliges sample_pdev) as Hall.
  { repeat split; by vm_compute. }
  split; [exact Hall|].
  destruct (probe_binds_quiet_device sample_pdev (unbound w_ringing) Hall)
    as (Hr & Hm & _).
  by split.
Defined.

Lemma probe_open_count pdev s :
  aspeed_mbox_open_count (pf_world (snd (aspeed_mbox_probe pdev s)))
  = aspeed_mbox_open_count (pf_world s).
Proof.
  destruct (probe_cases pdev s) as [(_ & Hrun) | (_ & Hfail)].
  - rewrite Hrun. cbn [snd pf_world].
    by destruct (irq_configured_fields (mbox_allocated pdev (pf_world s)))
      as (_ & _ & -> & _).
  - destruct Hfail as (r & w1 & d & m & msgs & Hrun & _ & _ & _ & _ & _
                       & Hoc & _).
    by rewrite Hrun.
Qed.

(** [aspeed_mbox_remove] takes the device node down and returns 0.  It
    makes no register access, so the interrupt stays as it was, and it
    does not touch the session counter, which belongs to the module and
    not to the device: neither does a later probe.  So while a session
    that was open at the unbind has not been released, the device a new
    probe binds refuses every open with -EBUSY. *)
Theorem remove_keeps_session_count pdev s :
  let c := aspeed_mbox_open_count (pf_world s) in
  - 2 ^ 31 <= c < 2 ^ 31 -> c <> 0 ->
  let s1 := snd (aspeed_mbox_remove s) in
  let s2 := snd (aspeed_mbox_probe pdev s1) in
  aspeed_mbox_remove s = (Returned 0, s1)
  /\ misc_registered s1 = false
  /\ pf_world s1 = pf_world s /\ irq_handler s1 = irq_handler s
  /\ aspeed_mbox_open_count (pf_world s2) = c
  /\ aspeed_mbox_open (pf_world s2) = (Returned (- EBUSY), pf_world s2).
Proof.
  intros c Hc Hne s1 s2.
  assert (aspeed_mbox_open_count (pf_world s2) = c) as Hoc.
  { subst s2. by rewrite probe_open_count. }
  do 4 (split; [reflexivity|]). split; [exact Hoc|].
  apply open_busy; by rewrite Hoc.
Qed.

(** A session open across an unbind and a new bind. *)
Lemma remove_keeps_session_count_witness :
  (- 2 ^ 31 <= aspeed_mbox_open_count (pf_world (unbound w_in_use)) < 2 ^ 31
   /\ aspeed_mbox_open_count (pf_world (unbound w_in_use)) <> 0)
  /\ misc_registered (snd (aspeed_mbox_remove (unbound w_in_use))) = false.
Proof.
  split; [by vm_compute|].
  exact (proj1 (proj2 (remove_keeps_session_count sample_pdev
                         (unbound w_in_use) ltac:(by vm_compute)
                         ltac:(by vm_compute)))).
Defined.

(** ** From the host's doorbell to the reader's buffer *)

Lemma host_fill_lookup base msg : forall i r (k : nat) m,
  0 <= i -> i + Z.of_nat (length msg) <= 16 -> msg !! k = Some m ->
  hw_load (host_fill r base i msg)
          (wrap_u32 (base + (ASPEED_MBOX_DATA_0 + (i + Z.of_nat k) * 4)))
  = u8 m.
Proof.
  induction msg as [|c msg IH]; intros i r k m Hi Hlen Hk; [done|].
  cbn [length] in Hlen. destruct k as [|k]; cbn [host_fill].
  - injection Hk as ->. rewrite Z.add_0_r, host_fill_other.
    + unfold hw_load. by rewrite lookup_insert_eq.
    + intros k Hk. unfold ASPEED_MBOX_DATA_0. apply wrap_u32_apart; lia.
  - replace (i + Z.of_nat (S k)) with (i + 1 + Z.of_nat k) by lia.
    apply IH; [lia|lia|exact Hk].
Qed.

(** What the host leaves when it rings: RECV set, the mask as it was,
    its bytes in the window. *)
Lemma host_post_fields msg w :
  hw_recv (host_post msg w) = true
  /\ hw_mask (host_post msg w) = hw_mask w
  /\ (forall (k : nat) m, take 16 msg !! k = Some m ->
        hw_load (regs (host_post msg w)) (data_addr w (Z.of_nat k)) = u8 m).
Proof.
  assert (forall k : nat, (k < length (take 16 msg))%nat ->
    ctrl_addr w
    <> wrap_u32 (mbox_base w
                 + (ASPEED_MBOX_DATA_0 + (0 + Z.of_nat k) * 4))) as Hapart.
  { intros k Hk. rewrite length_take in Hk.
    unfold ctrl_addr, ASPEED_MBOX_BMC_CTRL, ASPEED_MBOX_DATA_0.
    apply wrap_u32_apart; lia. }
  split; [|split].
  - unfold hw_recv, hw_ctrl, host_post.
    change (ctrl_addr (set_regs _ w)) with (ctrl_addr w).
    cbn [regs set_regs]. unfold hw_load at 1. rewrite lookup_insert_eq.
    cbn [default from_option id]. rewrite Z.lor_spec.
    change (Z.testbit ASPEED_MBOX_CTRL_RECV 7) with true.
    apply orb_true_r.
  - unfold hw_mask, hw_ctrl, host_post.
    change (ctrl_addr (set_regs _ w)) with (ctrl_addr w).
    cbn [regs set_regs]. unfold hw_load at 1. rewrite lookup_insert_eq.
    cbn [default from_option id]. rewrite Z.lor_spec, host_fill_other by done.
    change (Z.testbit ASPEED_MBOX_CTRL_RECV 1) with false.
    apply orb_false_r.
  - intros k m Hk. pose proof (lookup_lt_Some _ _ _ Hk) as Hlt.
    unfold host_post. cbn [regs set_regs]. unfold hw_load at 1.
    rewrite lookup_insert_ne.
    2:{ specialize (Hapart k Hlt). rewrite Z.add_0_l in Hapart.
        exact Hapart. }
    fold (hw_load (host_fill (regs w) (mbox_base w) 0 (take 16 msg))
            (data_addr w (Z.of_nat k))).
    unfold data_addr.
    replace (Z.of_nat k) with (0 + Z.of_nat k) by lia.
    apply host_fill_lookup; [lia| |exact Hk].
    rewrite length_take. lia.
Qed.

(** A doorbell on a working bus while the interrupt is unmasked: the
    handler runs and claims it. *)
Lemma doorbell_step msg w :
  bus_rc w = [] -> hw_mask w = false ->
  env_step (HostDoorbell msg) w = irq_done (host_post msg w).
Proof.
  intros Hq Hmask. cbn [env_step].
  destruct (host_post_fields msg w) as (Hrecv & Hm & _).
  unfold irq_line. rewrite Hrecv, Hm, Hmask. cbn [negb andb].
  rewrite irq_run, quiet_bus_observes by exact Hq. by rewrite Hrecv.
Qed.

Lemma read_done_sched buf count ppos w :
  sched (read_done buf count ppos w) = sched w.
Proof.
  unfold read_done, unlocked, locked. rewrite read_copy_world_eq.
  destruct w as [b r rcs oc mh al um sp sc tr].
  unfold after_outb. world_fields.
  destruct (hd 0 (drop (Z.to_nat count) rcs) =? 0); world_fields; done.
Qed.

Lemma irq_done_sched w : sched (irq_done w) = sched w.
Proof.
  unfold irq_done, after_outb, after_inb.
  destruct w as [b r rcs oc mh al um sp sc tr]. world_fields.
  destruct (hd 0 (tl rcs) =? 0); world_fields; done.
Qed.

Lemma actions_spurious c k :
  actions (concat (replicate k [BusRead c; Schedule]))
  = concat (replicate k [BusRead c; Schedule]).
Proof.
  induction k as [|k IH]; [reflexivity|].
  cbn [replicate concat]. rewrite actions_app, IH. reflexivity.
Qed.

(** The whole path of a message.  A blocking reader sleeps on an idle
    mailbox; after some wakes that bring nothing the host stores a
    message and rings.  The handler runs: it reads the control register,
    masks the interrupt and wakes the wait queue.  The reader tests the
    condition again, finds RECV set, takes the mutex, copies the bytes
    of the message at the positions it asked for into its buffer,
    acknowledges and returns its count: RECV is clear and the interrupt
    unmasked again, the mutex is free, and what was still to happen is
    left for later.  The actions of the call, the handler's among them,
    are exactly the ones listed. *)
Theorem doorbell_wakes_reader w f buf count ppos k msg rest :
  Z.land f O_NONBLOCK = 0 -> mutex_held w = false ->
  0 <= count -> 0 <= ppos -> count + ppos <= 16 ->
  user_range w buf count -> user_mapped w buf count ->
  bus_rc w = [] -> hw_recv w = false -> hw_mask w = false ->
  sigpending w = false ->
  sched w = replicate k SpuriousWake ++ HostDoorbell msg :: rest ->
  exists w',
    aspeed_mbox_read f buf count ppos w = (Returned count, w')
    /\ (forall (j : nat) m,
          Z.of_nat j < count -> msg !! (Z.to_nat ppos + j)%nat = Some m ->
          umem w' !! (buf + Z.of_nat j) = Some (u8 m))
    /\ hw_recv w' = false /\ hw_mask w' = false
    /\ mutex_held w' = false /\ sched w' = rest
    /\ exists evs,
         trace w' = trace w ++ evs
         /\ actions evs
            = BusRead (ctrl_addr w)
              :: concat (replicate k [BusRead (ctrl_addr w); Schedule])
              ++ [BusRead (ctrl_addr w); Schedule;
                  BusRead (ctrl_addr w);
                  BusWrite (ctrl_addr w) ASPEED_MBOX_CTRL_MASK;
                  WakeUp;
                  BusRead (ctrl_addr w);
                  MutexLock]
              ++ ((fun j => BusRead (data_addr w j)) <$> seqZ ppos count)
              ++ [BusWrite (ctrl_addr w) ASPEED_MBOX_CTRL_RECV;
                  MutexUnlock].
Proof.
  intros Hf Hmx Hc Hp Hcp Hr Hm Hq Hrecv Hmask Hsig Hs.
  destruct (wait_event_spurious k w (HostDoorbell msg :: rest))
    as (w1 & Hrun & Hs1 & Hq1 & Hsig1 & Hregs1 & Hbase1 & Hum1 & Hmx1 & Hal1
        & Htr1); try done.
  assert (hw_recv w1 = false) as Hrecv1.
  { rewrite <- Hrecv. by apply hw_same_regs. }
  assert (hw_mask w1 = false) as Hmask1.
  { rewrite <- Hmask. by apply hw_same_regs. }
  set (w2 := emit Schedule
               (set_sched rest (after_inb ASPEED_MBOX_BMC_CTRL w1))).
  set (hp := host_post msg w2).
  set (w3 := irq_done hp).
  set (w4 := after_inb ASPEED_MBOX_BMC_CTRL w3).
  assert (bus_rc w2 = []) as Hq2.
  { subst w2. cbn [bus_rc emit set_sched]. rewrite after_inb_bus_rc.
    by rewrite Hq1. }
  assert (hw_mask w2 = false) as Hmask2.
  { rewrite <- Hmask1. by apply hw_same_regs. }
  destruct (host_post_fields msg w2) as (Hrecvp & Hmaskp & Hbytes).
  fold hp in Hrecvp, Hmaskp, Hbytes.
  destruct (irq_done_fields hp) as (Htr3 & Hregs3 & Hbase3).
  destruct (irq_done_rest hp) as (Hq3 & Hal3 & Hum3 & Hmx3).
  fold w3 in Hregs3, Hbase3, Hq3, Hal3, Hum3, Hmx3.
  cbn zeta in Htr3. unfold bus_next in Htr3. fold w3 in Htr3.
  change (bus_rc hp) with (bus_rc w2) in Hq3, Hregs3, Htr3.
  rewrite Hq2 in Hq3, Hregs3, Htr3. cbn [tl] in Hq3.
  rewrite nth_nil in Htr3. cbn [hd] in Htr3.
  rewrite nth_nil in Hregs3. cbn [Z.eqb] in Hregs3. cbn zeta in Hregs3.
  destruct (hw_after_mask hp w3 Hbase3 Hregs3) as (Hrecv3 & Hmask3).
  rewrite Hrecvp in Hrecv3.
  assert (read_wait f w = (Returned None, w4)) as Hwait.
  { rewrite read_wait_blocking by done. unfold bind at 1. rewrite Hrun.
    cbn [length]. rewrite wait_loop_clear by done. cbn zeta.
    rewrite Hsig1. unfold bind at 1, schedule.
    change (sched (after_inb ASPEED_MBOX_BMC_CTRL w1)) with (sched w1).
    rewrite Hs1. fold w2. rewrite doorbell_step by done. fold hp w3.
    rewrite wait_loop_eq. erewrite bind_run by apply recv_condition_run.
    rewrite recv_test. fold (recv_observed w3).
    rewrite quiet_bus_observes by done. rewrite Hrecv3. reflexivity. }
  assert (bus_rc w4 = []) as Hq4.
  { subst w4. rewrite after_inb_bus_rc. by rewrite Hq3. }
  assert (mbox_base w4 = mbox_base w) as Hbase4.
  { change (mbox_base w4) with (mbox_base w3). rewrite Hbase3.
    exact Hbase1. }
  assert (umem w4 = umem w) as Hum4.
  { change (umem w4) with (umem w3). rewrite Hum3. exact Hum1. }
  assert (mutex_held w4 = false) as Hmx4.
  { change (mutex_held w4) with (mutex_held w3). rewrite Hmx3.
    change (mutex_held hp) with (mutex_held w1). congruence. }
  exists (read_done buf count ppos w4).
  destruct (read_done_fields buf count ppos w4)
    as (Htrd & Humd & Hregsd & _ & Hmxd & Hbased & _).
  cbn zeta in Htrd, Humd, Hregsd.
  rewrite Hq4, nth_nil in Hregsd. cbn [Z.eqb] in Hregsd.
  rewrite Hq4, nth_nil in Htrd.
  destruct (hw_after_ack w4 _ Hbased Hregsd) as (Hrecvd & Hmaskd).
  split; [|split; [|split; [|split; [|split; [|split]]]]]; try done.
  - rewrite read_entry by done. rewrite Hwait.
    apply read_locked_run; try done.
    intros i Hi. rewrite Hum4. by apply Hm.
  - intros j m Hj Hmsg. rewrite Humd.
    rewrite read_copy_umem_lookup by lia.
    rewrite Hq4, nth_nil, rd_byte_ok, Hbase4.
    change (regs w4) with (regs w3). rewrite Hregs3.
    rewrite data_addr_reg by lia.
    change (mbox_base hp) with (mbox_base w2).
    change (data_addr w (ppos + Z.of_nat j))
      with (wrap_u32 (mbox_base w
                      + (ASPEED_MBOX_DATA_0 + (ppos + Z.of_nat j) * 4))).
    rewrite <- Hbase1.
    change (wrap_u32 (mbox_base w1
                      + (ASPEED_MBOX_DATA_0 + (ppos + Z.of_nat j) * 4)))
      with (data_addr w2 (ppos + Z.of_nat j)).
    change (ctrl_addr hp) with (ctrl_addr w2).
    rewrite hw_store_other by (apply data_addr_ne_ctrl; lia).
    replace (ppos + Z.of_nat j)
      with (Z.of_nat (Z.to_nat ppos + j)) by lia.
    rewrite (Hbytes _ m).
    + unfold u8. by rewrite <- Z.land_assoc, Z.land_diag.
    + rewrite lookup_take_lt by lia. exact Hmsg.
  - rewrite read_done_sched.
    change (sched w4) with (sched w3). subst w3. by rewrite irq_done_sched.
  - assert (trace w4
            = trace w
              ++ (BusRead (ctrl_addr w)
                  :: concat (replicate k [BusRead (ctrl_addr w); Schedule]))
              ++ [BusRead (ctrl_addr w); Schedule]
              ++ rd_events (mbox_base w) ASPEED_MBOX_BMC_CTRL 0
              ++ wr_events (mbox_base w) ASPEED_MBOX_CTRL_MASK
                   ASPEED_MBOX_BMC_CTRL 0
              ++ [WakeUp]
              ++ rd_events (mbox_base w) ASPEED_MBOX_BMC_CTRL 0) as Htr4.
    { unfold w4 at 1. rewrite after_inb_trace. unfold bus_next.
      rewrite Hq3. cbn [hd]. rewrite Hbase3, Htr3.
      change (mbox_base hp) with (mbox_base w1).
      change (trace hp) with (trace w2). subst w2.
      cbn [trace emit set_sched]. rewrite after_inb_trace.
      unfold bus_next. rewrite Hq1. cbn [hd]. rewrite Htr1, Hbase1.
      unfold rd_events at 1. cbn [Z.eqb]. fold (ctrl_addr w).
      rewrite <- !app_assoc. reflexivity. }
    eexists. split.
    + rewrite Htrd, Htr4, Hbase4. rewrite <- !app_assoc. reflexivity.
    + rewrite !actions_app.
      change (actions (BusRead (ctrl_addr w)
                       :: concat (replicate k
                                    [BusRead (ctrl_addr w); Schedule])))
        with (BusRead (ctrl_addr w)
              :: actions (concat (replicate k
                                    [BusRead (ctrl_addr w); Schedule]))).
      rewrite actions_spurious, !actions_rd_events, !actions_wr_events.
      rewrite actions_read_window by lia.
      rewrite Z2Nat.id by lia. fold (ctrl_addr w).
      change (actions [BusRead (ctrl_addr w); Schedule])
        with [BusRead (ctrl_addr w); Schedule].
      change (actions [WakeUp]) with [WakeUp].
      change (actions [MutexLock]) with [MutexLock].
      change (actions [MutexUnlock]) with [MutexUnlock].
      reflexivity.
Qed.

(** The sleeper's sample world: a spurious wake, then the host rings
    with three bytes. *)
Lemma doorbell_wakes_reader_witness :
  (Z.land 0 O_NONBLOCK = 0 /\ mutex_held w_waiting = false
   /\ 0 <= 3 /\ 0 <= 0 /\ 3 + 0 <= 16
   /\ user_range w_waiting 0x1000 3 /\ user_mapped w_waiting 0x1000 3
   /\ bus_rc w_waiting = [] /\ hw_recv w_waiting = false
   /\ hw_mask w_waiting = false /\ sigpending w_waiting = false
   /\ sched w_waiting
      = replicate 1 SpuriousWake ++ HostDoorbell [0x41; 0x42; 0x43] :: [])
  /\ exists w',
       aspeed_mbox_read 0 0x1000 3 0 w_waiting = (Returned 3, w')
       /\ umem w' !! (0x1000 + Z.of_nat 1) = Some (u8 0x42).
Proof.
  assert (user_mapped w_waiting 0x1000 3) as Hm.
  { intros k Hk.
    assert (k = 0 \/ k = 1 \/ k = 2) as [-> | [-> | ->]] by lia;
      vm_compute; by eexists. }
  split.
  { split; [reflexivity|]. split; [reflexivity|]. do 3 (split; [lia|]).
    split; [by vm_compute|]. split; [exact Hm|]. split; [reflexivity|].
    do 2 (split; [vm_compute; reflexivity|]). by split. }
  destruct (doorbell_wakes_reader w_waiting 0 0x1000 3 0 1
              [0x41; 0x42; 0x43] []
              eq_refl eq_refl ltac:(lia) ltac:(lia) ltac:(lia)
              ltac:(by vm_compute) Hm eq_refl
              ltac:(vm_compute; reflexivity) ltac:(vm_compute; reflexivity)
              eq_refl eq_refl)
    as (w' & Hrun & Hbytes & _).
  exists w'. split; [exact Hrun|].
  apply (Hbytes 1%nat 0x42); [lia|reflexivity].
Defined.

(** ** Control writes the bus refuses *)

(** [aspeed_mbox_outb] returns nothing, so its callers cannot tell a
    write that failed.  An open on a closed device whose acknowledge
    write fails still returns 0 and holds the session; the registers
    are untouched, so a RECV or a mask that was set stays set, and the
    failure is in the log. *)
Theorem open_succeeds_on_dead_bus w :
  aspeed_mbox_open_count w = 0 -> bus_next w <> 0 ->
  let w' := snd (aspeed_mbox_open w) in
  fst (aspeed_mbox_open w) = Returned 0
  /\ aspeed_mbox_open_count w' = 1
  /\ regs w' = regs w
  /\ hw_recv w' = hw_recv w /\ hw_mask w' = hw_mask w
  /\ trace w'
     = trace w
       ++ [BusWrite (ctrl_addr w) ASPEED_MBOX_CTRL_RECV;
           DevErr (WriteFailed (bus_next w) ASPEED_MBOX_CTRL_RECV
                     ASPEED_MBOX_BMC_CTRL)].
Proof.
  intros Hc Hbus w'. subst w'. rewrite open_run by exact Hc.
  cbn [fst snd].
  destruct (open_done_fields w) as (Htr & Hregs & Hoc & _ & _ & Hbase).
  replace (bus_next w =? 0) with false in Hregs
    by (symmetry; by apply Z.eqb_neq).
  destruct (hw_same_regs w (open_done w) Hbase Hregs) as (Hrecv & Hmask & _).
  split; [reflexivity|]. do 4 (split; [done|]).
  rewrite Htr. unfold wr_events.
  replace (bus_next w =? 0) with false by (symmetry; by apply Z.eqb_neq).
  reflexivity.
Qed.

(** An open on the idle sample device with the bus down. *)
Lemma open_succeeds_on_dead_bus_witness :
  (aspeed_mbox_open_count w_idle_bus_down = 0
   /\ bus_next w_idle_bus_down <> 0)
  /\ fst (aspeed_mbox_open w_idle_bus_down) = Returned 0.
Proof.
  split; [by vm_compute|].
  exact (proj1 (open_succeeds_on_dead_bus w_idle_bus_down eq_refl
                  ltac:(by vm_compute))).
Defined.

(** The interrupt handler does not notice a mask write that fails
    either: it wakes the wait queue and returns IRQ_HANDLED, but the
    mask bit has not been set.  With RECV set and the interrupt
    unmasked before, the line is still up when the handler returns. *)
Theorem irq_mask_failure_leaves_line_up w rc rest :
  bus_rc w = 0 :: rc :: rest -> rc <> 0 ->
  hw_recv w = true -> hw_mask w = false ->
  let w' := snd (aspeed_mbox_irq w) in
  fst (aspeed_mbox_irq w) = Returned IRQ_HANDLED
  /\ regs w' = regs w
  /\ irq_line w' = true
  /\ trace w'
     = trace w
       ++ [BusRead (ctrl_addr w);
           BusWrite (ctrl_addr w) ASPEED_MBOX_CTRL_MASK;
           DevErr (WriteFailed rc ASPEED_MBOX_CTRL_MASK ASPEED_MBOX_BMC_CTRL);
           WakeUp].
Proof.
  intros Hbus Hrc Hrecv Hmask w'. subst w'. rewrite irq_run.
  rewrite recv_observed_hw by (unfold bus_next; by rewrite Hbus).
  rewrite Hrecv. cbn [fst snd].
  destruct (irq_done_fields w) as (Htr & Hregs & Hbase).
  cbn zeta in Htr, Hregs. unfold bus_next in Htr.
  rewrite Hbus in Htr, Hregs. cbn [nth hd] in Htr, Hregs.
  assert ((rc =? 0) = false) as Hrcb by (by apply Z.eqb_neq).
  rewrite Hrcb in Hregs.
  destruct (hw_same_regs w (irq_done w) Hbase Hregs) as (_ & _ & Hline).
  split; [reflexivity|]. split; [exact Hregs|].
  split; [rewrite Hline; unfold irq_line; by rewrite Hrecv, Hmask|].
  rewrite Htr. unfold rd_events, wr_events. rewrite Hrcb. reflexivity.
Qed.

(** The host has rung and the bus fails on the handler's mask write. *)
Lemma irq_mask_failure_leaves_line_up_witness :
  let w := set_bus_rc [0; -5] w_ringing in
  (bus_rc w = 0 :: -5 :: [] /\ -5 <> 0
   /\ hw_recv w = true /\ hw_mask w = false)
  /\ fst (aspeed_mbox_irq w) = Returned IRQ_HANDLED
  /\ irq_line (snd (aspeed_mbox_irq w)) = true.
Proof.
  cbn zeta.
  destruct (irq_mask_failure_leaves_line_up (set_bus_rc [0; -5] w_ringing)
              (-5) [] eq_refl ltac:(lia) ltac:(vm_compute; reflexivity)
              ltac:(vm_compute; reflexivity))
    as (Hr & _ & Hline & _).
  split; [|by split].
  split; [reflexivity|]. split; [lia|]. split; vm_compute; reflexivity.
Defined.
